(** * A shallow embedding of the crypto converter scripts

    Two independent browser scripts are modelled:
    - the [CryptoConverter] class (price cache, validation, conversion flow);
    - [transfer.js] (single currency to USD, with response-shape sniffing).

    JavaScript numbers are IEEE 754 binary64 values and are modelled by
    Rocq's primitive [float]s.  Values returned by [Date.now()] are integral
    millisecond counts and are modelled by [Z]; on such values (far below
    2^53) the double arithmetic of the scripts is exact, so subtraction,
    comparison and [Math.floor(x / 1000)] are the ones of [Z].  Strings are
    sequences of code units below 256. *)

From Stdlib Require Import ZArith Ascii String List Bool Lia.
From Stdlib Require Import Floats.PrimFloat Floats.FloatOps Floats.SpecFloat.
From stdpp Require Import base option gmap strings pretty.

Set Warnings "-register-all".
Local Open Scope string_scope.
Local Open Scope Z_scope.

(** ** JavaScript values *)

Module JS.

(** Values that the scripts handle: what [JSON.parse] produces, plus
    [undefined].  An object is the list of its own properties. *)
Inductive value : Type :=
  | Undefined
  | Null
  | Bool (b : bool)
  | Num (x : float)
  | Str (s : string)
  | Arr (elems : list value)
  | Obj (props : list (string * value)).

(** Thrown values.  [message] is what [err.message] reads. *)
Inductive error : Type :=
  | Error (message : string)
  | TypeError (message : string)
  | SyntaxError (message : string).

Definition message (e : error) : string :=
  match e with Error m | TypeError m | SyntaxError m => m end.

(** The outcome of a promise that has settled. *)
Inductive settled (A : Type) : Type :=
  | Fulfilled (a : A)
  | Rejected (e : error).
Arguments Fulfilled {A} a.
Arguments Rejected {A} e.

Definition is_rejected {A} (r : settled A) : bool :=
  match r with Rejected _ => true | Fulfilled _ => false end.

(** [isNaN(x)] on a number. *)
Definition isNaN (x : float) : bool := PrimFloat.is_nan x.

(** ToBoolean. *)
Definition truthy (v : value) : bool :=
  match v with
  | Undefined | Null => false
  | Bool b => b
  | Num x => negb (PrimFloat.is_zero x || PrimFloat.is_nan x)
  | Str s => negb (String.eqb s "")
  | Arr _ | Obj _ => true
  end.

(** [typeof v === "number"]. *)
Definition is_number (v : value) : bool :=
  match v with Num _ => true | _ => false end.

Fixpoint own_property (props : list (string * value)) (k : string) : option value :=
  match props with
  | [] => None
  | (k', v) :: rest => if String.eqb k k' then Some v else own_property rest k
  end.

(** [v.k] for a property name [k] that is neither an index, nor [length],
    nor defined on a built-in prototype (the scripts read [usd_price],
    [data] and [price] only).  Reading a property of [null] or [undefined]
    throws; primitives and arrays have no such property. *)
Definition get (v : value) (k : string) : settled value :=
  match v with
  | Undefined | Null => Rejected (TypeError "Cannot read properties")
  | Obj props => Fulfilled (default Undefined (own_property props k))
  | Bool _ | Num _ | Str _ | Arr _ => Fulfilled Undefined
  end.

(** [v.k] where [v] is known to be neither [null] nor [undefined]. *)
Definition get_or_undefined (v : value) (k : string) : value :=
  match get v k with Fulfilled x => x | Rejected _ => Undefined end.

(** *** Decimal literals *)

Definition is_digit (c : ascii) : bool :=
  let n := nat_of_ascii c in (48 <=? n)%nat && (n <=? 57)%nat.

Definition digit_value (c : ascii) : Z := Z.of_nat (nat_of_ascii c) - 48.

Fixpoint span_digits (s : list ascii) : list ascii * list ascii :=
  match s with
  | c :: rest =>
      if is_digit c then let '(ds, tl) := span_digits rest in (c :: ds, tl)
      else ([], s)
  | [] => ([], [])
  end.

Definition digits_value (ds : list ascii) : Z :=
  fold_left (fun acc c => 10 * acc + digit_value c) ds 0.

Fixpoint strip_zeros (ds : list ascii) : list ascii :=
  match ds with
  | c :: rest => if Ascii.eqb c "0" then strip_zeros rest else ds
  | [] => []
  end.

(** The Number value (round to nearest, ties to even) of
    [mant * 10 ^ exp10], where [mant] is written with the digits [ds]. *)
Definition number_of_decimal (ds : list ascii) (exp10 : Z) : float :=
  let mant := digits_value ds in
  let magnitude := Z.of_nat (length (strip_zeros ds)) + exp10 in
  if mant =? 0 then PrimFloat.zero
  else if 400 <? magnitude then PrimFloat.infinity
  else if magnitude <? -400 then PrimFloat.zero
  else if 0 <=? exp10 then
    SF2Prim (binary_normalize prec emax (mant * 10 ^ exp10) 0 false)
  else
    SF2Prim (SFdiv prec emax (S754_finite false (Z.to_pos mant) 0)
                             (S754_finite false (Z.to_pos (10 ^ (- exp10))) 0)).

(** [ExponentPart]: [e] or [E], an optional sign, at least one digit.
    Returns the exponent and the rest; without a well-formed exponent the
    literal ends before the [e]. *)
Definition parse_exponent (s : list ascii) : Z * list ascii :=
  match s with
  | c :: rest =>
      if Ascii.eqb c "e" || Ascii.eqb c "E" then
        let '(neg, rest') :=
          match rest with
          | sg :: r => if Ascii.eqb sg "-" then (true, r)
                       else if Ascii.eqb sg "+" then (false, r)
                       else (false, rest)
          | [] => (false, rest)
          end in
        match span_digits rest' with
        | ([], _) => (0, s)
        | (ds, tl) => ((if neg : bool then - digits_value ds else digits_value ds), tl)
        end
      else (0, s)
  | [] => (0, s)
  end.

Fixpoint strip_prefix (p s : list ascii) : option (list ascii) :=
  match p, s with
  | [], _ => Some s
  | a :: p', b :: s' => if Ascii.eqb a b then strip_prefix p' s' else None
  | _ :: _, [] => None
  end.

(** The longest prefix of [s] that is a [StrUnsignedDecimalLiteral], as
    its value and the rest of [s]; [None] when no prefix is one. *)
Definition parse_unsigned_decimal (s : list ascii) : option (float * list ascii) :=
  match strip_prefix (list_ascii_of_string "Infinity") s with
  | Some tl => Some (PrimFloat.infinity, tl)
  | None =>
      let '(ip, r1) := span_digits s in
      let '(fp, r2) :=
        match r1 with
        | c :: r => if Ascii.eqb c "." then span_digits r else ([], r1)
        | [] => ([], r1)
        end in
      match ip, fp with
      | [], [] => None
      | _, _ =>
          (* "5." is a literal, "." alone is not: r2 is right in both cases
             since a lone "." was only consumed after integer digits. *)
          let '(e, r3) := parse_exponent r2 in
          Some (number_of_decimal (ip ++ fp) (e - Z.of_nat (length fp)), r3)
      end
  end.

(** [StrDecimalLiteral]: an optional sign before the unsigned literal. *)
Definition parse_decimal (s : list ascii) : option (float * list ascii) :=
  match s with
  | c :: rest =>
      if Ascii.eqb c "-" then
        match parse_unsigned_decimal rest with
        | Some (x, tl) => Some (PrimFloat.opp x, tl)
        | None => None
        end
      else if Ascii.eqb c "+" then parse_unsigned_decimal rest
      else parse_unsigned_decimal s
  | [] => None
  end.

(** WhiteSpace and LineTerminator code units below 256. *)
Definition is_space (c : ascii) : bool :=
  let n := nat_of_ascii c in
  ((9 <=? n)%nat && (n <=? 13)%nat) || (n =? 32)%nat || (n =? 160)%nat.

Fixpoint trim_start (s : list ascii) : list ascii :=
  match s with
  | c :: rest => if is_space c then trim_start rest else s
  | [] => []
  end.

(** The global [parseFloat]. *)
Definition parseFloat (s : string) : float :=
  match parse_decimal (trim_start (list_ascii_of_string s)) with
  | Some (x, _) => x
  | None => PrimFloat.nan
  end.

(** *** String to number *)

Definition trim (s : list ascii) : list ascii :=
  rev (trim_start (rev (trim_start s))).

Definition radix_digit (radix : Z) (c : ascii) : option Z :=
  let n := Z.of_nat (nat_of_ascii c) in
  let d := if (48 <=? n) && (n <=? 57) then n - 48
           else if (97 <=? n) && (n <=? 102) then n - 87
           else if (65 <=? n) && (n <=? 70) then n - 55
           else radix in
  if d <? radix then Some d else None.

Fixpoint radix_value (radix : Z) (acc : Z) (s : list ascii) : option Z :=
  match s with
  | [] => Some acc
  | c :: rest =>
      match radix_digit radix c with
      | Some d => radix_value radix (radix * acc + d) rest
      | None => None
      end
  end.

(** [NonDecimalIntegerLiteral]: [0x], [0o] or [0b] and at least one digit. *)
Definition parse_non_decimal (s : list ascii) : option float :=
  match s with
  | z :: p :: (_ :: _) as ds =>
      let radix :=
        if Ascii.eqb p "x" || Ascii.eqb p "X" then 16
        else if Ascii.eqb p "o" || Ascii.eqb p "O" then 8
        else if Ascii.eqb p "b" || Ascii.eqb p "B" then 2
        else 0 in
      if Ascii.eqb z "0" && (0 <? radix) then
        Some match radix_value radix 0 ds with
             | Some n => SF2Prim (binary_normalize prec emax n 0 false)
             | None => PrimFloat.nan
             end
      else None
  | _ => None
  end.

(** StringToNumber: the whole trimmed string has to be a numeric literal;
    an empty one is [+0]. *)
Definition StringToNumber (s : string) : float :=
  match trim (list_ascii_of_string s) with
  | [] => PrimFloat.zero
  | t =>
      match parse_non_decimal t with
      | Some x => x
      | None =>
          match parse_decimal t with
          | Some (x, []) => x
          | _ => PrimFloat.nan
          end
      end
  end.

(** *** Conversions of parsed JSON to primitives

    A parsed JSON object has no callable own property.  Its conversion to a
    string therefore yields ["[object Object]"] through
    [Object.prototype.toString], unless an own [toString] key hides that
    method: then no candidate method is callable or returns a primitive,
    and the conversion throws a TypeError.  An array is converted by
    [join], which converts each element other than [null] and
    [undefined]. *)
Fixpoint to_string_throws (v : value) : bool :=
  match v with
  | Obj props => bool_decide (is_Some (own_property props "toString"))
  | Arr elems => existsb to_string_throws elems
  | _ => false
  end.

Definition cannot_convert : error :=
  TypeError "Cannot convert object to primitive value".

(** ToNumber.  For an array the joined string is converted: it is empty
    for no element, has a comma (hence is no literal) for two or more, and
    for one element it is that element's string, which reads back as the
    element's number ([-0] prints as ["0"]). *)
Fixpoint ToNumber (v : value) : settled float :=
  match v with
  | Undefined => Fulfilled PrimFloat.nan
  | Null => Fulfilled PrimFloat.zero
  | Bool b => Fulfilled (if b then PrimFloat.one else PrimFloat.zero)
  | Num x => Fulfilled x
  | Str s => Fulfilled (StringToNumber s)
  | Obj _ => if to_string_throws v then Rejected cannot_convert
             else Fulfilled PrimFloat.nan
  | Arr elems =>
      if to_string_throws v then Rejected cannot_convert
      else match elems with
           | [] => Fulfilled PrimFloat.zero
           | [e] =>
               match e with
               | Undefined | Null => Fulfilled PrimFloat.zero
               | Bool _ | Obj _ => Fulfilled PrimFloat.nan
               | Num x => Fulfilled (if PrimFloat.is_zero x then PrimFloat.zero else x)
               | Str _ | Arr _ => ToNumber e
               end
           | _ :: _ :: _ => Fulfilled PrimFloat.nan
           end
  end.

(** [a * v] and [a / v] for a number [a]. *)
Definition mul (a : float) (v : value) : settled float :=
  match ToNumber v with
  | Fulfilled x => Fulfilled (PrimFloat.mul a x)
  | Rejected e => Rejected e
  end.

Definition div (a : float) (v : value) : settled float :=
  match ToNumber v with
  | Fulfilled x => Fulfilled (PrimFloat.div a x)
  | Rejected e => Rejected e
  end.

(** *** Text

    The text that a template literal produces.  Number formatting is kept
    symbolic. *)
Inductive piece : Type :=
  | Lit (s : string)                (* literal text or a string value *)
  | Fixed (x : float) (digits : Z)  (* x.toFixed(digits) *)
  | Val (v : value)                 (* `${v}` *)
  | Upper (s : string).             (* s.toUpperCase() *)

Definition text : Type := list piece.

(** *** The network *)

(** What [fetch(url)] and then [response.json()] settle to. *)
Inductive fetch_outcome : Type :=
  | NetworkFailure (e : error)                    (* fetch rejects *)
  | Response (status : Z) (json : settled value). (* json: of response.json() *)

(** [response.ok]. *)
Definition ok (status : Z) : bool := (200 <=? status) && (status <=? 299).

End JS.

(** ** The converter application ([class CryptoConverter]) *)

Module CryptoConverter.
Import JS.

(** *** State *)

(** A value of [this.priceCache]. *)
Record CacheEntry : Type := { price : value; timestamp : Z }.

(** The properties of a DOM element that the class reads or writes. *)
Record Element : Type := {
  value_ : string;          (* .value *)
  textContent : text;
  disabled : bool;
  classList : gset string
}.

(** [this.elements], restricted to the elements used below. *)
Record Elements : Type := {
  fromCrypto : Element;
  toCrypto : Element;
  amountInput : Element;
  convertBtn : Element;
  convertText : Element;
  convertLoading : Element;
  result : Element;
  error : Element
}.

(** Lines written by [console.log] and [console.error]. *)
Inductive console_line : Type :=
  | Log (msg : text)
  | LogError (msg : text) (e : JS.error).

(** The controller, with the two effects it has on the outside: the
    console and the requests handed to [fetch] (oldest first). *)
Record State : Type := {
  isConverting : bool;
  priceCache : gmap string CacheEntry;
  elements : Elements;
  console : list console_line;
  requests : list string
}.

Definition cryptoNames : list (string * string) :=
  [("pepepow", "PEPEW"); ("ravencoin", "RVN"); ("bitcoin", "BTC");
   ("ethereum", "ETH"); ("dogecoin", "DOGE"); ("litecoin", "LTC");
   ("cardano", "ADA"); ("polkadot", "DOT"); ("digibyte", "DGB")].

Definition cacheExpiration : Z := 60 * 1000.

(** *** Methods as state transformers *)

Definition M (A : Type) : Type := State -> A * State.

Definition ret {A} (a : A) : M A := fun st => (a, st).

Definition bind {A B} (m : M A) (k : A -> M B) : M B :=
  fun st => let '(a, st') := m st in k a st'.

Notation "'let*' x := m 'in' k" := (bind m (fun x => k))
  (at level 10, x name, m at level 100, k at level 200).
Notation "m ;; k" := (bind m (fun _ => k))
  (at level 100, k at level 200, right associativity).

Definition read {A} (f : State -> A) : M A := fun st => (f st, st).

Definition set_isConverting (b : bool) : M unit := fun st =>
  (tt, {| isConverting := b; priceCache := priceCache st;
          elements := elements st; console := console st;
          requests := requests st |}).

Definition set_priceCache (c : gmap string CacheEntry) : M unit := fun st =>
  (tt, {| isConverting := isConverting st; priceCache := c;
          elements := elements st; console := console st;
          requests := requests st |}).

Definition set_elements (els : Elements) : M unit := fun st =>
  (tt, {| isConverting := isConverting st; priceCache := priceCache st;
          elements := els; console := console st;
          requests := requests st |}).

Definition console_write (l : console_line) : M unit := fun st =>
  (tt, {| isConverting := isConverting st; priceCache := priceCache st;
          elements := elements st; console := console st ++ [l];
          requests := requests st |}).

(** [fetch(url)]: the request leaves; its outcome comes later. *)
Definition fetch (url : string) : M unit := fun st =>
  (tt, {| isConverting := isConverting st; priceCache := priceCache st;
          elements := elements st; console := console st;
          requests := requests st ++ [url] |}).

(** Element updates. *)
Definition with_textContent (t : text) (e : Element) : Element :=
  {| value_ := value_ e; textContent := t; disabled := disabled e;
     classList := classList e |}.

Definition with_disabled (b : bool) (e : Element) : Element :=
  {| value_ := value_ e; textContent := textContent e; disabled := b;
     classList := classList e |}.

Definition classList_add (c : string) (e : Element) : Element :=
  {| value_ := value_ e; textContent := textContent e; disabled := disabled e;
     classList := {[ c ]} ∪ classList e |}.

Definition classList_remove (c : string) (e : Element) : Element :=
  {| value_ := value_ e; textContent := textContent e; disabled := disabled e;
     classList := classList e ∖ {[ c ]} |}.

Definition with_convertBtn (f : Element -> Element) (els : Elements) : Elements :=
  {| fromCrypto := fromCrypto els; toCrypto := toCrypto els;
     amountInput := amountInput els; convertBtn := f (convertBtn els);
     convertText := convertText els; convertLoading := convertLoading els;
     result := result els; error := error els |}.

Definition with_convertText (f : Element -> Element) (els : Elements) : Elements :=
  {| fromCrypto := fromCrypto els; toCrypto := toCrypto els;
     amountInput := amountInput els; convertBtn := convertBtn els;
     convertText := f (convertText els); convertLoading := convertLoading els;
     result := result els; error := error els |}.

Definition with_convertLoading (f : Element -> Element) (els : Elements) : Elements :=
  {| fromCrypto := fromCrypto els; toCrypto := toCrypto els;
     amountInput := amountInput els; convertBtn := convertBtn els;
     convertText := convertText els; convertLoading := f (convertLoading els);
     result := result els; error := error els |}.

Definition with_result (f : Element -> Element) (els : Elements) : Elements :=
  {| fromCrypto := fromCrypto els; toCrypto := toCrypto els;
     amountInput := amountInput els; convertBtn := convertBtn els;
     convertText := convertText els; convertLoading := convertLoading els;
     result := f (result els); error := error els |}.

Definition with_error (f : Element -> Element) (els : Elements) : Elements :=
  {| fromCrypto := fromCrypto els; toCrypto := toCrypto els;
     amountInput := amountInput els; convertBtn := convertBtn els;
     convertText := convertText els; convertLoading := convertLoading els;
     result := result els; error := f (error els) |}.

Definition update_elements (f : Elements -> Elements) : M unit :=
  let* els := read elements in set_elements (f els).

(** *** The price cache *)

(** [getCachedPrice(coinId)], where [now] is what [Date.now()] returns.
    [null] stands for "expired or not found". *)
Definition getCachedPrice (now : Z) (coinId : string) : M value :=
  let* cache := read priceCache in
  match cache !! coinId with
  | None => ret Null
  | Some cached =>
      if now - timestamp cached >? cacheExpiration then
        set_priceCache (delete coinId cache) ;;
        ret Null
      else ret (price cached)
  end.

(** [setCachedPrice(coinId, price)]. *)
Definition setCachedPrice (now : Z) (coinId : string) (p : value) : M unit :=
  let* cache := read priceCache in
  set_priceCache (<[coinId := {| price := p; timestamp := now |}]> cache).

(** [clearExpiredCache()]: every entry older than the window is deleted. *)
Definition clearExpiredCache (now : Z) : M unit :=
  let* cache := read priceCache in
  set_priceCache
    (filter (fun kv => ¬ (now - timestamp kv.2 > cacheExpiration)) cache).

(** The markup of a shown cache status. *)
Definition cached_span (remainingSeconds : Z) : string :=
  let q := String (ascii_of_nat 34) EmptyString in
  " <span class=" +:+ q +:+ "text-xs text-blue-500" +:+ q +:+ ">(cached "
  +:+ pretty remainingSeconds +:+ "s)</span>".

(** [getCacheStatus(coinId)]. *)
Definition getCacheStatus (now : Z) (coinId : string) : M string :=
  let* cache := read priceCache in
  match cache !! coinId with
  | None => ret ""
  | Some cached =>
      let ageInSeconds := (now - timestamp cached) / 1000 in
      let remainingSeconds := 60 - ageInSeconds in
      if remainingSeconds >? 0 then ret (cached_span remainingSeconds)
      else ret ""
  end.

(** *** Display helpers *)

Fixpoint lookup_name (names : list (string * string)) (k : string) : option string :=
  match names with
  | [] => None
  | (k', n) :: rest => if String.eqb k k' then Some n else lookup_name rest k
  end.

(** [getCryptoDisplayName(coinId)], for identifiers that do not name a
    member of [Object.prototype]. *)
Definition getCryptoDisplayName (coinId : string) : piece :=
  match lookup_name cryptoNames coinId with
  | Some n => Lit n
  | None => Upper coinId
  end.

(** [setLoadingState(isLoading)]. *)
Definition setLoadingState (isLoading : bool) : M unit :=
  set_isConverting isLoading ;;
  update_elements (with_convertBtn (with_disabled isLoading)) ;;
  if isLoading then
    update_elements (with_convertText (classList_add "hidden")) ;;
    update_elements (with_convertLoading (classList_remove "hidden"))
  else
    update_elements (with_convertText (classList_remove "hidden")) ;;
    update_elements (with_convertLoading (classList_add "hidden")).

(** [clearMessages()]. *)
Definition clearMessages : M unit :=
  update_elements (with_result (with_textContent [])) ;;
  update_elements (with_error (with_textContent [])) ;;
  update_elements (with_result (classList_add "hidden")) ;;
  update_elements (with_error (classList_add "hidden")).

(** [showError(message)]. *)
Definition showError (message : text) : M unit :=
  update_elements (with_error (with_textContent message)) ;;
  update_elements (with_error (classList_remove "hidden")).

(** [showResult(message)]. *)
Definition showResult (message : text) : M unit :=
  update_elements (with_result (with_textContent message)) ;;
  update_elements (with_result (classList_remove "hidden")).

(** *** Validation *)

(** What [validateInputs()] returns: [{ isValid: false, error }] or
    [{ isValid: true, amount, fromCrypto, toCrypto }]. *)
Inductive Validation : Type :=
  | Invalid (error : text)
  | Valid (amount : float) (fromCrypto toCrypto : string).

Definition same_currency_error : text :=
  [Lit "Please select different cryptocurrencies for conversion."].

Definition invalid_amount_error (fromName : piece) : text :=
  [Lit "Please enter a valid "; fromName; Lit " amount."].

(** [validateInputs()]. *)
Definition validateInputs : M Validation :=
  let* els := read elements in
  let amount := parseFloat (value_ (amountInput els)) in
  let fromCrypto := value_ (fromCrypto els) in
  let toCrypto := value_ (toCrypto els) in
  if String.eqb fromCrypto toCrypto then ret (Invalid same_currency_error)
  else if isNaN amount || PrimFloat.leb amount PrimFloat.zero then
    let fromName := getCryptoDisplayName fromCrypto in
    ret (Invalid (invalid_amount_error fromName))
  else ret (Valid amount fromCrypto toCrypto).

(** *** Fetching a price

    [fetchPrice] is an async function.  It runs up to its first [await] when
    it is called ([fetchPrice_begin]) and goes on when the response has
    arrived and its body has been read ([fetchPrice_resume]). *)

Inductive fetch_task : Type :=
  | Finished (r : settled value)  (* settled without awaiting *)
  | AwaitingResponse.             (* suspended at [await fetch(...)] *)

Definition price_url (coinId : string) : string :=
  "https://price-api.crypto.com/price/v1/token-price/" +:+ coinId.

Definition fetchPrice_begin (now : Z) (coinId : string) : M fetch_task :=
  let* cachedPrice := getCachedPrice now coinId in
  match cachedPrice with
  | Null =>
      console_write (Log [Lit "Fetching fresh price for "; Lit coinId; Lit "..."]) ;;
      fetch (price_url coinId) ;;
      ret AwaitingResponse
  | _ =>
      (* the template literal converts cachedPrice to a string *)
      if to_string_throws cachedPrice then ret (Finished (Rejected cannot_convert))
      else
        console_write (Log [Lit "Using cached price for "; Lit coinId; Lit ": $";
                            Val cachedPrice]) ;;
        ret (Finished (Fulfilled cachedPrice))
  end.

(** The [catch] block of [fetchPrice]. *)
Definition fetchPrice_catch (coinId : string) (e : JS.error) : M (settled value) :=
  console_write (LogError [Lit "Error fetching price for "; Lit coinId; Lit ":"] e) ;;
  ret (Rejected e).

Definition fetchPrice_resume (now : Z) (coinId : string) (o : fetch_outcome)
  : M (settled value) :=
  match o with
  | NetworkFailure e => fetchPrice_catch coinId e
  | Response status json =>
      if negb (ok status) then
        fetchPrice_catch coinId (Error ("HTTP error! status: " +:+ pretty status))
      else
        match json with
        | Rejected e => fetchPrice_catch coinId e
        | Fulfilled data =>
            match get data "usd_price" with
            | Rejected e => fetchPrice_catch coinId e
            | Fulfilled usd_price =>
                setCachedPrice now coinId usd_price ;;
                ret (Fulfilled usd_price)
            end
        end
  end.

(** A fetch task brought to its end. *)
Definition fetchPrice_finish (now : Z) (coinId : string) (o : fetch_outcome)
    (t : fetch_task) : M (settled value) :=
  match t with
  | Finished r => ret r
  | AwaitingResponse => fetchPrice_resume now coinId o
  end.

(** A whole call of [fetchPrice(coinId)]: it is made at time [now], and a
    response, if one is awaited, has been read at time [later]. *)
Definition fetchPrice (now later : Z) (coinId : string) (o : fetch_outcome)
  : M (settled value) :=
  let* task := fetchPrice_begin now coinId in
  fetchPrice_finish later coinId o task.

(** *** Conversion

    [convert] is async as well: [convert_begin] runs it up to
    [await Promise.all(...)], [convert_resume] from there on, with what
    [Promise.all] settled to. *)

Inductive convert_task : Type :=
  | Dropped            (* returned at the [isConverting] guard *)
  | ValidationFailed   (* returned from the [try] block; [finally] has run *)
  | Suspended (amount : float) (fromCrypto toCrypto : string)
              (fromTask toTask : fetch_task).

Definition fetch_failed_error : text :=
  [Lit "Error fetching prices. Please try again later."].

Definition result_message (amount : float) (fromName : piece)
    (convertedAmount : float) (toName : piece) (usdAmount : float) : text :=
  [Fixed amount 4; Lit " "; fromName; Lit " = "; Fixed convertedAmount 8; Lit " ";
   toName; Lit " "; Lit "(via USD: $"; Fixed usdAmount 6; Lit ")"].

Definition convert_begin (nowFrom nowTo : Z) : M convert_task :=
  let* converting := read isConverting in
  if converting : bool then ret Dropped
  else
    clearMessages ;;
    setLoadingState true ;;
    let* validation := validateInputs in
    match validation with
    | Invalid err =>
        showError err ;;
        setLoadingState false ;;
        ret ValidationFailed
    | Valid amount fromCrypto toCrypto =>
        let* fromTask := fetchPrice_begin nowFrom fromCrypto in
        let* toTask := fetchPrice_begin nowTo toCrypto in
        ret (Suspended amount fromCrypto toCrypto fromTask toTask)
    end.

(** The [catch] block of [convert]. *)
Definition convert_catch (e : JS.error) : M unit :=
  console_write (LogError [Lit "Conversion error:"] e) ;;
  showError fetch_failed_error.

Definition convert_resume (amount : float) (fromCrypto toCrypto : string)
    (prices : settled (value * value)) : M unit :=
  match prices with
  | Rejected e => convert_catch e
  | Fulfilled (fromPrice, toPrice) =>
      match JS.mul amount fromPrice with
      | Rejected e => convert_catch e
      | Fulfilled usdAmount =>
          match JS.div usdAmount toPrice with
          | Rejected e => convert_catch e
          | Fulfilled convertedAmount =>
              let fromName := getCryptoDisplayName fromCrypto in
              let toName := getCryptoDisplayName toCrypto in
              showResult (result_message amount fromName convertedAmount toName usdAmount)
          end
      end
  end ;;
  setLoadingState false.

(** What [Promise.all] of the two price promises settles to: both values,
    or the error of the promise that was rejected first. *)
Definition Promise_all (fromFirst : bool) (rFrom rTo : settled value)
  : settled (value * value) :=
  match rFrom, rTo with
  | Fulfilled a, Fulfilled b => Fulfilled (a, b)
  | Rejected e, Fulfilled _ => Rejected e
  | Fulfilled _, Rejected e => Rejected e
  | Rejected e1, Rejected e2 => Rejected (if fromFirst then e1 else e2)
  end.

(** The network's part in one conversion: the outcome of each request, the
    time at which its body has been read, and which one is first. *)
Record Network : Type := {
  fromOutcome : fetch_outcome;
  fromTime : Z;
  toOutcome : fetch_outcome;
  toTime : Z;
  fromSettlesFirst : bool
}.

(** How a complete run of [convert] went.  In [RunSettled] both price
    promises have settled, to [rFrom] and [rTo]; [fromFirst] tells which of
    them did so first. *)
Inductive Run : Type :=
  | RunDropped
  | RunValidationFailed
  | RunSettled (fromFirst : bool) (rFrom rTo : settled value).

(** One promise is settled after the other.  A rejection of the first one
    settles [Promise.all], and so resumes [convert], before the second one
    settles. *)
Definition settle_in_order (first second : M (settled value))
    (all : settled value -> settled value -> settled (value * value))
    (resume : settled (value * value) -> M unit)
  : M (settled value * settled value) :=
  let* r1 := first in
  match r1 with
  | Rejected e =>
      resume (Rejected e) ;;
      let* r2 := second in
      ret (r1, r2)
  | Fulfilled _ =>
      let* r2 := second in
      resume (all r1 r2) ;;
      ret (r1, r2)
  end.

(** A task that finished without awaiting is settled before one that waits
    for the network. *)
Definition from_first (net : Network) (fromTask toTask : fetch_task) : bool :=
  match fromTask, toTask with
  | Finished _, _ => true
  | AwaitingResponse, Finished _ => false
  | AwaitingResponse, AwaitingResponse => fromSettlesFirst net
  end.

(** A whole run of [convert()] in which both requests are answered and
    nothing else happens in between. *)
Definition convert (nowFrom nowTo : Z) (net : Network) : M Run :=
  let* task := convert_begin nowFrom nowTo in
  match task with
  | Dropped => ret RunDropped
  | ValidationFailed => ret RunValidationFailed
  | Suspended amount fromCrypto toCrypto fromTask toTask =>
      let finishFrom :=
        fetchPrice_finish (fromTime net) fromCrypto (fromOutcome net) fromTask in
      let finishTo :=
        fetchPrice_finish (toTime net) toCrypto (toOutcome net) toTask in
      let resume := convert_resume amount fromCrypto toCrypto in
      if from_first net fromTask toTask then
        let* rs := settle_in_order finishFrom finishTo
                     (fun rFrom rTo => Promise_all true rFrom rTo) resume in
        ret (RunSettled true rs.1 rs.2)
      else
        let* rs := settle_in_order finishTo finishFrom
                     (fun rTo rFrom => Promise_all false rFrom rTo) resume in
        ret (RunSettled false rs.2 rs.1)
  end.

(** *** Observations used in the statements *)

(** The controller once the entry of [coinId] has been deleted. *)
Definition without (coinId : string) (st : State) : State :=
  {| isConverting := isConverting st; priceCache := delete coinId (priceCache st);
     elements := elements st; console := console st; requests := requests st |}.

(** What fetching a price leaves alone. *)
Definition same_controls (st st' : State) : Prop :=
  isConverting st' = isConverting st /\ elements st' = elements st.

(** What the UI-only operations leave alone. *)
Definition same_data (st st' : State) : Prop :=
  priceCache st' = priceCache st /\ console st' = console st /\
  requests st' = requests st.

(** The two amounts that [convert] computes from the prices, or the error
    that it catches instead. *)
Definition amounts (amount : float) (prices : settled (value * value))
  : settled (float * float) :=
  match prices with
  | Rejected e => Rejected e
  | Fulfilled (fromPrice, toPrice) =>
      match JS.mul amount fromPrice with
      | Rejected e => Rejected e
      | Fulfilled usdAmount =>
          match JS.div usdAmount toPrice with
          | Rejected e => Rejected e
          | Fulfilled convertedAmount => Fulfilled (usdAmount, convertedAmount)
          end
      end
  end.

End CryptoConverter.

(** ** The single-currency calculator ([transfer.js]) *)

Module Transfer.
Import JS.

(** [v.k] on a receiver that is neither [null] nor [undefined]: every
    property read of [extractUsdPrice] comes after a truthiness test of its
    receiver. *)
Definition prop (v : value) (k : string) : value := get_or_undefined v k.

(** [extractUsdPrice(data)]. *)
Definition extractUsdPrice (data : value) : value :=
  if negb (truthy data) then Null
  else if is_number (prop data "usd_price") then prop data "usd_price"
  else
    if truthy (prop data "data") then
      if is_number (prop (prop data "data") "usd_price") then
        prop (prop data "data") "usd_price"
      else if truthy (prop (prop data "data") "price")
              && is_number (prop (prop (prop data "data") "price") "usd_price") then
        prop (prop (prop data "data") "price") "usd_price"
      else if is_number (prop data "data") then prop data "data"
      else Null
    else Null.

(** The page: the two form fields, the result element, and the requests
    handed to [fetch]. *)
Record Page : Type := {
  crypto_value : string;     (* select[name="crypto"].value *)
  amount_value : string;     (* input[name="amount"].value *)
  resultEl : text;           (* resultEl.textContent *)
  requests : list string
}.

(** [handleSubmit] up to [await fetch(...)]; the parsed amount is kept for
    the rest of the handler. *)
Definition handleSubmit_begin (pg : Page) : float * Page :=
  let coinId := crypto_value pg in
  let amount :=
    parseFloat (if truthy (Str (amount_value pg)) then amount_value pg else "0") in
  (amount,
   {| crypto_value := crypto_value pg; amount_value := amount_value pg;
      resultEl := [Lit "Loading..."];
      requests := requests pg ++
        ["https://price-api.crypto.com/price/v1/token-price/" +:+ coinId] |}).

Definition with_resultEl (t : text) (pg : Page) : Page :=
  {| crypto_value := crypto_value pg; amount_value := amount_value pg;
     resultEl := t; requests := requests pg |}.

(** The [catch] block. *)
Definition handleSubmit_catch (err : JS.error) (pg : Page) : Page :=
  with_resultEl [Lit "Error: "; Lit (message err)] pg.

Definition unreadable_price : JS.error :=
  Error "Unable to read usd_price from response".

(** [handleSubmit] from the arrival of the response on. *)
Definition handleSubmit_resume (amount : float) (o : fetch_outcome) (pg : Page) : Page :=
  match o with
  | NetworkFailure e => handleSubmit_catch e pg
  | Response status body =>
      if negb (ok status) then handleSubmit_catch (Error ("HTTP " +:+ pretty status)) pg
      else
        match body with
        | Rejected e => handleSubmit_catch e pg
        | Fulfilled json =>
            match extractUsdPrice json with
            | Null => handleSubmit_catch unreadable_price pg
            | Num usdPrice =>
                let total := PrimFloat.mul amount usdPrice in
                with_resultEl
                  [Lit "Price: $"; Fixed usdPrice 6; Lit " | Amount: "; Val (Num amount);
                   Lit " => USD "; Fixed total 6] pg
            | _ =>
                (* not reached: extractUsdPrice returns a number or null *)
                handleSubmit_catch (TypeError "usdPrice.toFixed is not a function") pg
            end
        end
  end.

(** A whole run of the handler. *)
Definition handleSubmit (o : fetch_outcome) (pg : Page) : Page :=
  let '(amount, pg') := handleSubmit_begin pg in
  handleSubmit_resume amount o pg'.

End Transfer.

(** ** Definitions that follow the specification's words *)

Module Spec.
Import JS CryptoConverter.

(** An entry is live while its age is within the expiration window. *)
Definition live (now : Z) (e : CacheEntry) : bool :=
  now - timestamp e <=? 60000.

(** [remainingTtl(id)]: [60 - floor((now - fetchedAt)/1000)], clamped to
    non-negative; absent if there is no live entry. *)
Definition remainingTtl (now : Z) (cache : gmap string CacheEntry) (id : string)
  : option Z :=
  match cache !! id with
  | Some e =>
      if live now e then Some (Z.max 0 (60 - (now - timestamp e) / 1000))
      else None
  | None => None
  end.

(** How a remaining TTL is displayed: nothing when it is absent. *)
Definition display (ttl : option Z) : string :=
  match ttl with
  | Some s => cached_span s
  | None => ""
  end.

(** An amount that is a finite number greater than zero. *)
Definition finite_positive (amount : float) : bool :=
  PrimFloat.is_finite amount && PrimFloat.ltb PrimFloat.zero amount.

(** An ordered list of extraction strategies, each one found or not found;
    the first match wins. *)
Fixpoint first_match (strategies : list (value -> option float)) (data : value)
  : option float :=
  match strategies with
  | [] => None
  | f :: rest =>
      match f data with
      | Some x => Some x
      | None => first_match rest data
      end
  end.

Definition number_at (path : list string) (data : value) : option float :=
  match fold_left get_or_undefined path data with
  | Num x => Some x
  | _ => None
  end.

(** The three shapes that the specification lists. *)
Definition listed_shapes : list (value -> option float) :=
  [number_at ["usd_price"]; number_at ["data"; "usd_price"];
   number_at ["data"; "price"; "usd_price"]].

(** The fourth one: [data] itself, when it is a number other than zero. *)
Definition data_itself (data : value) : option float :=
  match number_at ["data"] data with
  | Some x => if truthy (Num x) then Some x else None
  | None => None
  end.

Definition as_value (o : option float) : value :=
  match o with Some x => Num x | None => Null end.

End Spec.

(** ** Example states *)

Module Examples.
Import JS CryptoConverter.

Definition element (v : string) : Element :=
  {| value_ := v; textContent := []; disabled := false; classList := ∅ |}.

(** A page on which an amount of bitcoin is to be converted to ethereum. *)
Definition page (amount : string) : Elements :=
  {| fromCrypto := element "bitcoin"; toCrypto := element "ethereum";
     amountInput := element amount; convertBtn := element "";
     convertText := element ""; convertLoading := element "";
     result := element ""; error := element "" |}.

Definition idle (amount : string) (cache : gmap string CacheEntry) : State :=
  {| isConverting := false; priceCache := cache; elements := page amount;
     console := []; requests := [] |}.

Definition converting : State :=
  {| isConverting := true; priceCache := ∅; elements := page "10";
     console := []; requests := [] |}.

(** Bitcoin was fetched at time 0 at a price of 2. *)
Definition bitcoin_at_0 : gmap string CacheEntry :=
  {[ "bitcoin" := {| price := Num 2; timestamp := 0 |} ]}.

Definition answers (usd_price : float) : fetch_outcome :=
  Response 200 (Fulfilled (Obj [("usd_price", Num usd_price)])).

(** The form of [transfer.js], filled in. *)
Definition form (amount : string) : Transfer.Page :=
  {| Transfer.crypto_value := "bitcoin"; Transfer.amount_value := amount;
     Transfer.resultEl := []; Transfer.requests := [] |}.

Definition network (fromOutcome toOutcome : fetch_outcome) : Network :=
  {| fromOutcome := fromOutcome; fromTime := 1500;
     toOutcome := toOutcome; toTime := 1400; fromSettlesFirst := false |}.

End Examples.

(** ** What a call leaves behind

    Functions that read off a state or an outcome what the statements
    below speak about. *)

Module Accounting.
Import JS CryptoConverter.

(** What the promise of [fetchPrice] settles to when the price has to be
    fetched: the flat [usd_price] field of a readable body of a response
    with a status in 200..299, and a rejection otherwise. *)
Definition response_price (o : fetch_outcome) : settled value :=
  match o with
  | NetworkFailure e => Rejected e
  | Response status json =>
      if ok status then
        match json with
        | Rejected e => Rejected e
        | Fulfilled data => get data "usd_price"
        end
      else Rejected (Error ("HTTP error! status: " +:+ pretty status))
  end.

(** Whether [getCachedPrice] has a price to give at time [now]: there is an
    entry, it is at most 60000 ms old, and its price is not [null]. *)
Definition hit (now : Z) (coinId : string) (cache : gmap string CacheEntry) : bool :=
  match cache !! coinId with
  | Some cached =>
      (now - timestamp cached <=? 60000)
      && match price cached with Null => false | _ => true end
  | None => false
  end.

(** The request that a call of [fetchPrice] at time [now] makes. *)
Definition request_for (now : Z) (coinId : string) (cache : gmap string CacheEntry)
  : list string :=
  if hit now coinId cache then [] else [price_url coinId].

(** The cache once [getCachedPrice] has looked at [coinId] at time [now]. *)
Definition looked_up (now : Z) (coinId : string) (cache : gmap string CacheEntry)
  : gmap string CacheEntry :=
  match cache !! coinId with
  | Some cached =>
      if 60000 <? now - timestamp cached then delete coinId cache else cache
  | None => cache
  end.

(** The cache once a fetched price, if the fetch was needed and went well,
    has been stored at time [later]. *)
Definition stored (needed : bool) (later : Z) (coinId : string) (o : fetch_outcome)
    (cache : gmap string CacheEntry) : gmap string CacheEntry :=
  match needed, response_price o with
  | true, Fulfilled p => <[coinId := {| price := p; timestamp := later |}]> cache
  | _, _ => cache
  end.

(** An entry is within the expiration window at time [now]. *)
Definition fresh (now : Z) (e : CacheEntry) : Prop :=
  now - timestamp e <= 60000.

(** Whether a task waits for the network, and what it settles to. *)
Definition awaiting (t : fetch_task) : bool :=
  match t with AwaitingResponse => true | Finished _ => false end.

Definition task_result (o : fetch_outcome) (t : fetch_task) : settled value :=
  match t with Finished r => r | AwaitingResponse => response_price o end.

(** The three form fields that [validateInputs] reads. *)
Definition inputs (st : State) : Element * Element * Element :=
  (fromCrypto (elements st), toCrypto (elements st), amountInput (elements st)).

(** The state in which the price promises are created: messages cleared,
    loading state set. *)
Definition started (st : State) : State :=
  (setLoadingState true (clearMessages st).2).2.

End Accounting.

(** ** What [transfer.js] shows *)

Module Shown.
Import JS Transfer.

(** The text of the [catch] block. *)
Definition error_line (msg : string) : text := [Lit "Error: "; Lit msg].

(** The text of a successful run. *)
Definition price_line (amount usdPrice : float) : text :=
  [Lit "Price: $"; Fixed usdPrice 6; Lit " | Amount: "; Val (Num amount);
   Lit " => USD "; Fixed (PrimFloat.mul amount usdPrice) 6].

(** The amount that the handler computes with. *)
Definition amount_of (pg : Page) : float :=
  parseFloat (if String.eqb (amount_value pg) "" then "0" else amount_value pg).

End Shown.

(** ** The price panel ([updateAmountLabel], [formatPrice], [updatePrices])

    These methods write three further elements.  They are kept beside the
    controller, which the methods above work on. *)

Module PricePanel.
Import JS CryptoConverter.

(** What [price.toLocaleString('en-US', options)] gives; the digits are not
    computed. *)
Inductive formatted : Type :=
  | Currency (x : float) (minimumFractionDigits maximumFractionDigits : Z)
      (* of a number, as US dollars *)
  | Localized (v : value) (minimumFractionDigits maximumFractionDigits : Z).
      (* of a string, a boolean, an object or an array *)

(** What is assigned to [innerHTML]. *)
Inductive markup_piece : Type :=
  | Markup (s : string)
  | Name (name : piece)          (* a display name *)
  | Price (p : formatted).

Definition markup : Type := list markup_piece.

Definition span (class body : string) : string :=
  let q := String (ascii_of_nat 34) EmptyString in
  "<span class=" +:+ q +:+ class +:+ q +:+ ">" +:+ body +:+ "</span>".

Definition loading : markup := [Markup (span "text-gray-400" "Loading...")].

Definition unavailable : markup := [Markup (span "text-red-500" "Price unavailable")].

(** The controller with the label of the amount field and the two price
    elements. *)
Record Panel : Type := {
  controller : State;
  amountLabel : text;     (* amountLabel.textContent *)
  fromPrice : markup;     (* fromPrice.innerHTML *)
  toPrice : markup        (* toPrice.innerHTML *)
}.

Definition P (A : Type) : Type := Panel -> A * Panel.

(** A method of the controller, run on the panel. *)
Definition on_controller {A} (m : M A) : P A := fun pn =>
  let '(a, st) := m (controller pn) in
  (a, {| controller := st; amountLabel := amountLabel pn;
         fromPrice := fromPrice pn; toPrice := toPrice pn |}).

Definition set_amountLabel (t : text) (pn : Panel) : Panel :=
  {| controller := controller pn; amountLabel := t;
     fromPrice := fromPrice pn; toPrice := toPrice pn |}.

Definition set_fromPrice (m : markup) (pn : Panel) : Panel :=
  {| controller := controller pn; amountLabel := amountLabel pn;
     fromPrice := m; toPrice := toPrice pn |}.

Definition set_toPrice (m : markup) (pn : Panel) : Panel :=
  {| controller := controller pn; amountLabel := amountLabel pn;
     fromPrice := fromPrice pn; toPrice := m |}.

(** [updateAmountLabel()]. *)
Definition updateAmountLabel (pn : Panel) : Panel :=
  let fromCrypto := value_ (fromCrypto (elements (controller pn))) in
  let cryptoName := getCryptoDisplayName fromCrypto in
  set_amountLabel [Lit "Enter "; cryptoName; Lit " Amount:"] pn.

(** Whether calling [toLocaleString] on an element of an array throws: a
    parsed object has no callable own property, so an own [toLocaleString]
    key makes the call fail, and so does an own [toString] key, which the
    inherited method calls.  [null] and [undefined] elements are skipped. *)
Fixpoint element_toLocaleString_throws (v : value) : bool :=
  match v with
  | Obj props =>
      bool_decide (is_Some (own_property props "toLocaleString"))
      || bool_decide (is_Some (own_property props "toString"))
  | Arr elems => existsb element_toLocaleString_throws elems
  | _ => false
  end.

(** Whether [price.toLocaleString(...)] throws. *)
Definition toLocaleString_throws (price : value) : bool :=
  match price with
  | Undefined | Null => true
  | _ => element_toLocaleString_throws price
  end.

(** [formatPrice(price)].  The comparison [price >= 1] converts [price] to
    a number and is false for NaN. *)
Definition formatPrice (price : value) : settled formatted :=
  match ToNumber price with
  | Rejected e => Rejected e
  | Fulfilled n =>
      let '(minimumFractionDigits, maximumFractionDigits) :=
        if PrimFloat.leb 1 n then (2, 6) else (6, 10) in
      match price with
      | Num x => Fulfilled (Currency x minimumFractionDigits maximumFractionDigits)
      | _ =>
          if toLocaleString_throws price
          then Rejected (TypeError "price.toLocaleString is not a function")
          else Fulfilled (Localized price minimumFractionDigits maximumFractionDigits)
      end
  end.

(** The times that [Date.now()] returns in the course of [updatePrices]. *)
Record Times : Type := {
  sweepTime : Z;      (* in clearExpiredCache *)
  lookupFrom : Z;     (* in getCachedPrice, first price *)
  lookupTo : Z;       (* in getCachedPrice, second price *)
  statusFrom : Z;     (* in getCacheStatus, first price *)
  statusTo : Z        (* in getCacheStatus, second price *)
}.

(** [updatePrices] up to [await Promise.all(...)]: the two identifiers and
    the two price promises. *)
Definition updatePrices_begin (t : Times)
  : P (string * string * fetch_task * fetch_task) := fun pn =>
  let fromCrypto := value_ (fromCrypto (elements (controller pn))) in
  let toCrypto := value_ (toCrypto (elements (controller pn))) in
  let '(_, pn1) := on_controller (clearExpiredCache (sweepTime t)) pn in
  let pn2 := set_toPrice loading (set_fromPrice loading pn1) in
  let '(fromTask, pn3) := on_controller (fetchPrice_begin (lookupFrom t) fromCrypto) pn2 in
  let '(toTask, pn4) := on_controller (fetchPrice_begin (lookupTo t) toCrypto) pn3 in
  ((fromCrypto, toCrypto, fromTask, toTask), pn4).

(** The [catch] block of [updatePrices]. *)
Definition updatePrices_catch (pn : Panel) : Panel :=
  set_toPrice unavailable (set_fromPrice unavailable pn).

Definition price_markup (name : piece) (p : formatted) (cacheStatus : string) : markup :=
  [Markup ("<span class=" +:+ String (ascii_of_nat 34) EmptyString +:+ "font-medium"
           +:+ String (ascii_of_nat 34) EmptyString +:+ ">");
   Name name; Markup ":</span> "; Price p; Markup cacheStatus].

(** [updatePrices] from there on, with what [Promise.all] settled to. *)
Definition updatePrices_resume (t : Times) (fromCrypto toCrypto : string)
    (prices : settled (value * value)) (pn : Panel) : Panel :=
  match prices with
  | Rejected _ => updatePrices_catch pn
  | Fulfilled (fromPrice, toPrice) =>
      let fromName := getCryptoDisplayName fromCrypto in
      let toName := getCryptoDisplayName toCrypto in
      let '(fromCacheStatus, pn1) :=
        on_controller (getCacheStatus (statusFrom t) fromCrypto) pn in
      let '(toCacheStatus, pn2) :=
        on_controller (getCacheStatus (statusTo t) toCrypto) pn1 in
      match formatPrice fromPrice with
      | Rejected _ => updatePrices_catch pn2
      | Fulfilled shownFrom =>
          let pn3 := set_fromPrice (price_markup fromName shownFrom fromCacheStatus) pn2 in
          match formatPrice toPrice with
          | Rejected _ => updatePrices_catch pn3
          | Fulfilled shownTo =>
              set_toPrice (price_markup toName shownTo toCacheStatus) pn3
          end
      end
  end.

(** One promise is settled after the other, as in [convert]: a rejection
    of the first one resumes [updatePrices] before the second one
    settles. *)
Definition settle_prices (first second : M (settled value))
    (all : settled value -> settled value -> settled (value * value))
    (resume : settled (value * value) -> Panel -> Panel)
  : P (settled value * settled value) := fun pn =>
  let '(r1, pn1) := on_controller first pn in
  match r1 with
  | Rejected e =>
      let '(r2, pn2) := on_controller second (resume (Rejected e) pn1) in
      ((r1, r2), pn2)
  | Fulfilled _ =>
      let '(r2, pn2) := on_controller second pn1 in
      ((r1, r2), resume (all r1 r2) pn2)
  end.

(** A whole run of [updatePrices()] in which both requests are answered
    and nothing else happens in between; the result tells what the two
    price promises settled to. *)
Definition updatePrices (t : Times) (net : Network)
  : P (settled value * settled value) := fun pn =>
  let '((fromCrypto, toCrypto, fromTask, toTask), pn1) := updatePrices_begin t pn in
  let finishFrom :=
    fetchPrice_finish (fromTime net) fromCrypto (fromOutcome net) fromTask in
  let finishTo :=
    fetchPrice_finish (toTime net) toCrypto (toOutcome net) toTask in
  let resume := updatePrices_resume t fromCrypto toCrypto in
  if from_first net fromTask toTask then
    settle_prices finishFrom finishTo
      (fun rFrom rTo => Promise_all true rFrom rTo) resume pn1
  else
    let '((rTo, rFrom), pn2) :=
      settle_prices finishTo finishFrom
        (fun rTo rFrom => Promise_all false rFrom rTo) resume pn1 in
    ((rFrom, rTo), pn2).

(** [init()], once [cacheElements] and [bindEvents] have run. *)
Definition init (t : Times) (net : Network) : P (settled value * settled value) :=
  fun pn => updatePrices t net (updateAmountLabel pn).

(** *** Observations used in the statements *)

Definition with_controller (st : State) (pn : Panel) : Panel :=
  {| controller := st; amountLabel := amountLabel pn;
     fromPrice := fromPrice pn; toPrice := toPrice pn |}.

(** What the two price elements show when both prices are there: the
    formatted prices with the cache status of their entries, or "Price
    unavailable" twice when a price cannot be formatted. *)
Definition shown_prices (t : Times) (fromCrypto toCrypto : string)
    (fromPrice toPrice : value) (cache : gmap string CacheEntry) : markup * markup :=
  let status (now : Z) (coinId : string) : string :=
    match cache !! coinId with
    | Some cached =>
        if 0 <? 60 - (now - timestamp cached) / 1000
        then cached_span (60 - (now - timestamp cached) / 1000)
        else ""
    | None => ""
    end in
  match formatPrice fromPrice, formatPrice toPrice with
  | Fulfilled shownFrom, Fulfilled shownTo =>
      (price_markup (getCryptoDisplayName fromCrypto) shownFrom
         (status (statusFrom t) fromCrypto),
       price_markup (getCryptoDisplayName toCrypto) shownTo
         (status (statusTo t) toCrypto))
  | _, _ => (unavailable, unavailable)
  end.

(** The panel of the example page. *)
Definition example (st : State) : Panel :=
  {| controller := st; amountLabel := []; fromPrice := []; toPrice := [] |}.

Definition at_once (now : Z) : Times :=
  {| sweepTime := now; lookupFrom := now; lookupTo := now;
     statusFrom := now + 600; statusTo := now + 600 |}.

End PricePanel.

(** ** Properties of the price cache *)

Module CacheProperties.
Import JS CryptoConverter.

Ltac run := unfold getCachedPrice, getCacheStatus, setCachedPrice, set_priceCache,
  bind, ret, read in *; cbn [fst snd] in *.

Lemma getCachedPrice_cases (now : Z) (coinId : string) (st : State) :
  getCachedPrice now coinId st =
    match priceCache st !! coinId with
    | None => (Null, st)
    | Some cached =>
        if 60000 <? now - timestamp cached then (Null, without coinId st)
        else (price cached, st)
    end.
Proof.
  run. destruct (priceCache st !! coinId) as [cached|]; [|reflexivity].
  unfold cacheExpiration. rewrite Z.gtb_ltb. change (60 * 1000) with 60000.
  destruct (60000 <? now - timestamp cached); reflexivity.
Qed.

(** C1. [getCachedPrice] returns the stored price of an entry whose age is at
    most 60000 ms and leaves the controller as it is; for an older entry it
    returns [null] and deletes that entry and nothing else; without an
    entry it returns [null] and changes nothing. *)
Theorem getCachedPrice_correct (now : Z) (coinId : string) (st : State) :
  (forall cached, priceCache st !! coinId = Some cached ->
     now - timestamp cached <= 60000 ->
     getCachedPrice now coinId st = (price cached, st)) /\
  (forall cached, priceCache st !! coinId = Some cached ->
     60000 < now - timestamp cached ->
     let st' := (getCachedPrice now coinId st).2 in
     (getCachedPrice now coinId st).1 = Null /\
     priceCache st' !! coinId = None /\
     (forall k, k <> coinId -> priceCache st' !! k = priceCache st !! k) /\
     isConverting st' = isConverting st /\ elements st' = elements st /\
     console st' = console st /\ requests st' = requests st) /\
  (priceCache st !! coinId = None ->
     getCachedPrice now coinId st = (Null, st)).
Proof.
  rewrite getCachedPrice_cases. split; [|split].
  - intros cached -> Hage.
    destruct (Z.ltb_spec 60000 (now - timestamp cached)); [lia | reflexivity].
  - intros cached Hc Hage. rewrite Hc.
    destruct (Z.ltb_spec 60000 (now - timestamp cached)); [| lia].
    cbn. repeat split; try reflexivity.
    + apply lookup_delete_eq.
    + intros k Hk. apply lookup_delete_ne. congruence.
  - intros ->. reflexivity.
Qed.

Lemma getCacheStatus_cases (now : Z) (coinId : string) (st : State) :
  getCacheStatus now coinId st =
    (match priceCache st !! coinId with
     | None => ""
     | Some cached =>
         if 0 <? 60 - (now - timestamp cached) / 1000
         then cached_span (60 - (now - timestamp cached) / 1000)
         else ""
     end, st).
Proof.
  run. destruct (priceCache st !! coinId) as [cached|]; [|reflexivity].
  rewrite Z.gtb_ltb.
  destruct (0 <? 60 - (now - timestamp cached) / 1000); reflexivity.
Qed.

Lemma cached_span_not_empty (s : Z) : cached_span s <> "".
Proof. unfold cached_span. cbn. discriminate. Qed.

(** C6 as stated does not hold: an entry of age 60000 ms is live (it is
    served by [getCachedPrice]) and its remaining TTL clamped to
    non-negative is 0, but [getCacheStatus] shows nothing for it. *)
Lemma remainingTtl_zero_not_shown :
  let st := Examples.idle "10" Examples.bitcoin_at_0 in
  (getCachedPrice 60000 "bitcoin" st).1 = Num 2 /\
  Spec.remainingTtl 60000 (priceCache st) "bitcoin" = Some 0 /\
  (getCacheStatus 60000 "bitcoin" st).1 = "" /\
  (getCacheStatus 60000 "bitcoin" st).1
    <> Spec.display (Spec.remainingTtl 60000 (priceCache st) "bitcoin").
Proof.
  cbv zeta. rewrite getCachedPrice_cases, getCacheStatus_cases.
  repeat split; try reflexivity.
  cbn. intros H. symmetry in H. revert H. apply cached_span_not_empty.
Qed.

(** C6, amended.  For an entry fetched at [timestamp], let
    [r = 60 - floor((now - timestamp) / 1000)].  [getCacheStatus] shows [r]
    when [r] is positive and nothing otherwise, so a shown value is never
    negative (nor zero); nothing is shown without an entry or for an entry
    older than the window; [r] does not grow as time passes, and once
    nothing is shown nothing is shown later. *)
Theorem getCacheStatus_remaining (now : Z) (coinId : string) (st : State)
    (cached : CacheEntry) (Hcached : priceCache st !! coinId = Some cached) :
  let r t := 60 - (t - timestamp cached) / 1000 in
  (0 < r now -> (getCacheStatus now coinId st).1 = cached_span (r now)) /\
  (r now <= 0 -> (getCacheStatus now coinId st).1 = "") /\
  ((getCacheStatus now coinId st).1 <> "" -> 0 < r now) /\
  (Spec.live now cached = false -> (getCacheStatus now coinId st).1 = "") /\
  (forall later, now <= later ->
     r later <= r now /\
     ((getCacheStatus now coinId st).1 = "" ->
      (getCacheStatus later coinId st).1 = "")) /\
  (forall st0, priceCache st0 !! coinId = None ->
     (getCacheStatus now coinId st0).1 = "").
Proof.
  intros r. subst r. cbn beta. rewrite !getCacheStatus_cases, Hcached. cbn [fst].
  assert (Hmono : forall later, now <= later ->
            60 - (later - timestamp cached) / 1000
            <= 60 - (now - timestamp cached) / 1000).
  { intros later Hl.
    assert ((now - timestamp cached) / 1000 <= (later - timestamp cached) / 1000)
      by (apply Z.div_le_mono; lia).
    lia. }
  repeat split.
  - intros Hr. destruct (Z.ltb_spec 0 (60 - (now - timestamp cached) / 1000));
      [reflexivity | lia].
  - intros Hr. destruct (Z.ltb_spec 0 (60 - (now - timestamp cached) / 1000));
      [lia | reflexivity].
  - destruct (Z.ltb_spec 0 (60 - (now - timestamp cached) / 1000));
      [lia | congruence].
  - unfold Spec.live. intros Hl. apply Z.leb_gt in Hl.
    assert (60 <= (now - timestamp cached) / 1000)
      by (apply Z.div_le_lower_bound; lia).
    destruct (Z.ltb_spec 0 (60 - (now - timestamp cached) / 1000));
      [lia | reflexivity].
  - apply Hmono. assumption.
  - rewrite getCacheStatus_cases, Hcached. cbn [fst].
    specialize (Hmono later H).
    destruct (Z.ltb_spec 0 (60 - (now - timestamp cached) / 1000)).
    + intros Hs. exfalso. revert Hs. apply cached_span_not_empty.
    + intros _. destruct (Z.ltb_spec 0 (60 - (later - timestamp cached) / 1000));
        [lia | reflexivity].
  - intros st0 Hnone. rewrite getCacheStatus_cases, Hnone. reflexivity.
Qed.

Lemma getCacheStatus_remaining_witness :
  (getCacheStatus 1500 "bitcoin" (Examples.idle "10" Examples.bitcoin_at_0)).1
  = cached_span 59.
Proof.
  apply (getCacheStatus_remaining 1500 "bitcoin"
           (Examples.idle "10" Examples.bitcoin_at_0)
           {| price := Num 2; timestamp := 0 |}).
  - reflexivity.
  - reflexivity.
Defined.

(** C10. [getCacheStatus] never modifies the controller.  For an entry older
    than 60 seconds it returns the empty status and the entry is still in
    the map afterwards, whereas [getCachedPrice] deletes it. *)
Theorem getCacheStatus_frame (now : Z) (coinId : string) (st : State) :
  (getCacheStatus now coinId st).2 = st /\
  (forall cached, priceCache st !! coinId = Some cached ->
     60000 < now - timestamp cached ->
     getCacheStatus now coinId st = ("", st) /\
     priceCache (getCacheStatus now coinId st).2 !! coinId = Some cached /\
     priceCache (getCachedPrice now coinId st).2 !! coinId = None).
Proof.
  rewrite getCacheStatus_cases, getCachedPrice_cases. split; [reflexivity|].
  intros cached Hc Hage. rewrite Hc. cbn [snd].
  assert (60 <= (now - timestamp cached) / 1000)
    by (apply Z.div_le_lower_bound; lia).
  destruct (Z.ltb_spec 0 (60 - (now - timestamp cached) / 1000)); [lia|].
  destruct (Z.ltb_spec 60000 (now - timestamp cached)); [|lia].
  repeat split; [assumption|]. cbn. apply lookup_delete_eq.
Qed.

Lemma getCacheStatus_frame_witness :
  let st := Examples.idle "10" Examples.bitcoin_at_0 in
  getCacheStatus 61000 "bitcoin" st = ("", st) /\
  priceCache (getCacheStatus 61000 "bitcoin" st).2 !! "bitcoin"
    = Some {| price := Num 2; timestamp := 0 |} /\
  priceCache (getCachedPrice 61000 "bitcoin" st).2 !! "bitcoin" = None.
Proof.
  apply (proj2 (getCacheStatus_frame 61000 "bitcoin"
                  (Examples.idle "10" Examples.bitcoin_at_0))).
  - reflexivity.
  - reflexivity.
Defined.

Lemma getCachedPrice_correct_witness :
  let st := Examples.idle "10" Examples.bitcoin_at_0 in
  getCachedPrice 60000 "bitcoin" st = (Num 2, st) /\
  (getCachedPrice 60001 "bitcoin" st).1 = Null /\
  priceCache (getCachedPrice 60001 "bitcoin" st).2 !! "bitcoin" = None /\
  getCachedPrice 60001 "ethereum" st = (Null, st).
Proof.
  pose proof (getCachedPrice_correct 60000 "bitcoin"
                (Examples.idle "10" Examples.bitcoin_at_0)) as [Hfresh _].
  pose proof (getCachedPrice_correct 60001 "bitcoin"
                (Examples.idle "10" Examples.bitcoin_at_0)) as [_ [Hstale _]].
  pose proof (getCachedPrice_correct 60001 "ethereum"
                (Examples.idle "10" Examples.bitcoin_at_0)) as [_ [_ Hnone]].
  split; [|split; [|split]].
  - apply (Hfresh {| price := Num 2; timestamp := 0 |}); [reflexivity | cbn; lia].
  - apply (Hstale {| price := Num 2; timestamp := 0 |}); [reflexivity | cbn; lia].
  - apply (Hstale {| price := Num 2; timestamp := 0 |}); [reflexivity | cbn; lia].
  - apply Hnone. reflexivity.
Defined.

End CacheProperties.

(** ** Properties of validation and conversion *)

Module ConversionProperties.
Import JS CryptoConverter.

Lemma bind_run {A B} (m : M A) (k : A -> M B) (st : State) :
  bind m k st = k (m st).1 (m st).2.
Proof. unfold bind. destruct (m st). reflexivity. Qed.

Lemma same_controls_refl st : same_controls st st.
Proof. split; reflexivity. Qed.

Lemma same_controls_trans st1 st2 st3 :
  same_controls st1 st2 -> same_controls st2 st3 -> same_controls st1 st3.
Proof. unfold same_controls. intros [-> ->] [-> ->]. split; reflexivity. Qed.

Lemma getCachedPrice_controls now coinId st :
  same_controls st (getCachedPrice now coinId st).2.
Proof.
  rewrite CacheProperties.getCachedPrice_cases.
  destruct (priceCache st !! coinId) as [c|]; [|apply same_controls_refl].
  destruct (60000 <? now - timestamp c); split; reflexivity.
Qed.

Lemma fetchPrice_begin_controls now coinId st :
  same_controls st (fetchPrice_begin now coinId st).2.
Proof.
  unfold fetchPrice_begin. rewrite bind_run.
  pose proof (getCachedPrice_controls now coinId st) as H.
  destruct (getCachedPrice now coinId st) as [v st1]. cbn [fst snd] in *.
  destruct H as [H1 H2].
  destruct v; try destruct (to_string_throws _); split; cbn; assumption.
Qed.

Lemma fetchPrice_resume_controls now coinId o st :
  same_controls st (fetchPrice_resume now coinId o st).2.
Proof.
  unfold fetchPrice_resume.
  destruct o as [e|status [data|e]]; try destruct (negb (ok status));
    try destruct (get data "usd_price"); split; reflexivity.
Qed.

Lemma fetchPrice_finish_controls now coinId o t st :
  same_controls st (fetchPrice_finish now coinId o t st).2.
Proof.
  destruct t; [apply same_controls_refl | apply fetchPrice_resume_controls].
Qed.

Ltac ui := unfold setLoadingState, clearMessages, showError, showResult,
  update_elements, set_elements, set_isConverting, bind, ret, read;
  cbn [fst snd].

Lemma class_added (c : string) (classes : gset string) : c ∈ {[ c ]} ∪ classes.
Proof. apply elem_of_union_l, elem_of_singleton. reflexivity. Qed.

Lemma class_removed (c : string) (classes : gset string) : c ∉ classes ∖ {[ c ]}.
Proof.
  rewrite elem_of_difference, elem_of_singleton. intros [_ H]. apply H. reflexivity.
Qed.

Lemma setLoadingState_effect (isLoading : bool) (st : State) :
  let st' := (setLoadingState isLoading st).2 in
  isConverting st' = isLoading /\
  disabled (convertBtn (elements st')) = isLoading /\
  (if isLoading
   then ("hidden" ∈ classList (convertText (elements st'))) /\
        ("hidden" ∉ classList (convertLoading (elements st')))
   else ("hidden" ∉ classList (convertText (elements st'))) /\
        ("hidden" ∈ classList (convertLoading (elements st')))) /\
  result (elements st') = result (elements st) /\
  error (elements st') = error (elements st) /\
  fromCrypto (elements st') = fromCrypto (elements st) /\
  toCrypto (elements st') = toCrypto (elements st) /\
  amountInput (elements st') = amountInput (elements st) /\
  same_data st st'.
Proof.
  destruct isLoading; ui; cbn; unfold same_data; cbn;
    repeat split; try reflexivity; auto using class_added, class_removed.
Qed.

Lemma showError_effect (msg : text) (st : State) :
  let st' := (showError msg st).2 in
  textContent (error (elements st')) = msg /\
  ("hidden" ∉ classList (error (elements st'))) /\
  result (elements st') = result (elements st) /\
  isConverting st' = isConverting st /\
  same_data st st'.
Proof.
  ui; cbn; unfold same_data; cbn; repeat split; try reflexivity.
  apply class_removed.
Qed.

Lemma showResult_effect (msg : text) (st : State) :
  let st' := (showResult msg st).2 in
  textContent (result (elements st')) = msg /\
  ("hidden" ∉ classList (result (elements st'))) /\
  error (elements st') = error (elements st) /\
  isConverting st' = isConverting st /\
  same_data st st'.
Proof.
  ui; cbn; unfold same_data; cbn; repeat split; try reflexivity.
  apply class_removed.
Qed.

Lemma clearMessages_effect (st : State) :
  let st' := (clearMessages st).2 in
  textContent (result (elements st')) = [] /\
  ("hidden" ∈ classList (result (elements st'))) /\
  textContent (error (elements st')) = [] /\
  ("hidden" ∈ classList (error (elements st'))) /\
  fromCrypto (elements st') = fromCrypto (elements st) /\
  toCrypto (elements st') = toCrypto (elements st) /\
  amountInput (elements st') = amountInput (elements st) /\
  isConverting st' = isConverting st /\
  same_data st st'.
Proof.
  ui; cbn; unfold same_data; cbn; repeat split; try reflexivity;
    apply class_added.
Qed.

Lemma validateInputs_state (st : State) : (validateInputs st).2 = st.
Proof.
  unfold validateInputs, bind, read, ret. cbn.
  destruct (String.eqb _ _); [reflexivity|].
  destruct (isNaN _ || _); reflexivity.
Qed.

(** Validation reads the three form fields only. *)
Lemma validateInputs_inputs (st st' : State) :
  fromCrypto (elements st') = fromCrypto (elements st) ->
  toCrypto (elements st') = toCrypto (elements st) ->
  amountInput (elements st') = amountInput (elements st) ->
  (validateInputs st').1 = (validateInputs st).1.
Proof.
  intros H1 H2 H3. unfold validateInputs, bind, read, ret. cbn.
  rewrite H1, H2, H3.
  destruct (String.eqb _ _); [reflexivity|].
  destruct (isNaN _ || _); reflexivity.
Qed.

(** [convert] up to the suspension, for a controller that is idle. *)
Lemma convert_begin_idle (nowFrom nowTo : Z) (st : State) :
  isConverting st = false ->
  convert_begin nowFrom nowTo st =
    let st2 := (setLoadingState true (clearMessages st).2).2 in
    match (validateInputs st).1 with
    | Invalid err =>
        (ValidationFailed, (setLoadingState false (showError err st2).2).2)
    | Valid amount fromCrypto toCrypto =>
        let b1 := fetchPrice_begin nowFrom fromCrypto st2 in
        let b2 := fetchPrice_begin nowTo toCrypto b1.2 in
        (Suspended amount fromCrypto toCrypto b1.1 b2.1, b2.2)
    end.
Proof.
  intros Hidle. unfold convert_begin. rewrite bind_run. unfold read at 1 2.
  cbn [fst snd]. rewrite Hidle. rewrite !bind_run.
  pose proof (clearMessages_effect st) as (_ & _ & _ & _ & Hf & Ht & Ha & _).
  pose proof (setLoadingState_effect true (clearMessages st).2)
    as (_ & _ & _ & _ & _ & Hf' & Ht' & Ha' & _).
  cbv zeta in *.
  rewrite validateInputs_state.
  rewrite (validateInputs_inputs st);
    [| congruence | congruence | congruence].
  destruct (validateInputs st).1 as [err | amount f t].
  - rewrite !bind_run. reflexivity.
  - rewrite !bind_run. reflexivity.
Qed.

(** C5. While a conversion is running ([isConverting] is true), [convert]
    returns at once and the controller, its console and the list of
    requests are what they were: nothing is fetched, nothing is rendered. *)
Theorem convert_reentrant (nowFrom nowTo : Z) (net : Network) (st : State)
    (Hconverting : isConverting st = true) :
  convert_begin nowFrom nowTo st = (Dropped, st) /\
  convert nowFrom nowTo net st = (RunDropped, st).
Proof.
  assert (convert_begin nowFrom nowTo st = (Dropped, st)) as Hb.
  { unfold convert_begin. rewrite bind_run. unfold read. cbn [fst snd].
    rewrite Hconverting. reflexivity. }
  split; [exact Hb|].
  unfold convert. rewrite bind_run, Hb. reflexivity.
Qed.

Lemma convert_reentrant_witness :
  convert 1000 1000 (Examples.network (Examples.answers 2) (Examples.answers 4))
    Examples.converting
  = (RunDropped, Examples.converting).
Proof.
  apply (convert_reentrant 1000 1000
           (Examples.network (Examples.answers 2) (Examples.answers 4))
           Examples.converting).
  reflexivity.
Defined.

(** C3 as stated does not hold: the amount ["Infinity"] is not a finite
    number, yet validation succeeds and both prices are requested. *)
Lemma infinite_amount_is_valid :
  let st := Examples.idle "Infinity" ∅ in
  (validateInputs st).1 = Valid PrimFloat.infinity "bitcoin" "ethereum" /\
  Spec.finite_positive PrimFloat.infinity = false /\
  requests (convert_begin 1000 1000 st).2 =
    [price_url "bitcoin"; price_url "ethereum"].
Proof. vm_compute. repeat split; reflexivity. Qed.

Lemma convert_invalid (nowFrom nowTo : Z) (net : Network) (err : text) (st : State) :
  isConverting st = false -> (validateInputs st).1 = Invalid err ->
  let st' := (convert_begin nowFrom nowTo st).2 in
  convert_begin nowFrom nowTo st = (ValidationFailed, st') /\
  convert nowFrom nowTo net st = (RunValidationFailed, st') /\
  requests st' = requests st /\ priceCache st' = priceCache st /\
  textContent (error (elements st')) = err /\
  ("hidden" ∉ classList (error (elements st'))).
Proof.
  intros Hidle Hinv. cbv zeta. unfold convert. rewrite bind_run.
  rewrite (convert_begin_idle nowFrom nowTo st Hidle), Hinv. cbv zeta. cbn [fst snd].
  set (st1 := (clearMessages st).2).
  set (st2 := (setLoadingState true st1).2).
  set (st3 := (showError err st2).2).
  pose proof (clearMessages_effect st) as (_ & _ & _ & _ & _ & _ & _ & _ & D1).
  pose proof (setLoadingState_effect true st1) as (_ & _ & _ & _ & _ & _ & _ & _ & D2).
  pose proof (showError_effect err st2) as (E1 & E2 & _ & _ & D3).
  pose proof (setLoadingState_effect false st3) as (_ & _ & _ & _ & E4 & _ & _ & _ & D4).
  cbv zeta in *. fold st1 in D1. fold st2 in D2, E1, E2. fold st3 in D3, E1, E2, E4.
  unfold same_data in *.
  destruct D1 as (? & ? & ?), D2 as (? & ? & ?), D3 as (? & ? & ?), D4 as (? & ? & ?).
  repeat split; try congruence.
Qed.

(** C3, amended.  Validation fails exactly when the two currencies are equal
    (same-currency error, checked first) or when the parsed amount is NaN
    or at most zero (invalid-amount error); an amount of +Infinity passes.
    When validation fails, [convert] ends without a request: the error is
    shown, the cache and the list of requests are unchanged. *)
Theorem validateInputs_correct (st : State) :
  let amount := parseFloat (value_ (amountInput (elements st))) in
  let fromC := value_ (fromCrypto (elements st)) in
  let toC := value_ (toCrypto (elements st)) in
  (fromC = toC -> (validateInputs st).1 = Invalid same_currency_error) /\
  (fromC <> toC -> isNaN amount = true \/ PrimFloat.leb amount PrimFloat.zero = true ->
     (validateInputs st).1
     = Invalid (invalid_amount_error (getCryptoDisplayName fromC))) /\
  (fromC <> toC -> isNaN amount = false -> PrimFloat.leb amount PrimFloat.zero = false ->
     (validateInputs st).1 = Valid amount fromC toC) /\
  ((exists err, (validateInputs st).1 = Invalid err) <->
     fromC = toC \/ isNaN amount = true \/ PrimFloat.leb amount PrimFloat.zero = true) /\
  (forall nowFrom nowTo net err,
     isConverting st = false -> (validateInputs st).1 = Invalid err ->
     let st' := (convert_begin nowFrom nowTo st).2 in
     convert_begin nowFrom nowTo st = (ValidationFailed, st') /\
     convert nowFrom nowTo net st = (RunValidationFailed, st') /\
     requests st' = requests st /\ priceCache st' = priceCache st /\
     textContent (error (elements st')) = err /\
     ("hidden" ∉ classList (error (elements st')))).
Proof.
  intros amount fromC toC.
  assert (Hv : (validateInputs st).1 =
            if String.eqb fromC toC then Invalid same_currency_error
            else if isNaN amount || PrimFloat.leb amount PrimFloat.zero
                 then Invalid (invalid_amount_error (getCryptoDisplayName fromC))
                 else Valid amount fromC toC).
  { unfold validateInputs, bind, read, ret. cbn [fst snd]. fold amount fromC toC.
    destruct (String.eqb fromC toC); [reflexivity|].
    destruct (isNaN amount || PrimFloat.leb amount PrimFloat.zero); reflexivity. }
  split; [|split; [|split; [|split]]].
  - intros Heq. rewrite Hv. apply String.eqb_eq in Heq. rewrite Heq. reflexivity.
  - intros Hne Hbad. rewrite Hv. apply String.eqb_neq in Hne. rewrite Hne.
    replace (isNaN amount || PrimFloat.leb amount PrimFloat.zero) with true;
      [reflexivity|].
    symmetry. apply orb_true_iff. exact Hbad.
  - intros Hne Hnan Hle. rewrite Hv. apply String.eqb_neq in Hne.
    rewrite Hne, Hnan, Hle. reflexivity.
  - rewrite Hv. destruct (String.eqb_spec fromC toC) as [Heq|Hne].
    + split; [intros _; left; exact Heq | intros _; eexists; reflexivity].
    + destruct (isNaN amount); cbn [orb].
      * split; [intros _; right; left; reflexivity | intros _; eexists; reflexivity].
      * destruct (PrimFloat.leb amount PrimFloat.zero).
        -- split; [intros _; right; right; reflexivity | intros _; eexists; reflexivity].
        -- split; [intros [err Herr]; discriminate |].
           intros [Heq | [Hn | Hl]]; [contradiction | discriminate | discriminate].
  - intros nowFrom nowTo net err Hidle Hinv.
    exact (convert_invalid nowFrom nowTo net err st Hidle Hinv).
Qed.

Lemma validateInputs_correct_witness :
  let st := Examples.idle "-3" ∅ in
  (validateInputs st).1
    = Invalid (invalid_amount_error (getCryptoDisplayName "bitcoin")) /\
  requests (convert_begin 1000 1000 st).2 = [] /\
  textContent (error (elements (convert_begin 1000 1000 st).2))
    = [Lit "Please enter a valid "; Lit "BTC"; Lit " amount."].
Proof.
  pose proof (validateInputs_correct (Examples.idle "-3" ∅))
    as (_ & Hbad & _ & _ & Hrun).
  assert ((validateInputs (Examples.idle "-3" ∅)).1
          = Invalid (invalid_amount_error (getCryptoDisplayName "bitcoin"))) as Hinv.
  { apply Hbad; [discriminate | right; reflexivity]. }
  destruct (Hrun 1000 1000
              (Examples.network (Examples.answers 2) (Examples.answers 4))
              _ eq_refl Hinv) as (_ & _ & Hreq & _ & Herr & _).
  split; [exact Hinv | split; [exact Hreq | exact Herr]].
Defined.

Lemma convert_catch_effect (e : JS.error) (st : State) :
  let st' := (convert_catch e st).2 in
  textContent (error (elements st')) = fetch_failed_error /\
  ("hidden" ∉ classList (error (elements st'))) /\
  result (elements st') = result (elements st) /\
  console st' = (console st ++ [LogError [Lit "Conversion error:"] e])%list.
Proof.
  cbv zeta. unfold convert_catch. rewrite bind_run.
  pose proof (showError_effect fetch_failed_error
                (console_write (LogError [Lit "Conversion error:"] e) st).2)
    as (H1 & H2 & H3 & _ & (_ & H4 & _)).
  cbv zeta in *. repeat split; assumption.
Qed.

(** What the rest of [convert] does, whatever the state it resumes in. *)
Lemma convert_resume_effect (amount : float) (fromC toC : string)
    (prices : settled (value * value)) (st : State) :
  let st' := (convert_resume amount fromC toC prices st).2 in
  isConverting st' = false /\
  disabled (convertBtn (elements st')) = false /\
  ("hidden" ∉ classList (convertText (elements st'))) /\
  ("hidden" ∈ classList (convertLoading (elements st'))) /\
  match amounts amount prices with
  | Rejected e =>
      textContent (error (elements st')) = fetch_failed_error /\
      ("hidden" ∉ classList (error (elements st'))) /\
      result (elements st') = result (elements st) /\
      console st' = (console st ++ [LogError [Lit "Conversion error:"] e])%list
  | Fulfilled (usdAmount, convertedAmount) =>
      textContent (result (elements st')) =
        result_message amount (getCryptoDisplayName fromC) convertedAmount
          (getCryptoDisplayName toC) usdAmount /\
      ("hidden" ∉ classList (result (elements st'))) /\
      error (elements st') = error (elements st) /\
      console st' = console st
  end.
Proof.
  cbv zeta. unfold convert_resume. rewrite bind_run.
  match goal with |- context [setLoadingState false ?s] =>
    pose proof (setLoadingState_effect false s)
      as (L1 & L2 & (L3 & L4) & L5 & L6 & _ & _ & _ & (_ & L7 & _)) end.
  cbv zeta in L1, L2, L3, L4, L5, L6, L7.
  split; [exact L1|]. split; [exact L2|]. split; [exact L3|]. split; [exact L4|].
  rewrite L5, L6, L7. clear L1 L2 L3 L4 L5 L6 L7.
  unfold amounts.
  destruct prices as [[fromPrice toPrice]|e]; [|apply convert_catch_effect].
  destruct (JS.mul amount fromPrice) as [usdAmount|e]; [|apply convert_catch_effect].
  destruct (JS.div usdAmount toPrice) as [convertedAmount|e]; [|apply convert_catch_effect].
  match goal with |- context [showResult ?m ?s] =>
    pose proof (showResult_effect m s) as (H1 & H2 & H3 & _ & (_ & H4 & _)) end.
  cbv zeta in *. repeat split; assumption.
Qed.

Lemma fetchPrice_finish_console now coinId o t st :
  exists l, console (fetchPrice_finish now coinId o t st).2 = (console st ++ l)%list.
Proof.
  destruct t as [r|]; [exists []; cbn; symmetry; apply app_nil_r|].
  cbn. unfold fetchPrice_resume.
  destruct o as [e|status [data|e]]; try destruct (negb (ok status));
    try destruct (get data "usd_price"); cbn;
    first [ exists []; symmetry; apply app_nil_r | eexists; reflexivity ].
Qed.

Lemma Promise_all_first_rejected (first : bool) (e : JS.error) (r : settled value) :
  (if first then Promise_all true (Rejected e) r else Promise_all false r (Rejected e))
  = Rejected e.
Proof. destruct first, r; reflexivity. Qed.

(** A run of [convert] on valid inputs: both promises settle, [convert]
    resumes once with what [Promise.all] settled to, in a state whose
    message elements are cleared; what happens afterwards (the second
    promise settling after an early rejection) leaves the controls alone
    and only adds to the console. *)
Lemma convert_valid (nowFrom nowTo : Z) (net : Network) (st : State)
    (amount : float) (fromC toC : string) :
  isConverting st = false ->
  (validateInputs st).1 = Valid amount fromC toC ->
  exists first rFrom rTo resumed final,
    convert nowFrom nowTo net st = (RunSettled first rFrom rTo, final) /\
    same_controls
      (convert_resume amount fromC toC (Promise_all first rFrom rTo) resumed).2 final /\
    (exists l, console final =
       (console (convert_resume amount fromC toC (Promise_all first rFrom rTo) resumed).2
        ++ l)%list) /\
    textContent (result (elements resumed)) = [] /\
    ("hidden" ∈ classList (result (elements resumed))) /\
    textContent (error (elements resumed)) = [] /\
    ("hidden" ∈ classList (error (elements resumed))).
Proof.
  intros Hidle Hvalid. unfold convert. rewrite bind_run.
  rewrite (convert_begin_idle nowFrom nowTo st Hidle), Hvalid. cbv zeta. cbn [fst snd].
  set (st1 := (clearMessages st).2).
  set (st2 := (setLoadingState true st1).2).
  set (b1 := fetchPrice_begin nowFrom fromC st2).
  set (b2 := fetchPrice_begin nowTo toC b1.2).
  assert (Hcleared : forall s, same_controls b2.2 s ->
            textContent (result (elements s)) = [] /\
            ("hidden" ∈ classList (result (elements s))) /\
            textContent (error (elements s)) = [] /\
            ("hidden" ∈ classList (error (elements s)))).
  { intros s Hs.
    pose proof (clearMessages_effect st) as (C1 & C2 & C3 & C4 & _).
    pose proof (setLoadingState_effect true st1) as (_ & _ & _ & R & E & _).
    pose proof (fetchPrice_begin_controls nowFrom fromC st2) as [_ B1].
    pose proof (fetchPrice_begin_controls nowTo toC b1.2) as [_ B2].
    destruct Hs as [_ Hs]. cbv zeta in *.
    fold st1 in C1, C2, C3, C4. fold st2 in R, E. fold b1 in B1. fold b2 in B2.
    rewrite Hs, B2, B1, R, E. repeat split; assumption. }
  destruct (from_first net b1.1 b2.1); unfold settle_in_order; rewrite !bind_run.
  - set (f1 := fetchPrice_finish (fromTime net) fromC (fromOutcome net) b1.1 b2.2).
    destruct f1.1 as [v1|e1] eqn:Hr1.
    + rewrite !bind_run. cbn [fst snd ret].
      set (f2 := fetchPrice_finish (toTime net) toC (toOutcome net) b2.1 f1.2).
      exists true, (Fulfilled v1), f2.1, f2.2. eexists. split; [reflexivity|].
      split; [apply same_controls_refl|]. split; [exists []; symmetry; apply app_nil_r|].
      apply Hcleared.
      eapply same_controls_trans; [apply fetchPrice_finish_controls|].
      apply fetchPrice_finish_controls.
    + rewrite !bind_run. cbn [fst snd ret].
      set (resumedSt := (convert_resume amount fromC toC (Rejected e1) f1.2).2).
      set (f2 := fetchPrice_finish (toTime net) toC (toOutcome net) b2.1 resumedSt).
      exists true, (Rejected e1), f2.1, f1.2. eexists. split; [reflexivity|].
      rewrite (Promise_all_first_rejected true e1 f2.1). fold resumedSt.
      split; [apply fetchPrice_finish_controls|].
      split; [apply fetchPrice_finish_console|].
      apply Hcleared. apply fetchPrice_finish_controls.
  - set (f2 := fetchPrice_finish (toTime net) toC (toOutcome net) b2.1 b2.2).
    destruct f2.1 as [v2|e2] eqn:Hr2.
    + rewrite !bind_run. cbn [fst snd ret].
      set (f1 := fetchPrice_finish (fromTime net) fromC (fromOutcome net) b1.1 f2.2).
      exists false, f1.1, (Fulfilled v2), f1.2. eexists. split; [reflexivity|].
      split; [apply same_controls_refl|]. split; [exists []; symmetry; apply app_nil_r|].
      apply Hcleared.
      eapply same_controls_trans; [apply fetchPrice_finish_controls|].
      apply fetchPrice_finish_controls.
    + rewrite !bind_run. cbn [fst snd ret].
      set (resumedSt := (convert_resume amount fromC toC (Rejected e2) f2.2).2).
      set (f1 := fetchPrice_finish (fromTime net) fromC (fromOutcome net) b1.1 resumedSt).
      exists false, f1.1, (Rejected e2), f2.2. eexists. split; [reflexivity|].
      rewrite (Promise_all_first_rejected false e2 f1.1). fold resumedSt.
      split; [apply fetchPrice_finish_controls|].
      split; [apply fetchPrice_finish_console|].
      apply Hcleared. apply fetchPrice_finish_controls.
Qed.

(** C4. In a conversion with valid inputs, when either price promise is
    rejected, [convert] catches the error of the one rejected first, logs
    it, shows the generic message and leaves the result element empty and
    hidden; a result is visible afterwards only if both were fulfilled, and
    then (unless the arithmetic itself throws) it is the result message. *)
Theorem convert_all_or_fail (nowFrom nowTo : Z) (net : Network) (st : State)
    (amount : float) (fromC toC : string)
    (Hidle : isConverting st = false)
    (Hvalid : (validateInputs st).1 = Valid amount fromC toC) :
  let final := (convert nowFrom nowTo net st).2 in
  exists first rFrom rTo,
    (convert nowFrom nowTo net st).1 = RunSettled first rFrom rTo /\
    (is_rejected rFrom || is_rejected rTo = true ->
       exists e, Promise_all first rFrom rTo = Rejected e /\
         (rFrom = Rejected e \/ rTo = Rejected e) /\
         In (LogError [Lit "Conversion error:"] e) (console final) /\
         textContent (error (elements final)) = fetch_failed_error /\
         ("hidden" ∉ classList (error (elements final))) /\
         textContent (result (elements final)) = [] /\
         ("hidden" ∈ classList (result (elements final)))) /\
    (("hidden" ∉ classList (result (elements final))) ->
       exists fromPrice toPrice,
         rFrom = Fulfilled fromPrice /\ rTo = Fulfilled toPrice) /\
    (forall fromPrice toPrice usdAmount convertedAmount,
       rFrom = Fulfilled fromPrice -> rTo = Fulfilled toPrice ->
       amounts amount (Fulfilled (fromPrice, toPrice))
         = Fulfilled (usdAmount, convertedAmount) ->
       textContent (result (elements final)) =
         result_message amount (getCryptoDisplayName fromC) convertedAmount
           (getCryptoDisplayName toC) usdAmount /\
       ("hidden" ∉ classList (result (elements final))) /\
       ("hidden" ∈ classList (error (elements final)))).
Proof.
  cbv zeta.
  destruct (convert_valid nowFrom nowTo net st amount fromC toC Hidle Hvalid)
    as (first & rFrom & rTo & resumed & final & Hrun & [_ Hels] & [l Hlog]
        & R1 & R2 & E1 & E2).
  rewrite Hrun. cbn [fst snd]. exists first, rFrom, rTo. split; [reflexivity|].
  pose proof (convert_resume_effect amount fromC toC (Promise_all first rFrom rTo) resumed)
    as (_ & _ & _ & _ & Heff).
  cbv zeta in Heff. rewrite Hels, Hlog.
  assert (Hrej : is_rejected rFrom || is_rejected rTo = true ->
            exists e, Promise_all first rFrom rTo = Rejected e /\
                      (rFrom = Rejected e \/ rTo = Rejected e)).
  { destruct rFrom as [v1|e1], rTo as [v2|e2]; cbn; intros Hr; try discriminate.
    - exists e2. split; [reflexivity | right; reflexivity].
    - exists e1. split; [reflexivity | left; reflexivity].
    - destruct first; [exists e1 | exists e2]; split; try reflexivity;
        [left | right]; reflexivity. }
  split; [|split].
  - intros Hr. destruct (Hrej Hr) as (e & Hall & Hwhich). exists e.
    rewrite Hall in Heff |- *. cbn [amounts] in Heff. destruct Heff as (H1 & H2 & H3 & H4).
    rewrite H3, H4. repeat split; try assumption.
    apply in_or_app. left. apply in_or_app. right. left. reflexivity.
  - intros Hshown.
    destruct rFrom as [v1|e1], rTo as [v2|e2]; [eauto | exfalso .. ].
    all: match goal with |- False =>
           destruct Hrej as (e & Hall & _); [reflexivity|];
           rewrite Hall in Heff, Hshown; cbn [amounts] in Heff;
           destruct Heff as (_ & _ & H3 & _);
           rewrite H3 in Hshown; contradiction end.
  - intros fromPrice toPrice usdAmount convertedAmount -> -> Ham.
    cbn [Promise_all] in Heff |- *. rewrite Ham in Heff.
    destruct Heff as (H1 & H2 & H3 & _). rewrite H3. repeat split; assumption.
Qed.

Lemma convert_all_or_fail_witness :
  let st := Examples.idle "10" ∅ in
  let net := Examples.network (NetworkFailure (TypeError "Failed to fetch"))
                              (Examples.answers 4) in
  let final := (convert 1000 1000 net st).2 in
  exists first rFrom rTo,
    (convert 1000 1000 net st).1 = RunSettled first rFrom rTo /\
    (is_rejected rFrom || is_rejected rTo = true ->
       exists e, Promise_all first rFrom rTo = Rejected e /\
         (rFrom = Rejected e \/ rTo = Rejected e) /\
         In (LogError [Lit "Conversion error:"] e) (console final) /\
         textContent (error (elements final)) = fetch_failed_error /\
         ("hidden" ∉ classList (error (elements final))) /\
         textContent (result (elements final)) = [] /\
         ("hidden" ∈ classList (result (elements final)))) /\
    is_rejected rFrom = true.
Proof.
  cbv zeta.
  assert ((validateInputs (Examples.idle "10" ∅)).1 = Valid 10 "bitcoin" "ethereum")
    as Hvalid by (vm_compute; reflexivity).
  destruct (convert_all_or_fail 1000 1000
              (Examples.network (NetworkFailure (TypeError "Failed to fetch"))
                                (Examples.answers 4))
              (Examples.idle "10" ∅) 10%float "bitcoin" "ethereum"
              eq_refl Hvalid)
    as (first & rFrom & rTo & Hrun & Hfail & _).
  exists first, rFrom, rTo. split; [exact Hrun|]. split; [exact Hfail|].
  vm_compute in Hrun. injection Hrun as _ <- _. reflexivity.
Defined.

(** C8. A run of [convert] that starts in the idle state ends in the idle
    state, whether validation fails, a price promise is rejected or a
    result is shown: [isConverting] is false, the button is enabled, its
    label is shown and its spinner hidden.  The rest of [convert] after the
    suspension establishes this from any state. *)
Theorem convert_returns_to_idle (nowFrom nowTo : Z) (net : Network) (st : State)
    (Hidle : isConverting st = false) :
  let final := (convert nowFrom nowTo net st).2 in
  (isConverting final = false /\
   disabled (convertBtn (elements final)) = false /\
   ("hidden" ∉ classList (convertText (elements final))) /\
   ("hidden" ∈ classList (convertLoading (elements final)))) /\
  (forall amount fromC toC prices resumed,
     let settled := (convert_resume amount fromC toC prices resumed).2 in
     isConverting settled = false /\
     disabled (convertBtn (elements settled)) = false).
Proof.
  cbv zeta. split.
  - destruct (validateInputs st).1 as [err | amount fromC toC] eqn:Hv.
    + destruct (convert_invalid nowFrom nowTo net err st Hidle Hv) as (_ & -> & _).
      cbn [snd]. rewrite (convert_begin_idle nowFrom nowTo st Hidle), Hv. cbn [snd].
      match goal with |- context [setLoadingState false ?s] =>
        pose proof (setLoadingState_effect false s) as (L1 & L2 & (L3 & L4) & _) end.
      cbv zeta in *. repeat split; assumption.
    + destruct (convert_valid nowFrom nowTo net st amount fromC toC Hidle Hv)
        as (first & rFrom & rTo & resumed & final & -> & [Hc Hels] & _).
      cbn [snd]. rewrite Hc, Hels.
      pose proof (convert_resume_effect amount fromC toC
                    (Promise_all first rFrom rTo) resumed) as (H1 & H2 & H3 & H4 & _).
      repeat split; assumption.
  - intros amount fromC toC prices resumed.
    pose proof (convert_resume_effect amount fromC toC prices resumed)
      as (H1 & H2 & _).
    split; assumption.
Qed.

Lemma convert_returns_to_idle_witness :
  let net := Examples.network (Response 503 (Rejected (SyntaxError "Unexpected token")))
                              (Examples.answers 4) in
  isConverting (convert 1000 1000 net (Examples.idle "10" ∅)).2 = false /\
  disabled (convertBtn (elements (convert 1000 1000 net (Examples.idle "10" ∅)).2))
    = false.
Proof.
  cbv zeta.
  destruct (convert_returns_to_idle 1000 1000
              (Examples.network (Response 503 (Rejected (SyntaxError "Unexpected token")))
                                (Examples.answers 4))
              (Examples.idle "10" ∅) eq_refl) as [(H1 & H2 & _) _].
  split; [exact H1 | exact H2].
Defined.

(** C7. In every conversion with valid inputs in which both prices are
    numbers, [convert] computes [usdAmount = amount * fromPrice] and
    [convertedAmount = usdAmount / toPrice] and shows them in the result
    message; so does the rest of [convert] from any state.  For an amount
    of 10 and prices 2.0 and 4.0 the two amounts are 20.0 and 5.0. *)
Theorem convert_arithmetic (nowFrom nowTo : Z) (net : Network) (st : State)
    (amount fromPrice toPrice : float) (fromC toC : string) (first : bool)
    (Hidle : isConverting st = false)
    (Hvalid : (validateInputs st).1 = Valid amount fromC toC)
    (Hprices : (convert nowFrom nowTo net st).1
               = RunSettled first (Fulfilled (Num fromPrice)) (Fulfilled (Num toPrice))) :
  let usdAmount := PrimFloat.mul amount fromPrice in
  let convertedAmount := PrimFloat.div usdAmount toPrice in
  let shown :=
    [Fixed amount 4; Lit " "; getCryptoDisplayName fromC; Lit " = ";
     Fixed convertedAmount 8; Lit " "; getCryptoDisplayName toC; Lit " ";
     Lit "(via USD: $"; Fixed usdAmount 6; Lit ")"] in
  (let final := (convert nowFrom nowTo net st).2 in
   textContent (result (elements final)) = shown /\
   ("hidden" ∉ classList (result (elements final)))) /\
  (forall resumed,
     let st' := (convert_resume amount fromC toC
                   (Fulfilled (Num fromPrice, Num toPrice)) resumed).2 in
     textContent (result (elements st')) = shown /\
     ("hidden" ∉ classList (result (elements st')))) /\
  PrimFloat.mul 10 2 = 20%float /\
  PrimFloat.div (PrimFloat.mul 10 2) 4 = 5%float.
Proof.
  cbv zeta.
  assert (Hresume : forall resumed,
            let st' := (convert_resume amount fromC toC
                          (Fulfilled (Num fromPrice, Num toPrice)) resumed).2 in
            textContent (result (elements st')) =
              [Fixed amount 4; Lit " "; getCryptoDisplayName fromC; Lit " = ";
               Fixed (PrimFloat.div (PrimFloat.mul amount fromPrice) toPrice) 8;
               Lit " "; getCryptoDisplayName toC; Lit " ";
               Lit "(via USD: $"; Fixed (PrimFloat.mul amount fromPrice) 6; Lit ")"] /\
            ("hidden" ∉ classList (result (elements st')))).
  { intros resumed. cbv zeta.
    pose proof (convert_resume_effect amount fromC toC
                  (Fulfilled (Num fromPrice, Num toPrice)) resumed)
      as (_ & _ & _ & _ & Heff).
    cbn [amounts JS.mul JS.div ToNumber] in Heff.
    destruct Heff as (H1 & H2 & _). split; assumption. }
  split; [|split; [exact Hresume | split; reflexivity]].
  destruct (convert_valid nowFrom nowTo net st amount fromC toC Hidle Hvalid)
    as (first' & rFrom & rTo & resumed & final & Hrun & [_ Hels] & _).
  rewrite Hrun in Hprices |- *. cbn [fst snd] in Hprices |- *.
  injection Hprices as -> -> ->. rewrite Hels. cbn [Promise_all].
  apply Hresume.
Qed.

Lemma convert_arithmetic_witness :
  let net := Examples.network (Examples.answers 2) (Examples.answers 4) in
  textContent (result (elements (convert 1000 1000 net (Examples.idle "10" ∅)).2))
  = [Fixed 10 4; Lit " "; Lit "BTC"; Lit " = "; Fixed 5 8; Lit " "; Lit "ETH";
     Lit " "; Lit "(via USD: $"; Fixed 20 6; Lit ")"].
Proof.
  cbv zeta.
  assert ((validateInputs (Examples.idle "10" ∅)).1 = Valid 10 "bitcoin" "ethereum")
    as Hvalid by (vm_compute; reflexivity).
  assert ((convert 1000 1000
             (Examples.network (Examples.answers 2) (Examples.answers 4))
             (Examples.idle "10" ∅)).1
          = RunSettled false (Fulfilled (Num 2)) (Fulfilled (Num 4)))
    as Hprices by (vm_compute; reflexivity).
  destruct (convert_arithmetic 1000 1000
              (Examples.network (Examples.answers 2) (Examples.answers 4))
              (Examples.idle "10" ∅) 10 2 4 "bitcoin" "ethereum" false
              eq_refl Hvalid Hprices) as [[Htext _] _].
  exact Htext.
Defined.

(** Without a cached price, [fetchPrice] settles to what the response
    gives: a rejection for a network failure, a status outside 200..299, an
    unreadable body or a [null] body, and the flat [usd_price] field
    otherwise. *)
Lemma fetchPrice_uncached (now later : Z) (coinId : string) (o : fetch_outcome)
    (st : State) :
  priceCache st !! coinId = None ->
  (fetchPrice now later coinId o st).1 =
    match o with
    | NetworkFailure e => Rejected e
    | Response status json =>
        if ok status then
          match json with
          | Rejected e => Rejected e
          | Fulfilled data => get data "usd_price"
          end
        else Rejected (Error ("HTTP error! status: " +:+ pretty status))
    end.
Proof.
  intros Hnone. unfold fetchPrice, fetchPrice_begin. rewrite !bind_run.
  rewrite CacheProperties.getCachedPrice_cases, Hnone. cbn [fst snd].
  rewrite !bind_run. cbn [fst snd ret fetchPrice_finish].
  unfold fetchPrice_resume.
  destruct o as [e|status [data|e]]; [reflexivity | |].
  - destruct (ok status); cbn [negb]; [|reflexivity].
    destruct (get data "usd_price"); reflexivity.
  - destruct (ok status); reflexivity.
Qed.

(** [fetchPrice] itself reads the flat [usd_price] field only and does not
    test it: for a body without that field, [undefined] is cached and
    returned. *)
Example fetchPrice_caches_missing_price :
  let run := fetchPrice 1000 1500 "bitcoin" (Response 200 (Fulfilled (Obj [])))
               (Examples.idle "10" ∅) in
  run.1 = Fulfilled Undefined /\
  priceCache run.2 !! "bitcoin" = Some {| price := Undefined; timestamp := 1500 |}.
Proof. split; reflexivity. Qed.

End ConversionProperties.

(** ** Properties of the price extraction of [transfer.js] *)

Module TransferProperties.
Import JS Transfer.

Lemma extractUsdPrice_number_or_null (data : value) :
  extractUsdPrice data = Null \/ exists x, extractUsdPrice data = Num x.
Proof.
  unfold extractUsdPrice.
  destruct (negb (truthy data)); [left; reflexivity|].
  destruct (prop data "usd_price") eqn:H1; cbn [is_number]; eauto.
  all: destruct (truthy (prop data "data")); [|left; reflexivity].
  all: destruct (prop (prop data "data") "usd_price") eqn:H2; cbn [is_number]; eauto.
  all: destruct (truthy (prop (prop data "data") "price")); cbn [andb].
  all: try (destruct (prop (prop (prop data "data") "price") "usd_price") eqn:H3;
            cbn [is_number]; eauto).
  all: destruct (prop data "data") eqn:H4; cbn [is_number]; eauto.
Qed.

(** The extraction is the first match of four strategies in this order:
    the three listed shapes, then [data] itself. *)
Lemma extractUsdPrice_first_match (data : value) :
  extractUsdPrice data =
  Spec.as_value (Spec.first_match (Spec.listed_shapes ++ [Spec.data_itself]) data).
Proof.
  unfold extractUsdPrice, Spec.listed_shapes, Spec.data_itself, Spec.number_at.
  cbn [app Spec.first_match fold_left]. fold (prop data "usd_price").
  fold (prop data "data"). fold (prop (prop data "data") "usd_price").
  fold (prop (prop data "data") "price").
  fold (prop (prop (prop data "data") "price") "usd_price").
  destruct data as [| |b0|x0|s0|elems0|props];
    try (destruct (negb (truthy _)); reflexivity).
  cbn [truthy negb].
  destruct (prop (Obj props) "usd_price") as [| |b1|x1|s1|elems1|props1];
    cbn [is_number Spec.as_value]; try reflexivity.
  all: destruct (prop (Obj props) "data") as [| |b4|x4|s4|elems4|props4];
    cbn [truthy prop get_or_undefined get is_number andb Spec.as_value]; try reflexivity.
  all: try (destruct b4; reflexivity).
  all: try (destruct (negb (PrimFloat.is_zero x4 || PrimFloat.is_nan x4)); reflexivity).
  all: try (destruct (negb (String.eqb s4 "")); reflexivity).
  all: destruct (default Undefined (own_property props4 "usd_price"));
    cbn [is_number Spec.as_value]; try reflexivity.
  all: destruct (default Undefined (own_property props4 "price"))
         as [| |b3|x3|s3|elems3|props3];
    cbn [truthy get is_number andb Spec.as_value]; try reflexivity.
  all: try (destruct b3; reflexivity).
  all: try (destruct (negb (PrimFloat.is_zero x3 || PrimFloat.is_nan x3)); reflexivity).
  all: try (destruct (negb (String.eqb s3 "")); reflexivity).
  all: cbn [prop get_or_undefined get];
    destruct (default Undefined (own_property props3 "usd_price")); reflexivity.
Qed.

(** C2 as stated does not hold: the body [{"data": 5}] matches none of
    the three listed shapes, yet the fetch does not fail: 5 is taken as the
    price and shown. *)
Lemma numeric_data_is_a_price :
  let body := Obj [("data", Num 5)] in
  Spec.first_match Spec.listed_shapes body = None /\
  extractUsdPrice body = Num 5 /\
  resultEl (handleSubmit (Response 200 (Fulfilled body)) (Examples.form "3"))
  = [Lit "Price: $"; Fixed 5 6; Lit " | Amount: "; Val (Num 3); Lit " => USD ";
     Fixed 15 6].
Proof. vm_compute. repeat split; reflexivity. Qed.

(** C2, amended.  In [transfer.js], for a successful response, the price is
    the first match of four shapes tried in order: the flat [usd_price]
    field, [data.usd_price], [data.price.usd_price], and [data] itself when
    it is a number other than zero.  When none matches, the handler fails
    with the error "Unable to read usd_price from response": the error is
    shown instead of a price, and nothing else on the page changes. *)
Theorem extractUsdPrice_in_order (data : value) :
  let strategies := (Spec.listed_shapes ++ [Spec.data_itself])%list in
  extractUsdPrice data = Spec.as_value (Spec.first_match strategies data) /\
  (Spec.first_match strategies data = None ->
     forall status pg, ok status = true ->
       let pg' := handleSubmit (Response status (Fulfilled data)) pg in
       resultEl pg' = [Lit "Error: "; Lit "Unable to read usd_price from response"] /\
       crypto_value pg' = crypto_value pg /\ amount_value pg' = amount_value pg) /\
  (forall usdPrice, Spec.first_match strategies data = Some usdPrice ->
     forall status pg, ok status = true ->
       let amount := (handleSubmit_begin pg).1 in
       resultEl (handleSubmit (Response status (Fulfilled data)) pg)
       = [Lit "Price: $"; Fixed usdPrice 6; Lit " | Amount: "; Val (Num amount);
          Lit " => USD "; Fixed (PrimFloat.mul amount usdPrice) 6]).
Proof.
  cbv zeta. pose proof (extractUsdPrice_first_match data) as Hx.
  split; [exact Hx|]. split.
  - intros Hnone status pg Hok. rewrite Hnone in Hx. cbn [Spec.as_value] in Hx.
    unfold handleSubmit, handleSubmit_begin, handleSubmit_resume.
    rewrite Hok, Hx. cbn. repeat split; reflexivity.
  - intros usdPrice Hsome status pg Hok. rewrite Hsome in Hx. cbn [Spec.as_value] in Hx.
    unfold handleSubmit, handleSubmit_begin, handleSubmit_resume.
    rewrite Hok, Hx. reflexivity.
Qed.

Lemma extractUsdPrice_in_order_witness :
  resultEl (handleSubmit (Response 200 (Fulfilled (Obj [("price", Num 5)])))
              (Examples.form "3"))
  = [Lit "Error: "; Lit "Unable to read usd_price from response"].
Proof.
  apply (proj1 (proj2 (extractUsdPrice_in_order (Obj [("price", Num 5)])))).
  - reflexivity.
  - reflexivity.
Defined.

(** C9 as stated does not hold: in [{"data": 0}] the [data] field is a
    number and no [usd_price] field matches, yet [null] is returned. *)
Lemma zero_data_is_not_a_price :
  let body := Obj [("data", Num 0)] in
  prop body "data" = Num 0 /\
  is_number (prop body "usd_price") = false /\
  extractUsdPrice body = Null /\
  extractUsdPrice body <> Num 0.
Proof. cbv zeta. repeat split; try reflexivity. discriminate. Qed.

(** C9, amended.  Beyond the three listed shapes, [extractUsdPrice] accepts
    a [data] field that is itself a number when that number is truthy
    (neither zero nor NaN) and the flat [usd_price] field is no number: the
    number is returned.  For a [data] field of zero, [null] is returned. *)
Theorem extractUsdPrice_numeric_data (data : value) (x : float)
    (Hdata : prop data "data" = Num x)
    (Hflat : is_number (prop data "usd_price") = false) :
  (truthy (Num x) = true -> extractUsdPrice data = Num x) /\
  (truthy (Num x) = false -> extractUsdPrice data = Null).
Proof.
  assert (truthy data = true) as Ht.
  { destruct data; try discriminate Hdata. reflexivity. }
  unfold extractUsdPrice. rewrite Ht, Hflat, Hdata. cbn [negb].
  split; intros Hx; rewrite Hx; reflexivity.
Qed.

Lemma extractUsdPrice_numeric_data_witness :
  extractUsdPrice (Obj [("status", Str "ok"); ("data", Num 5)]) = Num 5.
Proof.
  apply (proj1 (extractUsdPrice_numeric_data
                  (Obj [("status", Str "ok"); ("data", Num 5)]) 5
                  eq_refl eq_refl)).
  reflexivity.
Defined.

End TransferProperties.

(** ** Laws of the price cache *)

Module CacheLaws.
Import JS CryptoConverter Accounting.

Lemma setCachedPrice_state (now : Z) (coinId : string) (p : value) (st : State) :
  setCachedPrice now coinId p st =
    (tt, {| isConverting := isConverting st;
            priceCache := <[coinId := {| price := p; timestamp := now |}]> (priceCache st);
            elements := elements st; console := console st;
            requests := requests st |}).
Proof. reflexivity. Qed.

(** X1. A price stored at time [now] is what [getCachedPrice] returns for
    that identifier up to 60000 ms later, without touching the state; after
    that it returns [null].  Storing changes no other entry. *)
Theorem store_then_read (now later : Z) (coinId : string) (p : value) (st : State) :
  let st1 := (setCachedPrice now coinId p st).2 in
  (later - now <= 60000 -> getCachedPrice later coinId st1 = (p, st1)) /\
  (60000 < later - now ->
     (getCachedPrice later coinId st1).1 = Null /\
     priceCache (getCachedPrice later coinId st1).2 !! coinId = None) /\
  (forall k, k <> coinId -> priceCache st1 !! k = priceCache st !! k).
Proof.
  cbv zeta. rewrite setCachedPrice_state. cbn [snd].
  rewrite CacheProperties.getCachedPrice_cases. cbn [priceCache].
  rewrite lookup_insert_eq. cbn [timestamp price].
  split; [|split].
  - intros H. destruct (Z.ltb_spec 60000 (later - now)); [lia | reflexivity].
  - intros H. destruct (Z.ltb_spec 60000 (later - now)); [|lia].
    cbn. split; [reflexivity | apply lookup_delete_eq].
  - intros k Hk. apply lookup_insert_ne. congruence.
Qed.

Lemma store_then_read_witness :
  let st1 := (setCachedPrice 1000 "bitcoin" (Num 2) (Examples.idle "10" ∅)).2 in
  getCachedPrice 61000 "bitcoin" st1 = (Num 2, st1) /\
  (getCachedPrice 61001 "bitcoin" st1).1 = Null.
Proof.
  pose proof (store_then_read 1000 61000 "bitcoin" (Num 2) (Examples.idle "10" ∅))
    as [Hfresh _].
  pose proof (store_then_read 1000 61001 "bitcoin" (Num 2) (Examples.idle "10" ∅))
    as [_ [Hstale _]].
  split; [apply Hfresh; lia | apply Hstale; lia].
Defined.

(** X2. Storing a price again replaces the earlier entry altogether, price
    and timestamp: the state is the one that the later store alone gives,
    so the expiration window starts anew. *)
Theorem store_overwrites (t1 t2 : Z) (coinId : string) (p1 p2 : value) (st : State) :
  (setCachedPrice t2 coinId p2 (setCachedPrice t1 coinId p1 st).2).2
  = (setCachedPrice t2 coinId p2 st).2 /\
  forall now, now - t2 <= 60000 ->
    (getCachedPrice now coinId
       (setCachedPrice t2 coinId p2 (setCachedPrice t1 coinId p1 st).2).2).1 = p2.
Proof.
  rewrite !setCachedPrice_state. cbn [snd priceCache isConverting elements console requests].
  rewrite insert_insert_eq. split; [reflexivity|].
  intros now Hnow. rewrite CacheProperties.getCachedPrice_cases. cbn [priceCache].
  rewrite lookup_insert_eq. cbn [timestamp price].
  destruct (Z.ltb_spec 60000 (now - t2)); [lia | reflexivity].
Qed.

Lemma store_overwrites_witness :
  (getCachedPrice 100000 "bitcoin"
     (setCachedPrice 50000 "bitcoin" (Num 3)
        (setCachedPrice 0 "bitcoin" (Num 2) (Examples.idle "10" ∅)).2).2).1 = Num 3.
Proof.
  apply (proj2 (store_overwrites 0 50000 "bitcoin" (Num 2) (Num 3) (Examples.idle "10" ∅))).
  lia.
Defined.

Lemma clearExpiredCache_state (now : Z) (st : State) :
  clearExpiredCache now st =
    (tt, {| isConverting := isConverting st;
            priceCache :=
              filter (fun kv => ¬ (now - timestamp kv.2 > cacheExpiration)) (priceCache st);
            elements := elements st; console := console st;
            requests := requests st |}).
Proof. reflexivity. Qed.

Lemma swept_lookup (now : Z) (st : State) (k : string) (e : CacheEntry) :
  priceCache (clearExpiredCache now st).2 !! k = Some e <->
  priceCache st !! k = Some e /\ fresh now e.
Proof.
  rewrite clearExpiredCache_state. cbn [snd priceCache].
  rewrite map_lookup_filter_Some. unfold fresh, cacheExpiration. cbn [snd].
  split; intros [H1 H2]; (split; [exact H1 | lia]).
Qed.

(** X3. [clearExpiredCache] keeps exactly the entries that are at most
    60000 ms old, as they are, and changes nothing but the cache.  After
    it, [getCachedPrice] at the same time finds nothing to evict, and
    sweeping again at the same or a later time gives what the later sweep
    alone gives. *)
Theorem clearExpiredCache_correct (now : Z) (st : State) :
  let swept := (clearExpiredCache now st).2 in
  (forall k e, priceCache swept !! k = Some e <->
               priceCache st !! k = Some e /\ fresh now e) /\
  isConverting swept = isConverting st /\ elements swept = elements st /\
  console swept = console st /\ requests swept = requests st /\
  (forall k, (getCachedPrice now k swept).2 = swept) /\
  (forall later, now <= later ->
     (clearExpiredCache later swept).2 = (clearExpiredCache later st).2).
Proof.
  cbv zeta. split; [intros k e; apply swept_lookup|].
  repeat split.
  - intros k. rewrite CacheProperties.getCachedPrice_cases.
    destruct (priceCache (clearExpiredCache now st).2 !! k) as [e|] eqn:He;
      [|reflexivity].
    apply swept_lookup in He as [_ Hf]. unfold fresh in Hf.
    destruct (Z.ltb_spec 60000 (now - timestamp e)); [lia | reflexivity].
  - intros later Hl.
    rewrite (clearExpiredCache_state later (clearExpiredCache now st).2).
    rewrite (clearExpiredCache_state later st). cbn [snd]. f_equal.
    apply map_eq. intros k. apply option_eq. intros e.
    rewrite !map_lookup_filter_Some, swept_lookup. unfold fresh, cacheExpiration.
    cbn [snd]. split.
    + intros [[H1 H2] H3]. split; [exact H1 | exact H3].
    + intros [H1 H3]. split; [split; [exact H1 | lia] | exact H3].
Qed.

Lemma clearExpiredCache_correct_witness :
  priceCache (clearExpiredCache 60001 (Examples.idle "10" Examples.bitcoin_at_0)).2
    !! "bitcoin" = None /\
  priceCache (clearExpiredCache 60000 (Examples.idle "10" Examples.bitcoin_at_0)).2
    !! "bitcoin" = Some {| price := Num 2; timestamp := 0 |}.
Proof.
  split.
  - destruct (priceCache (clearExpiredCache 60001
                (Examples.idle "10" Examples.bitcoin_at_0)).2 !! "bitcoin")
      as [e|] eqn:He; [|reflexivity].
    apply (proj1 (clearExpiredCache_correct 60001
                    (Examples.idle "10" Examples.bitcoin_at_0))) in He as [Hin Hf].
    vm_compute in Hin. injection Hin as <-. unfold fresh in Hf. cbn in Hf. lia.
  - apply (proj1 (clearExpiredCache_correct 60000
                    (Examples.idle "10" Examples.bitcoin_at_0))).
    split; [reflexivity | unfold fresh; cbn; lia].
Defined.

(** X4. Whenever [getCacheStatus] shows a remaining time, the entry is
    still served: [getCachedPrice] at that time returns its price and
    evicts nothing. *)
Theorem shown_status_is_served (now : Z) (coinId : string) (st : State)
    (Hshown : (getCacheStatus now coinId st).1 <> "") :
  exists cached, priceCache st !! coinId = Some cached /\
    now - timestamp cached < 60000 /\
    getCachedPrice now coinId st = (price cached, st).
Proof.
  rewrite CacheProperties.getCacheStatus_cases in Hshown. cbn [fst] in Hshown.
  rewrite CacheProperties.getCachedPrice_cases.
  destruct (priceCache st !! coinId) as [cached|]; [|congruence].
  exists cached. split; [reflexivity|].
  destruct (Z.ltb_spec 0 (60 - (now - timestamp cached) / 1000)); [|congruence].
  assert ((now - timestamp cached) / 1000 < 60) as Hq by lia.
  assert (now - timestamp cached < 60000) as Hage.
  { destruct (Z.lt_ge_cases (now - timestamp cached) 60000) as [Hlt|Hge]; [exact Hlt|].
    assert (60 <= (now - timestamp cached) / 1000)
      by (apply Z.div_le_lower_bound; lia).
    lia. }
  split; [exact Hage|].
  destruct (Z.ltb_spec 60000 (now - timestamp cached)); [lia | reflexivity].
Qed.

Lemma shown_status_is_served_witness :
  exists cached,
    priceCache (Examples.idle "10" Examples.bitcoin_at_0) !! "bitcoin" = Some cached /\
    59999 - timestamp cached < 60000 /\
    getCachedPrice 59999 "bitcoin" (Examples.idle "10" Examples.bitcoin_at_0)
    = (price cached, Examples.idle "10" Examples.bitcoin_at_0).
Proof.
  apply (shown_status_is_served 59999 "bitcoin"
           (Examples.idle "10" Examples.bitcoin_at_0)).
  vm_compute. discriminate.
Defined.

End CacheLaws.

(** ** Laws of [fetchPrice] *)

Module FetchLaws.
Import JS CryptoConverter Accounting ConversionProperties.

Lemma hit_cases (now : Z) (coinId : string) (st : State) :
  if hit now coinId (priceCache st)
  then exists cached, priceCache st !! coinId = Some cached /\
         now - timestamp cached <= 60000 /\ price cached <> Null /\
         getCachedPrice now coinId st = (price cached, st)
  else (getCachedPrice now coinId st).1 = Null /\
       (getCachedPrice now coinId st).2 =
         {| isConverting := isConverting st;
            priceCache := looked_up now coinId (priceCache st);
            elements := elements st; console := console st;
            requests := requests st |}.
Proof.
  unfold hit, looked_up. rewrite CacheProperties.getCachedPrice_cases.
  destruct (priceCache st !! coinId) as [cached|] eqn:Hc.
  - rewrite Z.leb_antisym.
    destruct (Z.ltb_spec 60000 (now - timestamp cached)) as [Hs|Hf]; cbn [negb andb].
    + split; reflexivity.
    + destruct (price cached) eqn:Hp;
        try (exists cached; rewrite Hp; repeat split; [lia | discriminate]).
      split; [reflexivity | destruct st; reflexivity].
  - split; [reflexivity | destruct st; reflexivity].
Qed.

(** [fetchPrice] up to its suspension. *)
Lemma fetchPrice_begin_data (now : Z) (coinId : string) (st : State) :
  let b := fetchPrice_begin now coinId st in
  priceCache b.2 = looked_up now coinId (priceCache st) /\
  requests b.2 = (requests st ++ request_for now coinId (priceCache st))%list /\
  (if hit now coinId (priceCache st)
   then exists cached, priceCache st !! coinId = Some cached /\
          now - timestamp cached <= 60000 /\ price cached <> Null /\
          priceCache b.2 = priceCache st /\
          b.1 = Finished (if to_string_throws (price cached)
                          then Rejected cannot_convert
                          else Fulfilled (price cached))
   else b.1 = AwaitingResponse).
Proof.
  cbv zeta. unfold fetchPrice_begin, request_for. rewrite bind_run.
  pose proof (hit_cases now coinId st) as H.
  destruct (hit now coinId (priceCache st)) eqn:Hh.
  - destruct H as (cached & Hc & Hage & Hp & Hget). rewrite Hget. cbn [fst snd].
    assert (looked_up now coinId (priceCache st) = priceCache st) as Hl.
    { unfold looked_up. rewrite Hc.
      destruct (Z.ltb_spec 60000 (now - timestamp cached)); [lia | reflexivity]. }
    rewrite Hl.
    assert (forall (X : Type) (a b : X),
              match price cached with Null => a | _ => b end = b) as Hm
      by (intros; destruct (price cached); congruence).
    rewrite Hm.
    destruct (to_string_throws (price cached)) eqn:Ht; cbn.
    + repeat split; [symmetry; apply app_nil_r|].
      exists cached. rewrite Ht. repeat split; first [assumption | reflexivity].
    + repeat split; [symmetry; apply app_nil_r|].
      exists cached. rewrite Ht. repeat split; first [assumption | reflexivity].
  - destruct H as [H1 H2]. rewrite H1, H2. cbn. repeat split.
Qed.

(** [fetchPrice] from the arrival of the response on. *)
Lemma fetchPrice_resume_data (later : Z) (coinId : string) (o : fetch_outcome)
    (st : State) :
  let r := fetchPrice_resume later coinId o st in
  r.1 = response_price o /\
  priceCache r.2 = stored true later coinId o (priceCache st) /\
  requests r.2 = requests st.
Proof.
  cbv zeta. unfold fetchPrice_resume, stored, response_price.
  destruct o as [e|status [data|e]]; [repeat split | |].
  - destruct (ok status); cbn [negb]; [|repeat split].
    destruct (get data "usd_price"); repeat split.
  - destruct (ok status); repeat split.
Qed.

(** X5. A call of [fetchPrice] for an identifier whose entry is at most
    60000 ms old, with a price other than [null] that can be written into
    the log line, is answered from the cache: the promise is fulfilled with
    the cached price, no request is made, and cache and controls are
    unchanged. *)
Theorem fetchPrice_served_from_cache (now later : Z) (coinId : string)
    (o : fetch_outcome) (st : State) (cached : CacheEntry)
    (Hcached : priceCache st !! coinId = Some cached)
    (Hfresh : now - timestamp cached <= 60000)
    (Hprice : price cached <> Null)
    (Hprintable : to_string_throws (price cached) = false) :
  let r := fetchPrice now later coinId o st in
  r.1 = Fulfilled (price cached) /\
  requests r.2 = requests st /\
  priceCache r.2 = priceCache st /\
  isConverting r.2 = isConverting st /\ elements r.2 = elements st.
Proof.
  cbv zeta. unfold fetchPrice. rewrite bind_run.
  pose proof (fetchPrice_begin_data now coinId st) as (_ & Hreq & Hhit).
  pose proof (fetchPrice_begin_controls now coinId st) as [Hc1 Hc2].
  cbv zeta in *. unfold request_for in Hreq.
  assert (hit now coinId (priceCache st) = true) as Hh.
  { unfold hit. rewrite Hcached.
    destruct (Z.leb_spec (now - timestamp cached) 60000); [|lia].
    revert Hprice. destruct (price cached); intros Hprice;
      first [reflexivity | congruence]. }
  rewrite Hh in Hhit, Hreq. destruct Hhit as (c & Hc & _ & _ & Hcache & Htask).
  rewrite Hcached in Hc. injection Hc as <-. rewrite Hprintable in Htask.
  rewrite Htask. cbn [fetchPrice_finish ret fst snd].
  rewrite Hreq, app_nil_r. repeat split; assumption.
Qed.

Lemma fetchPrice_served_from_cache_witness :
  let st := Examples.idle "10" Examples.bitcoin_at_0 in
  let r := fetchPrice 60000 60500 "bitcoin"
             (NetworkFailure (TypeError "Failed to fetch")) st in
  r.1 = Fulfilled (Num 2) /\ requests r.2 = [].
Proof.
  cbv zeta.
  destruct (fetchPrice_served_from_cache 60000 60500 "bitcoin"
              (NetworkFailure (TypeError "Failed to fetch"))
              (Examples.idle "10" Examples.bitcoin_at_0)
              {| price := Num 2; timestamp := 0 |})
    as (H1 & H2 & _).
  - reflexivity.
  - cbn. lia.
  - discriminate.
  - reflexivity.
  - split; [exact H1 | exact H2].
Defined.

(** [fetchPrice] when the cache has no price to give. *)
Lemma fetchPrice_miss (now later : Z) (coinId : string) (o : fetch_outcome)
    (st : State) :
  hit now coinId (priceCache st) = false ->
  let r := fetchPrice now later coinId o st in
  r.1 = response_price o /\
  requests r.2 = (requests st ++ [price_url coinId])%list /\
  priceCache r.2 = stored true later coinId o (looked_up now coinId (priceCache st)).
Proof.
  intros Hh. cbv zeta. unfold fetchPrice. rewrite bind_run.
  pose proof (fetchPrice_begin_data now coinId st) as (Hcache & Hreq & Hhit).
  cbv zeta in *. unfold request_for in Hreq. rewrite Hh in Hhit, Hreq.
  rewrite Hhit. cbn [fetchPrice_finish].
  pose proof (fetchPrice_resume_data later coinId o (fetchPrice_begin now coinId st).2)
    as (H1 & H2 & H3).
  cbv zeta in *. rewrite H1, H2, H3, Hcache, Hreq. repeat split.
Qed.

(** X6. When the price has to be fetched and the fetch fails (network
    failure, status outside 200..299, unreadable body, [null] body), the
    promise is rejected with that error after exactly one request and
    nothing is stored.  An entry that had expired is gone all the same: a
    stale price is never fallen back on. *)
Theorem fetchPrice_failure_stores_nothing (now later : Z) (coinId : string)
    (o : fetch_outcome) (st : State) (e : JS.error)
    (Hmiss : hit now coinId (priceCache st) = false)
    (Hfails : response_price o = Rejected e) :
  let r := fetchPrice now later coinId o st in
  r.1 = Rejected e /\
  requests r.2 = (requests st ++ [price_url coinId])%list /\
  priceCache r.2 = looked_up now coinId (priceCache st) /\
  (forall k, k <> coinId -> priceCache r.2 !! k = priceCache st !! k) /\
  (forall cached, priceCache st !! coinId = Some cached ->
     60000 < now - timestamp cached -> priceCache r.2 !! coinId = None).
Proof.
  cbv zeta.
  destruct (fetchPrice_miss now later coinId o st Hmiss) as (H1 & H2 & H3).
  unfold stored in H3. rewrite Hfails in H1, H3. rewrite H1, H2, H3.
  repeat split.
  - intros k Hk. unfold looked_up.
    destruct (priceCache st !! coinId) as [c|]; [|reflexivity].
    destruct (60000 <? now - timestamp c); [|reflexivity].
    apply lookup_delete_ne. congruence.
  - intros cached Hc Hstale. unfold looked_up. rewrite Hc.
    destruct (Z.ltb_spec 60000 (now - timestamp cached)); [|lia].
    apply lookup_delete_eq.
Qed.

Lemma fetchPrice_failure_stores_nothing_witness :
  let st := Examples.idle "10" Examples.bitcoin_at_0 in
  let r := fetchPrice 60001 60500 "bitcoin" (Response 503 (Fulfilled Null)) st in
  r.1 = Rejected (Error "HTTP error! status: 503") /\
  priceCache r.2 !! "bitcoin" = None.
Proof.
  cbv zeta.
  destruct (fetchPrice_failure_stores_nothing 60001 60500 "bitcoin"
              (Response 503 (Fulfilled Null))
              (Examples.idle "10" Examples.bitcoin_at_0)
              (Error "HTTP error! status: 503") eq_refl eq_refl)
    as (H1 & _ & _ & _ & H5).
  split; [exact H1|].
  apply (H5 {| price := Num 2; timestamp := 0 |}); [reflexivity | cbn; lia].
Defined.

(** X7. When the price has to be fetched and the response is readable, the
    flat [usd_price] field, whatever it is, is stored with the time of
    storing and returned, after exactly one request.  If it is neither
    [null] nor an object hiding [toString], a further call within 60000 ms
    is fulfilled with it without a request; this includes [undefined],
    stored for a body that has no such field. *)
Theorem fetchPrice_success_is_cached (now later : Z) (coinId : string)
    (o : fetch_outcome) (st : State) (p : value)
    (Hmiss : hit now coinId (priceCache st) = false)
    (Hreads : response_price o = Fulfilled p) :
  let r := fetchPrice now later coinId o st in
  r.1 = Fulfilled p /\
  requests r.2 = (requests st ++ [price_url coinId])%list /\
  priceCache r.2 !! coinId = Some {| price := p; timestamp := later |} /\
  (forall k, k <> coinId -> priceCache r.2 !! k = priceCache st !! k) /\
  (forall again later' o',
     again - later <= 60000 -> p <> Null -> to_string_throws p = false ->
     let r' := fetchPrice again later' coinId o' r.2 in
     r'.1 = Fulfilled p /\ requests r'.2 = requests r.2 /\
     priceCache r'.2 = priceCache r.2).
Proof.
  cbv zeta.
  destruct (fetchPrice_miss now later coinId o st Hmiss) as (H1 & H2 & H3).
  unfold stored in H3. rewrite Hreads in H1, H3.
  assert (priceCache (fetchPrice now later coinId o st).2 !! coinId
          = Some {| price := p; timestamp := later |}) as Hentry
    by (rewrite H3; apply lookup_insert_eq).
  split; [exact H1|]. split; [exact H2|]. split; [exact Hentry|]. split.
  - intros k Hk. rewrite H3, lookup_insert_ne by congruence. unfold looked_up.
    destruct (priceCache st !! coinId) as [c|]; [|reflexivity].
    destruct (60000 <? now - timestamp c); [|reflexivity].
    apply lookup_delete_ne. congruence.
  - intros again later' o' Hwin Hp Hprint.
    destruct (fetchPrice_served_from_cache again later' coinId o'
                (fetchPrice now later coinId o st).2
                {| price := p; timestamp := later |} Hentry Hwin Hp Hprint)
      as (R1 & R2 & R3 & _).
    repeat split; assumption.
Qed.

Lemma fetchPrice_success_is_cached_witness :
  let r := fetchPrice 1000 1500 "bitcoin" (Response 200 (Fulfilled (Obj [])))
             (Examples.idle "10" ∅) in
  let r' := fetchPrice 61500 62000 "bitcoin" (Examples.answers 2) r.2 in
  r.1 = Fulfilled Undefined /\ r'.1 = Fulfilled Undefined /\
  requests r'.2 = [price_url "bitcoin"].
Proof.
  cbv zeta.
  assert (hit 1000 "bitcoin" (priceCache (Examples.idle "10" ∅)) = false) as Hmiss
    by reflexivity.
  destruct (fetchPrice_success_is_cached 1000 1500 "bitcoin"
              (Response 200 (Fulfilled (Obj []))) (Examples.idle "10" ∅) Undefined
              Hmiss eq_refl)
    as (H1 & H2 & _ & _ & Hagain).
  destruct (Hagain 61500 62000 (Examples.answers 2)) as (A1 & A2 & _).
  - lia.
  - discriminate.
  - reflexivity.
  - split; [exact H1|]. split; [exact A1|]. rewrite A2, H2. reflexivity.
Defined.

(** X8. An entry whose price is [null] is never served: whatever its age,
    a call of [fetchPrice] makes a request.  So a response whose
    [usd_price] is [null] is stored, and every later call fetches again. *)
Theorem null_price_is_never_served (now : Z) (coinId : string) (st : State)
    (cached : CacheEntry)
    (Hcached : priceCache st !! coinId = Some cached)
    (Hnull : price cached = Null) :
  let b := fetchPrice_begin now coinId st in
  b.1 = AwaitingResponse /\
  requests b.2 = (requests st ++ [price_url coinId])%list /\
  (forall later o, response_price o = Fulfilled Null ->
     let r := fetchPrice now later coinId o st in
     forall again,
       (fetchPrice_begin again coinId r.2).1 = AwaitingResponse /\
       requests (fetchPrice_begin again coinId r.2).2
       = (requests st ++ [price_url coinId; price_url coinId])%list).
Proof.
  cbv zeta.
  assert (Hnohit : forall t (s : State) c,
            priceCache s !! coinId = Some c -> price c = Null ->
            hit t coinId (priceCache s) = false).
  { intros t s c Hc Hp. unfold hit. rewrite Hc, Hp. apply andb_false_r. }
  assert (Hbegin : forall t (s : State),
            hit t coinId (priceCache s) = false ->
            (fetchPrice_begin t coinId s).1 = AwaitingResponse /\
            requests (fetchPrice_begin t coinId s).2
            = (requests s ++ [price_url coinId])%list).
  { intros t s Hh.
    pose proof (fetchPrice_begin_data t coinId s) as (_ & Hreq & Htask).
    cbv zeta in *. unfold request_for in Hreq. rewrite Hh in Hreq, Htask.
    split; assumption. }
  pose proof (Hnohit now st cached Hcached Hnull) as Hh.
  destruct (Hbegin now st Hh) as [B1 B2].
  split; [exact B1|]. split; [exact B2|].
  intros later o Ho again.
  destruct (fetchPrice_miss now later coinId o st Hh) as (_ & R2 & R3).
  unfold stored in R3. rewrite Ho in R3.
  assert (hit again coinId (priceCache (fetchPrice now later coinId o st).2) = false)
    as Hh'.
  { apply (Hnohit again _ {| price := Null; timestamp := later |}); [|reflexivity].
    rewrite R3. apply lookup_insert_eq. }
  destruct (Hbegin again _ Hh') as [B1' B2'].
  split; [exact B1'|]. rewrite B2', R2, <- app_assoc. reflexivity.
Qed.

Lemma null_price_is_never_served_witness :
  let st := (setCachedPrice 0 "bitcoin" Null (Examples.idle "10" ∅)).2 in
  (fetchPrice_begin 1 "bitcoin" st).1 = AwaitingResponse /\
  requests (fetchPrice_begin 1 "bitcoin" st).2 = [price_url "bitcoin"].
Proof.
  cbv zeta.
  assert (priceCache (setCachedPrice 0 "bitcoin" Null (Examples.idle "10" ∅)).2
            !! "bitcoin" = Some {| price := Null; timestamp := 0 |}) as Hcached
    by reflexivity.
  destruct (null_price_is_never_served 1 "bitcoin"
              (setCachedPrice 0 "bitcoin" Null (Examples.idle "10" ∅)).2
              {| price := Null; timestamp := 0 |} Hcached eq_refl)
    as (H1 & H2 & _).
  split; [exact H1 | exact H2].
Defined.

End FetchLaws.

(** ** Laws of [convert] *)

Module ConvertLaws.
Import JS CryptoConverter Accounting ConversionProperties FetchLaws.

Lemma fetchPrice_finish_data (later : Z) (coinId : string) (o : fetch_outcome)
    (t : fetch_task) (st : State) :
  let r := fetchPrice_finish later coinId o t st in
  r.1 = task_result o t /\
  priceCache r.2 = stored (awaiting t) later coinId o (priceCache st) /\
  requests r.2 = requests st.
Proof.
  destruct t as [r|]; cbn [fetchPrice_finish task_result awaiting].
  - unfold stored. repeat split.
  - apply fetchPrice_resume_data.
Qed.

Lemma convert_resume_keeps_data (amount : float) (fromC toC : string)
    (prices : settled (value * value)) (st : State) :
  priceCache (convert_resume amount fromC toC prices st).2 = priceCache st /\
  requests (convert_resume amount fromC toC prices st).2 = requests st.
Proof.
  unfold convert_resume. rewrite bind_run.
  match goal with |- context [setLoadingState false ?s] =>
    pose proof (setLoadingState_effect false s)
      as (_ & _ & _ & _ & _ & _ & _ & _ & (L1 & _ & L2)) end.
  cbv zeta in L1, L2. rewrite L1, L2.
  assert (Hcatch : forall e, priceCache (convert_catch e st).2 = priceCache st /\
                             requests (convert_catch e st).2 = requests st)
    by (intros e; split; reflexivity).
  destruct prices as [[fromPrice toPrice]|e]; [|apply Hcatch].
  destruct (JS.mul amount fromPrice) as [usdAmount|e]; [|apply Hcatch].
  destruct (JS.div usdAmount toPrice) as [convertedAmount|e]; [|apply Hcatch].
  split; reflexivity.
Qed.

(** The elements after the rest of [convert] depend on the elements before
    it only. *)
Lemma convert_resume_elements (amount : float) (fromC toC : string)
    (prices : settled (value * value)) (st st' : State) :
  elements st = elements st' ->
  elements (convert_resume amount fromC toC prices st).2
  = elements (convert_resume amount fromC toC prices st').2.
Proof.
  intros H. unfold convert_resume. rewrite !bind_run.
  assert (Hset : forall s s', elements s = elements s' ->
            elements (setLoadingState false s).2 = elements (setLoadingState false s').2).
  { intros s s' Hs. unfold setLoadingState, update_elements, set_elements,
      set_isConverting, bind, read, ret. cbn. rewrite Hs. reflexivity. }
  apply Hset.
  assert (Hcatch : forall e, elements (convert_catch e st).2
                             = elements (convert_catch e st').2).
  { intros e. unfold convert_catch, showError, update_elements, set_elements,
      console_write, bind, read, ret. cbn. rewrite H. reflexivity. }
  destruct prices as [[fromPrice toPrice]|e]; [|apply Hcatch].
  destruct (JS.mul amount fromPrice) as [usdAmount|e]; [|apply Hcatch].
  destruct (JS.div usdAmount toPrice) as [convertedAmount|e]; [|apply Hcatch].
  unfold showResult, update_elements, set_elements, bind, read, ret. cbn.
  rewrite H. reflexivity.
Qed.

Lemma convert_resume_inputs (amount : float) (fromC toC : string)
    (prices : settled (value * value)) (st : State) :
  inputs (convert_resume amount fromC toC prices st).2 = inputs st.
Proof.
  unfold inputs, convert_resume. rewrite bind_run.
  match goal with |- context [setLoadingState false ?s] =>
    pose proof (setLoadingState_effect false s)
      as (_ & _ & _ & _ & _ & L1 & L2 & L3 & _) end.
  cbv zeta in L1, L2, L3. rewrite L1, L2, L3.
  destruct prices as [[fromPrice toPrice]|e]; [|reflexivity].
  destruct (JS.mul amount fromPrice) as [usdAmount|e]; [|reflexivity].
  destruct (JS.div usdAmount toPrice) as [convertedAmount|e]; reflexivity.
Qed.

Lemma stored_commute (n1 n2 : bool) (t1 t2 : Z) (id1 id2 : string)
    (o1 o2 : fetch_outcome) (cache : gmap string CacheEntry) :
  id1 <> id2 ->
  stored n1 t1 id1 o1 (stored n2 t2 id2 o2 cache)
  = stored n2 t2 id2 o2 (stored n1 t1 id1 o1 cache).
Proof.
  intros Hne. unfold stored.
  destruct n1, n2, (response_price o1), (response_price o2); try reflexivity.
  apply insert_insert_ne. exact Hne.
Qed.

(** Two fetch tasks settled in order around the rest of [convert]. *)
Lemma settle_in_order_data (t1 t2 : Z) (id1 id2 : string) (o1 o2 : fetch_outcome)
    (task1 task2 : fetch_task)
    (all : settled value -> settled value -> settled (value * value))
    (amount : float) (fromC toC : string) (st : State) :
  let r := settle_in_order (fetchPrice_finish t1 id1 o1 task1)
             (fetchPrice_finish t2 id2 o2 task2) all
             (convert_resume amount fromC toC) st in
  let r1 := task_result o1 task1 in
  let r2 := task_result o2 task2 in
  let settled_to := match r1 with Rejected e => Rejected e | Fulfilled _ => all r1 r2 end in
  r.1 = (r1, r2) /\
  priceCache r.2 =
    stored (awaiting task2) t2 id2 o2 (stored (awaiting task1) t1 id1 o1 (priceCache st)) /\
  requests r.2 = requests st /\
  isConverting r.2 = false /\
  elements r.2 = elements (convert_resume amount fromC toC settled_to st).2.
Proof.
  cbv zeta. unfold settle_in_order. rewrite bind_run.
  pose proof (fetchPrice_finish_data t1 id1 o1 task1 st) as (A1 & A2 & A3).
  pose proof (fetchPrice_finish_controls t1 id1 o1 task1 st) as [A4 A5].
  cbv zeta in *.
  set (s1 := (fetchPrice_finish t1 id1 o1 task1 st).2) in *.
  rewrite A1. destruct (task_result o1 task1) as [v1|e1] eqn:Hr1.
  - rewrite !bind_run. cbn [fst snd ret].
    pose proof (fetchPrice_finish_data t2 id2 o2 task2 s1) as (B1 & B2 & B3).
    pose proof (fetchPrice_finish_controls t2 id2 o2 task2 s1) as [B4 B5].
    cbv zeta in *.
    set (s2 := (fetchPrice_finish t2 id2 o2 task2 s1).2) in *.
    rewrite B1.
    pose proof (convert_resume_keeps_data amount fromC toC
                  (all (Fulfilled v1) (task_result o2 task2)) s2) as [C1 C2].
    pose proof (convert_resume_effect amount fromC toC
                  (all (Fulfilled v1) (task_result o2 task2)) s2) as (C3 & _).
    cbv zeta in C3.
    repeat split.
    + rewrite C1, B2, A2. reflexivity.
    + rewrite C2, B3, A3. reflexivity.
    + exact C3.
    + apply convert_resume_elements. rewrite B5, A5. reflexivity.
  - rewrite !bind_run. cbn [fst snd ret].
    pose proof (convert_resume_keeps_data amount fromC toC (Rejected e1) s1) as [C1 C2].
    pose proof (convert_resume_effect amount fromC toC (Rejected e1) s1) as (C3 & _).
    cbv zeta in C3.
    set (s2 := (convert_resume amount fromC toC (Rejected e1) s1).2) in *.
    pose proof (fetchPrice_finish_data t2 id2 o2 task2 s2) as (B1 & B2 & B3).
    pose proof (fetchPrice_finish_controls t2 id2 o2 task2 s2) as [B4 B5].
    cbv zeta in *. rewrite B1.
    repeat split.
    + rewrite B2, C1, A2. reflexivity.
    + rewrite B3, C2, A3. reflexivity.
    + rewrite B4. exact C3.
    + rewrite B5. unfold s2. apply convert_resume_elements. exact A5.
Qed.

Lemma validateInputs_valid (st : State) (amount : float) (fromC toC : string) :
  (validateInputs st).1 = Valid amount fromC toC ->
  fromC <> toC /\
  fromC = value_ (fromCrypto (elements st)) /\
  toC = value_ (toCrypto (elements st)) /\
  amount = parseFloat (value_ (amountInput (elements st))).
Proof.
  unfold validateInputs, bind, read, ret. cbn [fst snd].
  destruct (String.eqb_spec (value_ (fromCrypto (elements st)))
              (value_ (toCrypto (elements st)))) as [Heq|Hne]; [discriminate|].
  destruct (isNaN _ || _); [discriminate|].
  intros H. injection H as <- <- <-. repeat split. exact Hne.
Qed.

Lemma started_data (st : State) :
  priceCache (started st) = priceCache st /\
  requests (started st) = requests st /\
  inputs (started st) = inputs st.
Proof.
  unfold started, inputs.
  pose proof (clearMessages_effect st) as (_ & _ & _ & _ & F1 & F2 & F3 & _ & (D1 & _ & D3)).
  pose proof (setLoadingState_effect true (clearMessages st).2)
    as (_ & _ & _ & _ & _ & G1 & G2 & G3 & (E1 & _ & E3)).
  cbv zeta in *. rewrite E1, E3, D1, D3, G1, G2, G3, F1, F2, F3. repeat split.
Qed.

Lemma looked_up_other (now : Z) (coinId k : string) (cache : gmap string CacheEntry) :
  k <> coinId -> looked_up now coinId cache !! k = cache !! k.
Proof.
  intros Hk. unfold looked_up.
  destruct (cache !! coinId) as [c|]; [|reflexivity].
  destruct (60000 <? now - timestamp c); [|reflexivity].
  apply lookup_delete_ne. congruence.
Qed.

Lemma hit_looked_up_other (now now' : Z) (coinId k : string)
    (cache : gmap string CacheEntry) :
  k <> coinId -> hit now k (looked_up now' coinId cache) = hit now k cache.
Proof. intros Hk. unfold hit. rewrite looked_up_other by exact Hk. reflexivity. Qed.

(** A run of [convert] on valid inputs, by what it leaves behind. *)
Lemma convert_valid_data (nowFrom nowTo : Z) (net : Network) (st : State)
    (amount : float) (fromC toC : string) :
  isConverting st = false ->
  (validateInputs st).1 = Valid amount fromC toC ->
  let run := convert nowFrom nowTo net st in
  let hitFrom := hit nowFrom fromC (priceCache st) in
  let hitTo := hit nowTo toC (priceCache st) in
  let fromTask := (fetchPrice_begin nowFrom fromC (started st)).1 in
  let toTask :=
    (fetchPrice_begin nowTo toC (fetchPrice_begin nowFrom fromC (started st)).2).1 in
  let first := from_first net fromTask toTask in
  let rFrom := task_result (fromOutcome net) fromTask in
  let rTo := task_result (toOutcome net) toTask in
  run.1 = RunSettled first rFrom rTo /\
  awaiting fromTask = negb hitFrom /\ awaiting toTask = negb hitTo /\
  requests run.2 =
    (requests st ++ request_for nowFrom fromC (priceCache st)
                 ++ request_for nowTo toC (priceCache st))%list /\
  priceCache run.2 =
    stored (negb hitTo) (toTime net) toC (toOutcome net)
      (stored (negb hitFrom) (fromTime net) fromC (fromOutcome net)
         (looked_up nowTo toC (looked_up nowFrom fromC (priceCache st)))) /\
  isConverting run.2 = false /\
  elements run.2 =
    elements (convert_resume amount fromC toC (Promise_all first rFrom rTo) (started st)).2.
Proof.
  intros Hidle Hvalid. cbv zeta.
  destruct (validateInputs_valid st amount fromC toC Hvalid) as (Hne & _).
  unfold convert. rewrite bind_run.
  rewrite (convert_begin_idle nowFrom nowTo st Hidle), Hvalid. cbv zeta. cbn [fst snd].
  fold (started st).
  destruct (started_data st) as (S1 & S2 & _).
  pose proof (fetchPrice_begin_data nowFrom fromC (started st)) as (B1 & B2 & B3).
  pose proof (fetchPrice_begin_controls nowFrom fromC (started st)) as [_ B4].
  cbv zeta in B1, B2, B3.
  set (b1 := fetchPrice_begin nowFrom fromC (started st)) in *.
  pose proof (fetchPrice_begin_data nowTo toC b1.2) as (C1 & C2 & C3).
  pose proof (fetchPrice_begin_controls nowTo toC b1.2) as [_ C4].
  cbv zeta in C1, C2, C3.
  set (b2 := fetchPrice_begin nowTo toC b1.2) in *.
  rewrite S1 in B1, B2, B3. rewrite S2 in B2. rewrite B1 in C1, C2, C3. rewrite B2 in C2.
  rewrite (hit_looked_up_other nowTo nowFrom fromC toC) in C3 by congruence.
  assert (request_for nowTo toC (looked_up nowFrom fromC (priceCache st))
          = request_for nowTo toC (priceCache st)) as Hreq.
  { unfold request_for. rewrite hit_looked_up_other by congruence. reflexivity. }
  rewrite Hreq in C2.
  assert (awaiting b1.1 = negb (hit nowFrom fromC (priceCache st))) as Haw1.
  { destruct (hit nowFrom fromC (priceCache st)).
    - destruct B3 as (c & _ & _ & _ & _ & ->). reflexivity.
    - rewrite B3. reflexivity. }
  assert (awaiting b2.1 = negb (hit nowTo toC (priceCache st))) as Haw2.
  { destruct (hit nowTo toC (priceCache st)).
    - destruct C3 as (c & _ & _ & _ & _ & ->). reflexivity.
    - rewrite C3. reflexivity. }
  destruct (from_first net b1.1 b2.1) eqn:Hfirst; rewrite bind_run.
  - pose proof (settle_in_order_data (fromTime net) (toTime net) fromC toC
                  (fromOutcome net) (toOutcome net) b1.1 b2.1
                  (fun rFrom rTo => Promise_all true rFrom rTo)
                  amount fromC toC b2.2) as (D1 & D2 & D3 & D4 & D5).
    cbv zeta in D1, D2, D3, D4, D5. cbn [fst snd ret].
    rewrite D1, D2, D3, D4, D5, C1, C2, Haw1, Haw2, <- app_assoc. cbn [fst snd].
    repeat split.
    replace (match task_result (fromOutcome net) b1.1 with
             | Fulfilled _ =>
                 Promise_all true (task_result (fromOutcome net) b1.1)
                   (task_result (toOutcome net) b2.1)
             | Rejected e => Rejected e
             end)
      with (Promise_all true (task_result (fromOutcome net) b1.1)
              (task_result (toOutcome net) b2.1))
      by (destruct (task_result (fromOutcome net) b1.1),
                   (task_result (toOutcome net) b2.1); reflexivity).
    apply convert_resume_elements. rewrite C4, B4. reflexivity.
  - pose proof (settle_in_order_data (toTime net) (fromTime net) toC fromC
                  (toOutcome net) (fromOutcome net) b2.1 b1.1
                  (fun rTo rFrom => Promise_all false rFrom rTo)
                  amount fromC toC b2.2) as (D1 & D2 & D3 & D4 & D5).
    cbv zeta in D1, D2, D3, D4, D5. cbn [fst snd ret].
    rewrite D1, D2, D3, D4, D5, C1, C2, Haw1, Haw2, <- app_assoc. cbn [fst snd].
    rewrite (stored_commute _ _ _ _ fromC toC) by exact Hne.
    repeat split.
    replace (match task_result (toOutcome net) b2.1 with
             | Fulfilled _ =>
                 Promise_all false (task_result (fromOutcome net) b1.1)
                   (task_result (toOutcome net) b2.1)
             | Rejected e => Rejected e
             end)
      with (Promise_all false (task_result (fromOutcome net) b1.1)
              (task_result (toOutcome net) b2.1))
      by (destruct (task_result (fromOutcome net) b1.1),
                   (task_result (toOutcome net) b2.1); reflexivity).
    apply convert_resume_elements. rewrite C4, B4. reflexivity.
Qed.


Lemma started_messages (st : State) :
  textContent (result (elements (started st))) = [] /\
  ("hidden" ∈ classList (result (elements (started st)))) /\
  textContent (error (elements (started st))) = [] /\
  ("hidden" ∈ classList (error (elements (started st)))).
Proof.
  unfold started.
  pose proof (clearMessages_effect st) as (C1 & C2 & C3 & C4 & _).
  pose proof (setLoadingState_effect true (clearMessages st).2)
    as (_ & _ & _ & R & E & _).
  cbv zeta in *. rewrite R, E. repeat split; assumption.
Qed.

(** X9. After a run of [convert] that starts in the idle state, exactly one
    of the two message elements is visible and the other one is hidden and
    empty: either the error (validation failure, rejected price promise,
    failing arithmetic) or the result. *)
Theorem convert_shows_one_message (nowFrom nowTo : Z) (net : Network) (st : State)
    (Hidle : isConverting st = false) :
  let final := (convert nowFrom nowTo net st).2 in
  (("hidden" ∉ classList (error (elements final))) /\
   ("hidden" ∈ classList (result (elements final))) /\
   textContent (result (elements final)) = []) \/
  (("hidden" ∉ classList (result (elements final))) /\
   ("hidden" ∈ classList (error (elements final))) /\
   textContent (error (elements final)) = []).
Proof.
  cbv zeta. destruct (started_messages st) as (R1 & R2 & E1 & E2).
  destruct (validateInputs st).1 as [err | amount fromC toC] eqn:Hv.
  - left. unfold convert. rewrite bind_run.
    rewrite (convert_begin_idle nowFrom nowTo st Hidle), Hv. cbv zeta. cbn [fst snd ret].
    fold (started st).
    pose proof (showError_effect err (started st)) as (_ & S2 & S3 & _).
    pose proof (setLoadingState_effect false (showError err (started st)).2)
      as (_ & _ & _ & L1 & L2 & _).
    cbv zeta in *. rewrite L1, L2, S3. repeat split; assumption.
  - destruct (convert_valid_data nowFrom nowTo net st amount fromC toC Hidle Hv)
      as (_ & _ & _ & _ & _ & _ & Hels).
    rewrite Hels.
    match goal with |- context [convert_resume amount fromC toC ?p (started st)] =>
      pose proof (convert_resume_effect amount fromC toC p (started st))
        as (_ & _ & _ & _ & Heff);
      cbv zeta in Heff; destruct (amounts amount p) as [[usd conv]|e] end.
    + right. destruct Heff as (_ & H2 & H3 & _). rewrite H3.
      repeat split; assumption.
    + left. destruct Heff as (_ & H2 & H3 & _). rewrite H3.
      repeat split; assumption.
Qed.

Lemma convert_shows_one_message_witness :
  let net := Examples.network (Examples.answers 2) (Response 404 (Fulfilled Null)) in
  let final := (convert 1000 1000 net (Examples.idle "10" ∅)).2 in
  (("hidden" ∉ classList (error (elements final))) /\
   ("hidden" ∈ classList (result (elements final))) /\
   textContent (result (elements final)) = []) \/
  (("hidden" ∉ classList (result (elements final))) /\
   ("hidden" ∈ classList (error (elements final))) /\
   textContent (error (elements final)) = []).
Proof.
  exact (convert_shows_one_message 1000 1000
           (Examples.network (Examples.answers 2) (Response 404 (Fulfilled Null)))
           (Examples.idle "10" ∅) eq_refl).
Defined.

(** X10. A run of [convert] from the idle state makes no request when
    validation fails, and otherwise one request per price that the cache
    cannot give, the one for the source currency first: at most two, and
    none when both prices are cached. *)
Theorem convert_requests (nowFrom nowTo : Z) (net : Network) (st : State)
    (Hidle : isConverting st = false) :
  let final := (convert nowFrom nowTo net st).2 in
  match (validateInputs st).1 with
  | Invalid _ => requests final = requests st
  | Valid _ fromC toC =>
      requests final =
        (requests st
         ++ (if hit nowFrom fromC (priceCache st) then [] else [price_url fromC])
         ++ (if hit nowTo toC (priceCache st) then [] else [price_url toC]))%list
  end.
Proof.
  cbv zeta. destruct (validateInputs st).1 as [err | amount fromC toC] eqn:Hv.
  - destruct (convert_invalid nowFrom nowTo net err st Hidle Hv) as (_ & -> & H & _).
    exact H.
  - destruct (convert_valid_data nowFrom nowTo net st amount fromC toC Hidle Hv)
      as (_ & _ & _ & H & _).
    exact H.
Qed.

Lemma convert_requests_witness :
  requests (convert 60000 60000
              (Examples.network (Examples.answers 2) (Examples.answers 4))
              (Examples.idle "10" Examples.bitcoin_at_0)).2
  = [price_url "ethereum"].
Proof.
  pose proof (convert_requests 60000 60000
                (Examples.network (Examples.answers 2) (Examples.answers 4))
                (Examples.idle "10" Examples.bitcoin_at_0) eq_refl) as H.
  cbv zeta in H.
  assert ((validateInputs (Examples.idle "10" Examples.bitcoin_at_0)).1
          = Valid 10 "bitcoin" "ethereum") as Hv by (vm_compute; reflexivity).
  rewrite Hv in H. exact H.
Defined.

(** X11. Nothing is rolled back: in a run on valid inputs, a price that had
    to be fetched and whose response is readable is in the cache
    afterwards, with the time of storing, whatever became of the other
    price and of the conversion. *)
Theorem convert_keeps_fetched_prices (nowFrom nowTo : Z) (net : Network) (st : State)
    (amount : float) (fromC toC : string)
    (Hidle : isConverting st = false)
    (Hvalid : (validateInputs st).1 = Valid amount fromC toC) :
  let final := (convert nowFrom nowTo net st).2 in
  (forall p, hit nowFrom fromC (priceCache st) = false ->
     response_price (fromOutcome net) = Fulfilled p ->
     priceCache final !! fromC = Some {| price := p; timestamp := fromTime net |}) /\
  (forall p, hit nowTo toC (priceCache st) = false ->
     response_price (toOutcome net) = Fulfilled p ->
     priceCache final !! toC = Some {| price := p; timestamp := toTime net |}) /\
  (forall k, k <> fromC -> k <> toC -> priceCache final !! k = priceCache st !! k).
Proof.
  cbv zeta.
  destruct (validateInputs_valid st amount fromC toC Hvalid) as (Hne & _).
  destruct (convert_valid_data nowFrom nowTo net st amount fromC toC Hidle Hvalid)
    as (_ & _ & _ & _ & Hcache & _).
  rewrite Hcache. split; [|split].
  - intros p Hmiss Hp. rewrite stored_commute by congruence.
    unfold stored at 1. rewrite Hmiss, Hp. cbn [negb]. apply lookup_insert_eq.
  - intros p Hmiss Hp. unfold stored at 1. rewrite Hmiss, Hp. cbn [negb].
    apply lookup_insert_eq.
  - intros k Hk1 Hk2.
    assert (Hst : forall n t id o c, k <> id -> stored n t id o c !! k = c !! k).
    { intros n t id o c Hk. unfold stored.
      destruct n, (response_price o); try reflexivity.
      apply lookup_insert_ne. congruence. }
    rewrite !Hst by assumption. rewrite !looked_up_other by assumption. reflexivity.
Qed.

Lemma convert_keeps_fetched_prices_witness :
  let net := Examples.network (NetworkFailure (TypeError "Failed to fetch"))
                              (Examples.answers 4) in
  priceCache (convert 1000 1000 net (Examples.idle "10" ∅)).2 !! "ethereum"
  = Some {| price := Num 4; timestamp := 1400 |}.
Proof.
  cbv zeta.
  assert ((validateInputs (Examples.idle "10" ∅)).1 = Valid 10 "bitcoin" "ethereum")
    as Hv by (vm_compute; reflexivity).
  assert (hit 1000 "ethereum" (priceCache (Examples.idle "10" ∅)) = false) as Hmiss
    by reflexivity.
  apply (proj1 (proj2 (convert_keeps_fetched_prices 1000 1000
           (Examples.network (NetworkFailure (TypeError "Failed to fetch"))
                             (Examples.answers 4))
           (Examples.idle "10" ∅) 10 "bitcoin" "ethereum" eq_refl Hv))
         (Num 4) Hmiss eq_refl).
Defined.

(** X12. The cache spares the second conversion its requests: after a run
    on valid inputs in which both prices were fetched and are numbers, a
    further run in which each price is looked up at most 60000 ms after it
    was stored makes no request, whatever the network would answer, and
    shows the same result. *)
Theorem second_conversion_uses_cache (nowFrom nowTo : Z) (net : Network) (st : State)
    (amount fromPrice toPrice : float) (fromC toC : string)
    (Hidle : isConverting st = false)
    (Hvalid : (validateInputs st).1 = Valid amount fromC toC)
    (HmissFrom : hit nowFrom fromC (priceCache st) = false)
    (HmissTo : hit nowTo toC (priceCache st) = false)
    (HfromPrice : response_price (fromOutcome net) = Fulfilled (Num fromPrice))
    (HtoPrice : response_price (toOutcome net) = Fulfilled (Num toPrice))
    (againFrom againTo : Z) (net' : Network)
    (HfreshFrom : againFrom - fromTime net <= 60000)
    (HfreshTo : againTo - toTime net <= 60000) :
  let once := (convert nowFrom nowTo net st).2 in
  let twice := convert againFrom againTo net' once in
  twice.1 = RunSettled true (Fulfilled (Num fromPrice)) (Fulfilled (Num toPrice)) /\
  requests twice.2 = requests once /\
  priceCache twice.2 = priceCache once /\
  textContent (result (elements twice.2)) = textContent (result (elements once)) /\
  textContent (result (elements twice.2)) =
    result_message amount (getCryptoDisplayName fromC)
      (PrimFloat.div (PrimFloat.mul amount fromPrice) toPrice)
      (getCryptoDisplayName toC) (PrimFloat.mul amount fromPrice).
Proof.
  cbv zeta.
  destruct (validateInputs_valid st amount fromC toC Hvalid) as (Hne & _).
  destruct (convert_keeps_fetched_prices nowFrom nowTo net st amount fromC toC
              Hidle Hvalid) as (KF & KT & _).
  specialize (KF _ HmissFrom HfromPrice). specialize (KT _ HmissTo HtoPrice).
  destruct (convert_valid_data nowFrom nowTo net st amount fromC toC Hidle Hvalid)
    as (Hrun & Haw1 & Haw2 & _ & _ & Hidle1 & Hels).
  cbv zeta in *. rewrite HmissFrom in Haw1. rewrite HmissTo in Haw2.
  set (once := (convert nowFrom nowTo net st).2) in *.
  (* what the first run showed *)
  assert (forall s first, textContent (result (elements
            (convert_resume amount fromC toC
               (Promise_all first (Fulfilled (Num fromPrice)) (Fulfilled (Num toPrice)))
               s).2))
          = result_message amount (getCryptoDisplayName fromC)
              (PrimFloat.div (PrimFloat.mul amount fromPrice) toPrice)
              (getCryptoDisplayName toC) (PrimFloat.mul amount fromPrice)) as Hshown.
  { intros s first.
    pose proof (convert_resume_effect amount fromC toC
                  (Fulfilled (Num fromPrice, Num toPrice)) s) as (_ & _ & _ & _ & Heff).
    cbn [amounts JS.mul JS.div ToNumber] in Heff. destruct Heff as (H & _).
    destruct first; exact H. }
  assert (textContent (result (elements once))
          = result_message amount (getCryptoDisplayName fromC)
              (PrimFloat.div (PrimFloat.mul amount fromPrice) toPrice)
              (getCryptoDisplayName toC) (PrimFloat.mul amount fromPrice)) as Honce.
  { rewrite Hels.
    destruct (fetchPrice_begin nowFrom fromC (started st)).1; [discriminate Haw1|].
    destruct (fetchPrice_begin nowTo toC _).1; [discriminate Haw2|].
    cbn [task_result]. rewrite HfromPrice, HtoPrice. apply Hshown. }
  (* the inputs are those of the first run *)
  assert ((validateInputs once).1 = Valid amount fromC toC) as Hvalid1.
  { rewrite <- Hvalid. apply validateInputs_inputs.
    all: pose proof (convert_resume_inputs amount fromC toC
           (Promise_all
              (from_first net (fetchPrice_begin nowFrom fromC (started st)).1
                 (fetchPrice_begin nowTo toC
                    (fetchPrice_begin nowFrom fromC (started st)).2).1)
              (task_result (fromOutcome net)
                 (fetchPrice_begin nowFrom fromC (started st)).1)
              (task_result (toOutcome net)
                 (fetchPrice_begin nowTo toC
                    (fetchPrice_begin nowFrom fromC (started st)).2).1))
           (started st)) as Hin;
      destruct (started_data st) as (_ & _ & Hin0);
      unfold inputs in Hin, Hin0; rewrite <- Hels in Hin;
      rewrite Hin0 in Hin; congruence. }
  assert (hit againFrom fromC (priceCache once) = true) as HhF.
  { unfold hit. rewrite KF. cbn [timestamp price].
    destruct (Z.leb_spec (againFrom - fromTime net) 60000); [reflexivity | lia]. }
  assert (hit againTo toC (priceCache once) = true) as HhT.
  { unfold hit. rewrite KT. cbn [timestamp price].
    destruct (Z.leb_spec (againTo - toTime net) 60000); [reflexivity | lia]. }
  destruct (convert_valid_data againFrom againTo net' once amount fromC toC
              Hidle1 Hvalid1) as (Hrun2 & _ & _ & Hreq2 & Hcache2 & _ & Hels2).
  cbv zeta in *. unfold request_for in Hreq2. rewrite HhF, HhT in Hreq2, Hcache2.
  (* both tasks of the second run finish from the cache *)
  destruct (started_data once) as (S1 & _ & _).
  pose proof (fetchPrice_begin_data againFrom fromC (started once)) as (B1 & _ & B3).
  cbv zeta in B1, B3. rewrite S1, HhF in B3.
  destruct B3 as (c1 & Hc1 & _ & _ & Hsame1 & Ht1).
  rewrite KF in Hc1. injection Hc1 as <-. cbn [price to_string_throws] in Ht1.
  pose proof (fetchPrice_begin_data againTo toC
                (fetchPrice_begin againFrom fromC (started once)).2) as (_ & _ & C3).
  cbv zeta in C3. rewrite Hsame1, HhT in C3.
  destruct C3 as (c2 & Hc2 & _ & _ & _ & Ht2).
  rewrite KT in Hc2. injection Hc2 as <-. cbn [price to_string_throws] in Ht2.
  rewrite Ht1, Ht2 in Hrun2, Hels2. cbn [from_first task_result] in Hrun2, Hels2.
  split; [exact Hrun2|]. split; [rewrite Hreq2; cbn; apply app_nil_r|].
  split.
  - rewrite Hcache2. unfold stored. cbn [negb].
    unfold looked_up. rewrite KF.
    destruct (Z.ltb_spec 60000 (againFrom - timestamp {| price := Num fromPrice;
                                                         timestamp := fromTime net |}));
      [cbn in *; lia|].
    rewrite KT.
    destruct (Z.ltb_spec 60000 (againTo - timestamp {| price := Num toPrice;
                                                       timestamp := toTime net |}));
      [cbn in *; lia | reflexivity].
  - rewrite Honce, Hels2. split; apply Hshown.
Qed.

Lemma second_conversion_uses_cache_witness :
  let net := Examples.network (Examples.answers 2) (Examples.answers 4) in
  let once := (convert 1000 1000 net (Examples.idle "10" ∅)).2 in
  let twice := convert 61000 61000
                 (Examples.network (NetworkFailure (TypeError "Failed to fetch"))
                                   (NetworkFailure (TypeError "Failed to fetch")))
                 once in
  twice.1 = RunSettled true (Fulfilled (Num 2)) (Fulfilled (Num 4)) /\
  requests twice.2 = requests once.
Proof.
  cbv zeta.
  assert ((validateInputs (Examples.idle "10" ∅)).1 = Valid 10 "bitcoin" "ethereum")
    as Hv by (vm_compute; reflexivity).
  assert (hit 1000 "bitcoin" (priceCache (Examples.idle "10" ∅)) = false) as H1
    by reflexivity.
  assert (hit 1000 "ethereum" (priceCache (Examples.idle "10" ∅)) = false) as H2
    by reflexivity.
  destruct (second_conversion_uses_cache 1000 1000
              (Examples.network (Examples.answers 2) (Examples.answers 4))
              (Examples.idle "10" ∅) 10 2 4 "bitcoin" "ethereum"
              eq_refl Hv H1 H2 eq_refl eq_refl 61000 61000
              (Examples.network (NetworkFailure (TypeError "Failed to fetch"))
                                (NetworkFailure (TypeError "Failed to fetch"))))
    as (R1 & R2 & _).
  - cbn. lia.
  - cbn. lia.
  - split; [exact R1 | exact R2].
Defined.

End ConvertLaws.

(** ** Laws of [transfer.js] *)

Module TransferLaws.
Import JS Transfer Shown.

(** X13. [extractUsdPrice] finds a price in objects only: for [null],
    [undefined], a boolean, a number, a string or an array as the parsed
    body it returns [null], whatever they hold. *)
Theorem extractUsdPrice_needs_object (data : value)
    (Hshape : forall props, data <> Obj props) :
  extractUsdPrice data = Null.
Proof.
  unfold extractUsdPrice.
  destruct data as [| |b|x|s|elems|props]; try reflexivity.
  - destruct b; reflexivity.
  - destruct (negb (truthy (Num x))); reflexivity.
  - destruct (negb (truthy (Str s))); reflexivity.
  - exfalso. apply (Hshape props). reflexivity.
Qed.

Lemma extractUsdPrice_needs_object_witness :
  extractUsdPrice (Arr [Obj [("usd_price", Num 5)]]) = Null /\
  extractUsdPrice (Num 5) = Null.
Proof.
  split.
  - apply (extractUsdPrice_needs_object (Arr [Obj [("usd_price", Num 5)]])).
    discriminate.
  - apply (extractUsdPrice_needs_object (Num 5)). discriminate.
Defined.

(** X14. A run of [handleSubmit] makes exactly one request, for the
    selected coin, leaves the form fields alone, and ends with an error
    line or a price line: "Loading..." never stays.  A response with a
    status outside 200..299 gives the error line "HTTP <status>" whatever
    its body holds, and for a readable body the only error is "Unable to
    read usd_price from response". *)
Theorem handleSubmit_settles (o : fetch_outcome) (pg : Page) :
  let pg' := handleSubmit o pg in
  requests pg' =
    (requests pg ++ ["https://price-api.crypto.com/price/v1/token-price/"
                     +:+ crypto_value pg])%list /\
  crypto_value pg' = crypto_value pg /\ amount_value pg' = amount_value pg /\
  ((exists msg, resultEl pg' = error_line msg) \/
   (exists usdPrice, resultEl pg' = price_line (amount_of pg) usdPrice)) /\
  resultEl pg' <> [Lit "Loading..."] /\
  (forall status body, o = Response status body -> ok status = false ->
     resultEl pg' = error_line ("HTTP " +:+ pretty status)) /\
  (forall status data, o = Response status (Fulfilled data) -> ok status = true ->
     resultEl pg' = error_line "Unable to read usd_price from response" \/
     exists usdPrice, extractUsdPrice data = Num usdPrice /\
                      resultEl pg' = price_line (amount_of pg) usdPrice).
Proof.
  cbv zeta.
  assert (Hamount : (handleSubmit_begin pg).1 = amount_of pg).
  { unfold handleSubmit_begin, amount_of. cbn [fst truthy].
    destruct (String.eqb (amount_value pg) ""); reflexivity. }
  assert (Hcases :
    (exists msg, resultEl (handleSubmit o pg) = error_line msg /\
       (forall status data, o = Response status (Fulfilled data) -> ok status = true ->
          msg = "Unable to read usd_price from response")) \/
    (exists usdPrice, resultEl (handleSubmit o pg) = price_line (amount_of pg) usdPrice /\
       (forall status data, o = Response status (Fulfilled data) ->
          extractUsdPrice data = Num usdPrice))).
  { unfold handleSubmit. rewrite <- Hamount.
    unfold handleSubmit_begin at 1. unfold handleSubmit_resume.
    destruct o as [e|status [data|e]].
    - left. eexists. split; [reflexivity|]. intros ? ? H. discriminate H.
    - destruct (ok status) eqn:Hok; cbn [negb].
      + destruct (TransferProperties.extractUsdPrice_number_or_null data)
          as [Hn|[x Hx]].
        * rewrite Hn. left. eexists. split; [reflexivity|]. reflexivity.
        * rewrite Hx. right. exists x. split; [reflexivity|].
          intros ? ? H. injection H as <- <-. exact Hx.
      + left. eexists. split; [reflexivity|].
        intros ? ? H Hok'. injection H as <- <-. congruence.
    - destruct (ok status); cbn [negb].
      + left. eexists. split; [reflexivity|]. intros ? ? H. discriminate H.
      + left. eexists. split; [reflexivity|]. intros ? ? H. discriminate H. }
  assert (Hframe : requests (handleSubmit o pg) =
            (requests pg ++ ["https://price-api.crypto.com/price/v1/token-price/"
                             +:+ crypto_value pg])%list /\
          crypto_value (handleSubmit o pg) = crypto_value pg /\
          amount_value (handleSubmit o pg) = amount_value pg).
  { unfold handleSubmit, handleSubmit_begin, handleSubmit_resume.
    destruct o as [e|status [data|e]]; [repeat split | |].
    - destruct (negb (ok status)); [repeat split|].
      destruct (extractUsdPrice data); repeat split.
    - destruct (negb (ok status)); repeat split. }
  destruct Hframe as (F1 & F2 & F3).
  split; [exact F1|]. split; [exact F2|]. split; [exact F3|].
  split; [|split; [|split]].
  - destruct Hcases as [(msg & H & _)|(x & H & _)]; [left | right]; eauto.
  - destruct Hcases as [(msg & H & _)|(x & H & _)]; rewrite H; discriminate.
  - intros status body -> Hok. unfold handleSubmit, handleSubmit_begin,
      handleSubmit_resume. rewrite Hok. reflexivity.
  - intros status data -> Hok.
    destruct Hcases as [(msg & H & Hmsg)|(x & H & Hx)].
    + left. rewrite H. rewrite (Hmsg status data eq_refl Hok). reflexivity.
    + right. exists x. split; [apply (Hx status data eq_refl) | exact H].
Qed.

Lemma handleSubmit_settles_witness :
  resultEl (handleSubmit (Response 404 (Fulfilled (Obj [("usd_price", Num 5)])))
              (Examples.form "3"))
  = error_line "HTTP 404".
Proof.
  apply (proj1 (proj2 (proj2 (proj2 (proj2 (proj2
           (handleSubmit_settles
              (Response 404 (Fulfilled (Obj [("usd_price", Num 5)])))
              (Examples.form "3")))))))
         404 (Fulfilled (Obj [("usd_price", Num 5)])) eq_refl eq_refl).
Defined.

(** X15. [transfer.js] does not validate the amount.  An empty field counts
    as 0; any other text is parsed as it is, so a text that is no number
    gives NaN; in each case a readable price is shown, with the product of
    the two as the total. *)
Theorem handleSubmit_amount_unchecked (status : Z) (data : value) (usdPrice : float)
    (pg : Page)
    (Hok : ok status = true)
    (Hprice : extractUsdPrice data = Num usdPrice) :
  let shown := resultEl (handleSubmit (Response status (Fulfilled data)) pg) in
  shown = price_line (amount_of pg) usdPrice /\
  (amount_value pg = "" -> shown = price_line 0 usdPrice) /\
  (amount_value pg <> "" ->
     shown = price_line (parseFloat (amount_value pg)) usdPrice).
Proof.
  cbv zeta.
  assert (resultEl (handleSubmit (Response status (Fulfilled data)) pg)
          = price_line (amount_of pg) usdPrice) as H.
  { unfold handleSubmit, handleSubmit_begin, handleSubmit_resume, amount_of.
    rewrite Hok, Hprice. cbn [negb truthy].
    destruct (String.eqb (amount_value pg) ""); reflexivity. }
  rewrite H. split; [reflexivity|]. unfold amount_of. split.
  - intros ->. reflexivity.
  - intros Hne. apply String.eqb_neq in Hne. rewrite Hne. reflexivity.
Qed.

Lemma handleSubmit_amount_unchecked_witness :
  resultEl (handleSubmit (Examples.answers 5) (Examples.form "abc"))
  = price_line PrimFloat.nan 5.
Proof.
  apply (proj2 (proj2 (handleSubmit_amount_unchecked 200
                         (Obj [("usd_price", Num 5)]) 5 (Examples.form "abc")
                         eq_refl eq_refl))).
  discriminate.
Defined.

End TransferLaws.

(** ** Laws of the price panel *)

Module PanelLaws.
Import JS CryptoConverter Accounting ConversionProperties FetchLaws ConvertLaws.
Import PricePanel.

Lemma on_controller_run {A} (m : M A) (pn : Panel) :
  on_controller m pn = ((m (controller pn)).1, with_controller (m (controller pn)).2 pn).
Proof. unfold on_controller. destruct (m (controller pn)). reflexivity. Qed.

Lemma with_controller_id (pn : Panel) : with_controller (controller pn) pn = pn.
Proof. destruct pn. reflexivity. Qed.

(** The rest of [updatePrices]: the controller is as before, the two price
    elements show [shown_prices] or "Price unavailable". *)
Lemma updatePrices_resume_cases (t : Times) (fromC toC : string)
    (prices : settled (value * value)) (pn : Panel) :
  updatePrices_resume t fromC toC prices pn =
    let '(shownFrom, shownTo) :=
      match prices with
      | Rejected _ => (unavailable, unavailable)
      | Fulfilled (v1, v2) =>
          shown_prices t fromC toC v1 v2 (priceCache (controller pn))
      end in
    {| controller := controller pn; amountLabel := amountLabel pn;
       fromPrice := shownFrom; toPrice := shownTo |}.
Proof.
  unfold updatePrices_resume, shown_prices.
  destruct prices as [[v1 v2]|e]; [|reflexivity].
  rewrite !on_controller_run. rewrite !CacheProperties.getCacheStatus_cases.
  cbn [fst snd]. rewrite !with_controller_id.
  destruct (formatPrice v1) as [p1|e1]; [|reflexivity].
  destruct (formatPrice v2) as [p2|e2]; reflexivity.
Qed.

Lemma updatePrices_resume_controller (t : Times) (fromC toC : string)
    (prices : settled (value * value)) (pn : Panel) :
  controller (updatePrices_resume t fromC toC prices pn) = controller pn /\
  amountLabel (updatePrices_resume t fromC toC prices pn) = amountLabel pn.
Proof.
  rewrite updatePrices_resume_cases.
  destruct prices as [[v1 v2]|e]; [|split; reflexivity].
  destruct (shown_prices _ _ _ _ _ _). split; reflexivity.
Qed.

(** The display after the rest of [updatePrices] depends on the cache
    only. *)
Lemma updatePrices_resume_shown (t : Times) (fromC toC : string)
    (prices : settled (value * value)) (pn : Panel) :
  (fromPrice (updatePrices_resume t fromC toC prices pn),
   toPrice (updatePrices_resume t fromC toC prices pn)) =
    match prices with
    | Rejected _ => (unavailable, unavailable)
    | Fulfilled (v1, v2) =>
        shown_prices t fromC toC v1 v2 (priceCache (controller pn))
    end.
Proof.
  rewrite updatePrices_resume_cases.
  destruct prices as [[v1 v2]|e]; [|reflexivity].
  destruct (shown_prices _ _ _ _ _ _). reflexivity.
Qed.

(** Two fetch tasks settled in order around the rest of [updatePrices]. *)
Lemma settle_prices_data (t1 t2 : Z) (id1 id2 : string) (o1 o2 : fetch_outcome)
    (task1 task2 : fetch_task)
    (all : settled value -> settled value -> settled (value * value))
    (t : Times) (fromC toC : string) (pn : Panel) :
  let r := settle_prices (fetchPrice_finish t1 id1 o1 task1)
             (fetchPrice_finish t2 id2 o2 task2) all
             (updatePrices_resume t fromC toC) pn in
  let r1 := task_result o1 task1 in
  let r2 := task_result o2 task2 in
  let st := controller pn in
  r.1 = (r1, r2) /\
  priceCache (controller r.2) =
    stored (awaiting task2) t2 id2 o2 (stored (awaiting task1) t1 id1 o1 (priceCache st)) /\
  requests (controller r.2) = requests st /\
  isConverting (controller r.2) = isConverting st /\
  elements (controller r.2) = elements st /\
  amountLabel r.2 = amountLabel pn /\
  (fromPrice r.2, toPrice r.2) =
    match r1 with
    | Rejected _ => (unavailable, unavailable)
    | Fulfilled _ =>
        match all r1 r2 with
        | Rejected _ => (unavailable, unavailable)
        | Fulfilled (v1, v2) =>
            shown_prices t fromC toC v1 v2 (priceCache (controller r.2))
        end
    end.
Proof.
  cbv zeta. unfold settle_prices. rewrite on_controller_run.
  pose proof (fetchPrice_finish_data t1 id1 o1 task1 (controller pn)) as (A1 & A2 & A3).
  pose proof (fetchPrice_finish_controls t1 id1 o1 task1 (controller pn)) as [A4 A5].
  cbv zeta in *.
  set (s1 := (fetchPrice_finish t1 id1 o1 task1 (controller pn)).2) in *.
  rewrite A1. destruct (task_result o1 task1) as [v1|e1] eqn:Hr1.
  - rewrite on_controller_run. cbn [controller with_controller].
    pose proof (fetchPrice_finish_data t2 id2 o2 task2 s1) as (B1 & B2 & B3).
    pose proof (fetchPrice_finish_controls t2 id2 o2 task2 s1) as [B4 B5].
    cbv zeta in *.
    set (s2 := (fetchPrice_finish t2 id2 o2 task2 s1).2) in *.
    rewrite B1. cbn [fst snd].
    match goal with |- context [updatePrices_resume t fromC toC ?p ?q] =>
      pose proof (updatePrices_resume_controller t fromC toC p q) as [C1 C2];
      pose proof (updatePrices_resume_shown t fromC toC p q) as C3 end.
    cbn [controller with_controller amountLabel] in C1, C2, C3.
    rewrite C1, C2, C3.
    repeat split; congruence.
  - rewrite on_controller_run. cbn [fst snd].
    match goal with |- context [updatePrices_resume t fromC toC ?p ?q] =>
      pose proof (updatePrices_resume_controller t fromC toC p q) as [C1 C2];
      pose proof (updatePrices_resume_shown t fromC toC p q) as C3;
      set (resumed := updatePrices_resume t fromC toC p q) in * end.
    cbn [controller with_controller amountLabel] in C1, C2.
    rewrite C1.
    pose proof (fetchPrice_finish_data t2 id2 o2 task2 s1) as (B1 & B2 & B3).
    pose proof (fetchPrice_finish_controls t2 id2 o2 task2 s1) as [B4 B5].
    cbv zeta in *. rewrite B1. cbn [controller with_controller amountLabel fromPrice toPrice].
    repeat split; first [congruence | reflexivity].
Qed.


Lemma miss_stays (now now' : Z) (coinId : string) (cache : gmap string CacheEntry) :
  hit now coinId cache = false ->
  hit now' coinId (looked_up now coinId cache) = false.
Proof.
  unfold hit, looked_up. destruct (cache !! coinId) as [c|] eqn:Hc.
  - rewrite Z.leb_antisym.
    destruct (60000 <? now - timestamp c); cbn [negb andb].
    + intros _. rewrite lookup_delete_eq. reflexivity.
    + intros Hp. rewrite Hc, Hp. apply andb_false_r.
  - intros _. rewrite Hc. reflexivity.
Qed.

(** A run of [updatePrices], by what it leaves behind. *)
Lemma updatePrices_data (t : Times) (net : Network) (pn : Panel) :
  let st := controller pn in
  let fromC := value_ (fromCrypto (elements st)) in
  let toC := value_ (toCrypto (elements st)) in
  let sweptState := (clearExpiredCache (sweepTime t) st).2 in
  let swept := priceCache sweptState in
  let cache1 := looked_up (lookupFrom t) fromC swept in
  let cache2 := looked_up (lookupTo t) toC cache1 in
  let fromTask := (fetchPrice_begin (lookupFrom t) fromC sweptState).1 in
  let toTask :=
    (fetchPrice_begin (lookupTo t) toC
       (fetchPrice_begin (lookupFrom t) fromC sweptState).2).1 in
  let first := from_first net fromTask toTask in
  let rFrom := task_result (fromOutcome net) fromTask in
  let rTo := task_result (toOutcome net) toTask in
  let run := updatePrices t net pn in
  run.1 = (rFrom, rTo) /\
  awaiting fromTask = negb (hit (lookupFrom t) fromC swept) /\
  awaiting toTask = negb (hit (lookupTo t) toC cache1) /\
  requests (controller run.2) =
    (requests st ++ request_for (lookupFrom t) fromC swept
                 ++ request_for (lookupTo t) toC cache1)%list /\
  priceCache (controller run.2) =
    (if first
     then stored (awaiting toTask) (toTime net) toC (toOutcome net)
            (stored (awaiting fromTask) (fromTime net) fromC (fromOutcome net) cache2)
     else stored (awaiting fromTask) (fromTime net) fromC (fromOutcome net)
            (stored (awaiting toTask) (toTime net) toC (toOutcome net) cache2)) /\
  isConverting (controller run.2) = isConverting st /\
  elements (controller run.2) = elements st /\
  amountLabel run.2 = amountLabel pn /\
  (fromPrice run.2, toPrice run.2) =
    match Promise_all first rFrom rTo with
    | Rejected _ => (unavailable, unavailable)
    | Fulfilled (v1, v2) =>
        shown_prices t fromC toC v1 v2 (priceCache (controller run.2))
    end.
Proof.
  cbv zeta. unfold updatePrices, updatePrices_begin.
  rewrite !on_controller_run. cbn [fst snd controller with_controller
    set_fromPrice set_toPrice].
  set (st := controller pn).
  set (fromC := value_ (fromCrypto (elements st))).
  set (toC := value_ (toCrypto (elements st))).
  set (sweptState := (clearExpiredCache (sweepTime t) st).2).
  assert (isConverting sweptState = isConverting st /\
          elements sweptState = elements st /\
          requests sweptState = requests st) as (W1 & W2 & W3)
    by (repeat split; reflexivity).
  pose proof (fetchPrice_begin_data (lookupFrom t) fromC sweptState) as (B1 & B2 & B3).
  pose proof (fetchPrice_begin_controls (lookupFrom t) fromC sweptState) as [B4 B5].
  cbv zeta in B1, B2, B3.
  set (b1 := fetchPrice_begin (lookupFrom t) fromC sweptState) in *.
  pose proof (fetchPrice_begin_data (lookupTo t) toC b1.2) as (C1 & C2 & C3).
  pose proof (fetchPrice_begin_controls (lookupTo t) toC b1.2) as [C4 C5].
  cbv zeta in C1, C2, C3.
  set (b2 := fetchPrice_begin (lookupTo t) toC b1.2) in *.
  rewrite B1 in C1, C2, C3. rewrite B2, W3 in C2.
  assert (awaiting b1.1 = negb (hit (lookupFrom t) fromC (priceCache sweptState)))
    as Haw1.
  { destruct (hit (lookupFrom t) fromC (priceCache sweptState)).
    - destruct B3 as (c & _ & _ & _ & _ & ->). reflexivity.
    - rewrite B3. reflexivity. }
  assert (awaiting b2.1 =
          negb (hit (lookupTo t) toC
                  (looked_up (lookupFrom t) fromC (priceCache sweptState)))) as Haw2.
  { destruct (hit (lookupTo t) toC _).
    - destruct C3 as (c & _ & _ & _ & _ & ->). reflexivity.
    - rewrite C3. reflexivity. }
  destruct (from_first net b1.1 b2.1) eqn:Hfirst.
  - match goal with |- context [settle_prices _ _ _ _ ?q] =>
      pose proof (settle_prices_data (fromTime net) (toTime net) fromC toC
                    (fromOutcome net) (toOutcome net) b1.1 b2.1
                    (fun rFrom rTo => Promise_all true rFrom rTo)
                    t fromC toC q) as (D1 & D2 & D3 & D4 & D5 & D6 & D7) end.
    cbv zeta in D1, D2, D3, D4, D5, D6, D7.
    cbn [controller amountLabel with_controller set_toPrice set_fromPrice]
      in D2, D3, D4, D5, D6.
    rewrite D1, D7, D2, D3, D4, D5, D6, C1, C2, <- app_assoc. cbn [fst snd].
    repeat split; try assumption; try congruence.
    destruct (task_result (fromOutcome net) b1.1),
             (task_result (toOutcome net) b2.1); reflexivity.
  - match goal with |- context [settle_prices _ _ _ _ ?q] =>
      pose proof (settle_prices_data (toTime net) (fromTime net) toC fromC
                    (toOutcome net) (fromOutcome net) b2.1 b1.1
                    (fun rTo rFrom => Promise_all false rFrom rTo)
                    t fromC toC q) as (D1 & D2 & D3 & D4 & D5 & D6 & D7) end.
    cbv zeta in D1, D2, D3, D4, D5, D6, D7.
    cbn [controller amountLabel with_controller set_toPrice set_fromPrice]
      in D2, D3, D4, D5, D6.
    match goal with |- context [settle_prices ?a ?b ?c ?d ?q] =>
      destruct (settle_prices a b c d q) as [[rTo rFrom] pn2] end.
    cbn [fst snd] in *. injection D1 as -> ->.
    rewrite D7, D2, D3, D4, D5, D6, C1, C2, <- app_assoc.
    repeat split; try assumption; try congruence.
    destruct (task_result (fromOutcome net) b1.1),
             (task_result (toOutcome net) b2.1); reflexivity.
Qed.


Lemma shown_prices_cases (t : Times) (fromC toC : string) (v1 v2 : value)
    (cache : gmap string CacheEntry) :
  shown_prices t fromC toC v1 v2 cache = (unavailable, unavailable) \/
  exists p1 p2 s1 s2,
    formatPrice v1 = Fulfilled p1 /\ formatPrice v2 = Fulfilled p2 /\
    shown_prices t fromC toC v1 v2 cache =
      (price_markup (getCryptoDisplayName fromC) p1 s1,
       price_markup (getCryptoDisplayName toC) p2 s2).
Proof.
  unfold shown_prices.
  destruct (formatPrice v1) as [p1|]; [|left; reflexivity].
  destruct (formatPrice v2) as [p2|]; [|left; reflexivity].
  right. do 4 eexists. repeat split.
Qed.

(** X16. [updatePrices] shows both prices or none: after a run the two
    price elements hold either "Price unavailable", both of them, or the
    markup of a formatted price, both of them, and then both price promises
    were fulfilled.  A rejection of either promise gives "Price
    unavailable" twice.  "Loading..." never stays. *)
Theorem updatePrices_all_or_nothing (t : Times) (net : Network) (pn : Panel) :
  let run := updatePrices t net pn in
  let fromC := value_ (fromCrypto (elements (controller pn))) in
  let toC := value_ (toCrypto (elements (controller pn))) in
  ((fromPrice run.2 = unavailable /\ toPrice run.2 = unavailable) \/
   (exists v1 v2 p1 p2 s1 s2,
      run.1 = (Fulfilled v1, Fulfilled v2) /\
      formatPrice v1 = Fulfilled p1 /\ formatPrice v2 = Fulfilled p2 /\
      fromPrice run.2 = price_markup (getCryptoDisplayName fromC) p1 s1 /\
      toPrice run.2 = price_markup (getCryptoDisplayName toC) p2 s2)) /\
  (is_rejected run.1.1 || is_rejected run.1.2 = true ->
     fromPrice run.2 = unavailable /\ toPrice run.2 = unavailable) /\
  fromPrice run.2 <> loading /\ toPrice run.2 <> loading.
Proof.
  cbv zeta.
  destruct (updatePrices_data t net pn) as (H1 & _ & _ & _ & _ & _ & _ & _ & Hshown).
  cbv zeta in H1, Hshown. rewrite H1. cbn [fst snd].
  set (rFrom := task_result (fromOutcome net) _) in *.
  set (rTo := task_result (toOutcome net) _) in *.
  set (first := from_first net _ _) in *.
  assert (Hun : unavailable <> loading) by (vm_compute; discriminate).
  assert (Hpm : forall n p s, price_markup n p s <> loading)
    by (intros; discriminate).
  destruct rFrom as [v1|e1], rTo as [v2|e2]; cbn [Promise_all is_rejected orb] in *.
  - match type of Hshown with _ = shown_prices ?a ?b ?c ?d ?e ?f =>
      destruct (shown_prices_cases a b c d e f)
        as [Hu|(p1 & p2 & s1 & s2 & F1 & F2 & Hs)] end.
    + rewrite Hu in Hshown. injection Hshown as -> ->.
      split; [left; split; reflexivity|]. split; [discriminate|]. split; exact Hun.
    + rewrite Hs in Hshown. injection Hshown as -> ->.
      split; [right; exists v1, v2, p1, p2, s1, s2; repeat split; assumption|].
      split; [discriminate|]. split; apply Hpm.
  - injection Hshown as -> ->.
    split; [left; split; reflexivity|]. split; [split; reflexivity|]. split; exact Hun.
  - injection Hshown as -> ->.
    split; [left; split; reflexivity|]. split; [split; reflexivity|]. split; exact Hun.
  - destruct first; injection Hshown as -> ->.
    all: split; [left; split; reflexivity|]; split; [split; reflexivity|];
      split; exact Hun.
Qed.

Lemma updatePrices_all_or_nothing_witness :
  let run := updatePrices (at_once 1000)
               (Examples.network (Examples.answers 2) (Response 500 (Fulfilled Null)))
               (example (Examples.idle "10" ∅)) in
  fromPrice run.2 = unavailable /\ toPrice run.2 = unavailable.
Proof.
  cbv zeta.
  apply (proj1 (proj2 (updatePrices_all_or_nothing (at_once 1000)
           (Examples.network (Examples.answers 2) (Response 500 (Fulfilled Null)))
           (example (Examples.idle "10" ∅))))).
  vm_compute. reflexivity.
Defined.

(** X17. [updatePrices] leaves the conversion alone: [isConverting], every
    element of the controller (button, spinner, result, error, the form
    fields) and the label of the amount field are after a run what they
    were before it. *)
Theorem updatePrices_leaves_conversion_alone (t : Times) (net : Network) (pn : Panel) :
  let run := updatePrices t net pn in
  isConverting (controller run.2) = isConverting (controller pn) /\
  elements (controller run.2) = elements (controller pn) /\
  amountLabel run.2 = amountLabel pn.
Proof.
  cbv zeta.
  destruct (updatePrices_data t net pn) as (_ & _ & _ & _ & _ & H1 & H2 & H3 & _).
  repeat split; assumption.
Qed.

(** X18. [updatePrices] sweeps the cache first and then makes one request
    per price that the swept cache cannot give.  So an entry of a coin
    that is not selected is there afterwards exactly if it was at most
    60000 ms old at the sweep; and with the same coin selected twice and no
    price for it in the cache, the same request is made twice. *)
Theorem updatePrices_sweeps_and_requests (t : Times) (net : Network) (pn : Panel) :
  let st := controller pn in
  let fromC := value_ (fromCrypto (elements st)) in
  let toC := value_ (toCrypto (elements st)) in
  let swept := priceCache (clearExpiredCache (sweepTime t) st).2 in
  let final := controller (updatePrices t net pn).2 in
  requests final =
    (requests st
     ++ (if hit (lookupFrom t) fromC swept then [] else [price_url fromC])
     ++ (if hit (lookupTo t) toC (looked_up (lookupFrom t) fromC swept)
         then [] else [price_url toC]))%list /\
  (forall k e, k <> fromC -> k <> toC ->
     (priceCache final !! k = Some e <->
      priceCache st !! k = Some e /\ fresh (sweepTime t) e)) /\
  (fromC = toC -> hit (lookupFrom t) fromC swept = false ->
     requests final = (requests st ++ [price_url fromC; price_url fromC])%list).
Proof.
  cbv zeta.
  destruct (updatePrices_data t net pn) as (_ & _ & _ & Hreq & Hcache & _).
  cbv zeta in Hreq, Hcache. unfold request_for in Hreq.
  split; [exact Hreq|]. split.
  - intros k e Hk1 Hk2. rewrite Hcache.
    assert (Hst : forall n t' id o c, k <> id -> stored n t' id o c !! k = c !! k).
    { intros n t' id o c Hk. unfold stored.
      destruct n, (response_price o); try reflexivity.
      apply lookup_insert_ne. congruence. }
    destruct (from_first net _ _); rewrite !Hst by assumption;
      rewrite !looked_up_other by assumption; apply CacheLaws.swept_lookup.
  - intros Heq Hmiss. rewrite Hreq, Hmiss, <- Heq.
    rewrite (miss_stays _ _ _ _ Hmiss). reflexivity.
Qed.

Lemma updatePrices_sweeps_and_requests_witness :
  let pn := example
    {| isConverting := false; priceCache := ∅;
       elements :=
         {| fromCrypto := Examples.element "bitcoin";
            toCrypto := Examples.element "bitcoin";
            amountInput := Examples.element "1";
            convertBtn := Examples.element ""; convertText := Examples.element "";
            convertLoading := Examples.element ""; result := Examples.element "";
            error := Examples.element "" |};
       console := []; requests := [] |} in
  requests (controller
    (updatePrices (at_once 1000)
       (Examples.network (Examples.answers 2) (Examples.answers 2)) pn).2)
  = [price_url "bitcoin"; price_url "bitcoin"].
Proof.
  cbv zeta.
  match goal with |- requests (controller (updatePrices ?t ?n ?p).2) = _ =>
    apply (proj2 (proj2 (updatePrices_sweeps_and_requests t n p))) end.
  - reflexivity.
  - reflexivity.
Defined.



(** X20. A price that [updatePrices] has just fetched is labelled as
    cached: when the source price had to be fetched and is a number, the
    other price is there and can be formatted, and the two coins differ,
    the first price element shows the price with the remaining time of the
    entry stored a moment ago, 60 seconds within the first second. *)
Theorem updatePrices_labels_fresh_price (t : Times) (net : Network) (pn : Panel)
    (x : float) (v2 : value) (p2 : formatted)
    (Hdiffer : value_ (fromCrypto (elements (controller pn)))
               <> value_ (toCrypto (elements (controller pn))))
    (Hmiss : hit (lookupFrom t) (value_ (fromCrypto (elements (controller pn))))
               (priceCache (clearExpiredCache (sweepTime t) (controller pn)).2) = false)
    (Hprice : response_price (fromOutcome net) = Fulfilled (Num x))
    (Hother : (updatePrices t net pn).1.2 = Fulfilled v2)
    (Hformat : formatPrice v2 = Fulfilled p2)
    (Hsoon : 0 < 60 - (statusFrom t - fromTime net) / 1000) :
  exists p1,
    formatPrice (Num x) = Fulfilled p1 /\
    fromPrice (updatePrices t net pn).2 =
      price_markup
        (getCryptoDisplayName (value_ (fromCrypto (elements (controller pn))))) p1
        (cached_span (60 - (statusFrom t - fromTime net) / 1000)) /\
    (0 <= statusFrom t - fromTime net < 1000 ->
     fromPrice (updatePrices t net pn).2 =
       price_markup
         (getCryptoDisplayName (value_ (fromCrypto (elements (controller pn))))) p1
         (cached_span 60)).
Proof.
  destruct (updatePrices_data t net pn)
    as (H1 & Haw1 & _ & _ & Hcache & _ & _ & _ & Hshown).
  cbv zeta in H1, Haw1, Hcache, Hshown. rewrite H1 in Hother. cbn [fst snd] in Hother.
  rewrite Hmiss in Haw1. cbn [negb] in Haw1.
  set (fromC := value_ (fromCrypto (elements (controller pn)))) in *.
  set (toC := value_ (toCrypto (elements (controller pn)))) in *.
  set (fromTask := (fetchPrice_begin (lookupFrom t) fromC _).1) in *.
  set (toTask := (fetchPrice_begin (lookupTo t) toC _).1) in *.
  assert (task_result (fromOutcome net) fromTask = Fulfilled (Num x)) as HrF.
  { destruct fromTask; [discriminate Haw1 | exact Hprice]. }
  rewrite HrF, Hother in Hshown.
  assert (priceCache (controller (updatePrices t net pn).2) !! fromC
          = Some {| price := Num x; timestamp := fromTime net |}) as Hentry.
  { rewrite Hcache.
    assert (Hst : forall n t' o c, stored n t' toC o c !! fromC = c !! fromC).
    { intros n t' o c. unfold stored.
      destruct n, (response_price o); try reflexivity.
      apply lookup_insert_ne. congruence. }
    assert (Hown : forall c, stored (awaiting fromTask) (fromTime net) fromC
                               (fromOutcome net) c !! fromC
                             = Some {| price := Num x; timestamp := fromTime net |}).
    { intros c. unfold stored. rewrite Haw1, Hprice. apply lookup_insert_eq. }
    destruct (from_first net fromTask toTask); [rewrite Hst|]; apply Hown. }
  destruct (PrimFloat.leb 1 x) eqn:Hx.
  all: eexists; split;
    [unfold formatPrice; cbn [ToNumber]; rewrite Hx; reflexivity|].
  all: assert (forall first, Promise_all first (Fulfilled (Num x)) (Fulfilled v2)
                             = Fulfilled (Num x, v2)) as Hall by (intros []; reflexivity).
  all: rewrite Hall in Hshown; unfold shown_prices in Hshown;
    rewrite Hformat, Hentry in Hshown; unfold formatPrice in Hshown;
    cbn [ToNumber timestamp] in Hshown; rewrite Hx in Hshown.
  all: destruct (Z.ltb_spec 0 (60 - (statusFrom t - fromTime net) / 1000)); [|lia].
  all: injection Hshown as -> _; split; [reflexivity|].
  all: intros Hfirst; rewrite (Z.div_small _ _ Hfirst); reflexivity.
Qed.

Lemma updatePrices_labels_fresh_price_witness :
  fromPrice (updatePrices (at_once 1000)
               (Examples.network (Examples.answers 2) (Examples.answers 4))
               (example (Examples.idle "10" ∅))).2
  = price_markup (Lit "BTC") (Currency 2 2 6) (cached_span 60).
Proof.
  assert ((updatePrices (at_once 1000)
             (Examples.network (Examples.answers 2) (Examples.answers 4))
             (example (Examples.idle "10" ∅))).1.2 = Fulfilled (Num 4)) as Hother
    by (vm_compute; reflexivity).
  assert (hit (lookupFrom (at_once 1000)) "bitcoin"
            (priceCache (clearExpiredCache (sweepTime (at_once 1000))
                           (controller (example (Examples.idle "10" ∅)))).2) = false)
    as Hmiss by reflexivity.
  assert (formatPrice (Num 4) = Fulfilled (Currency 4 2 6)) as Hformat
    by (vm_compute; reflexivity).
  destruct (updatePrices_labels_fresh_price (at_once 1000)
              (Examples.network (Examples.answers 2) (Examples.answers 4))
              (example (Examples.idle "10" ∅)) 2 (Num 4) (Currency 4 2 6))
    as (p1 & Hp1 & _ & H60).
  - discriminate.
  - exact Hmiss.
  - reflexivity.
  - exact Hother.
  - exact Hformat.
  - reflexivity.
  - vm_compute in Hp1. injection Hp1 as <-. apply H60. cbn. lia.
Defined.

End PanelLaws.

(** ** Laws of the loading state *)

Module LoadingLaws.
Import JS CryptoConverter ConversionProperties.

Lemma setLoadingState_state (isLoading : bool) (st : State) :
  (setLoadingState isLoading st).2 =
    {| isConverting := isLoading; priceCache := priceCache st;
       elements :=
         {| fromCrypto := fromCrypto (elements st); toCrypto := toCrypto (elements st);
            amountInput := amountInput (elements st);
            convertBtn := with_disabled isLoading (convertBtn (elements st));
            convertText :=
              (if isLoading then classList_add "hidden" else classList_remove "hidden")
                (convertText (elements st));
            convertLoading :=
              (if isLoading then classList_remove "hidden" else classList_add "hidden")
                (convertLoading (elements st));
            result := result (elements st); error := error (elements st) |};
       console := console st; requests := requests st |}.
Proof. destruct isLoading; reflexivity. Qed.

Lemma add_add (c : string) (e : Element) :
  classList_add c (classList_add c e) = classList_add c e.
Proof.
  unfold classList_add. cbn. f_equal. apply set_eq. intros x.
  rewrite !elem_of_union. tauto.
Qed.

Lemma remove_remove (c : string) (e : Element) :
  classList_remove c (classList_remove c e) = classList_remove c e.
Proof.
  unfold classList_remove. cbn. f_equal. apply set_eq. intros x.
  rewrite !elem_of_difference. tauto.
Qed.

Lemma remove_add (c : string) (e : Element) :
  classList_remove c (classList_add c e) = classList_remove c e.
Proof.
  unfold classList_remove, classList_add. cbn. f_equal. apply set_eq. intros x.
  rewrite !elem_of_difference, elem_of_union. tauto.
Qed.

Lemma add_remove (c : string) (e : Element) :
  classList_add c (classList_remove c e) = classList_add c e.
Proof.
  unfold classList_remove, classList_add. cbn. f_equal. apply set_eq. intros x.
  rewrite !elem_of_union, elem_of_difference, elem_of_singleton.
  destruct (decide (x = c)); tauto.
Qed.

(** X21. [setLoadingState(isLoading)] makes [isConverting] and the
    button's [disabled] equal to [isLoading] and shows exactly one of label
    and spinner, whatever was shown before; of the classes of the two only
    [hidden] changes.  Setting the same state twice is setting it once, and
    a loading state that is set and reset leaves the controller as
    resetting alone does. *)
Theorem setLoadingState_toggles (isLoading : bool) (st : State) :
  let st' := (setLoadingState isLoading st).2 in
  isConverting st' = isLoading /\
  disabled (convertBtn (elements st')) = isLoading /\
  ("hidden" ∈ classList (convertText (elements st')) <-> isLoading = true) /\
  ("hidden" ∈ classList (convertLoading (elements st')) <-> isLoading = false) /\
  (forall c, c <> "hidden" ->
     (c ∈ classList (convertText (elements st'))
      <-> c ∈ classList (convertText (elements st))) /\
     (c ∈ classList (convertLoading (elements st'))
      <-> c ∈ classList (convertLoading (elements st)))) /\
  (setLoadingState isLoading st').2 = st' /\
  (setLoadingState false (setLoadingState true st).2).2 = (setLoadingState false st).2.
Proof.
  cbv zeta. rewrite !setLoadingState_state.
  cbn [isConverting elements convertBtn convertText convertLoading disabled
       priceCache console requests fromCrypto toCrypto amountInput result error
       with_disabled].
  split; [reflexivity|]. split; [reflexivity|].
  split; [|split; [|split; [|split]]].
  - destruct isLoading; cbn.
    + split; [reflexivity | intros _; apply class_added].
    + split; [intros H; exfalso; revert H; apply class_removed | discriminate].
  - destruct isLoading; cbn.
    + split; [intros H; exfalso; revert H; apply class_removed | discriminate].
    + split; [reflexivity | intros _; apply class_added].
  - intros c Hc. destruct isLoading; cbn;
      rewrite elem_of_union, elem_of_difference, elem_of_singleton; tauto.
  - destruct isLoading; cbn [with_disabled disabled value_ textContent classList];
      rewrite ?add_add, ?remove_remove; reflexivity.
  - cbn [with_disabled disabled value_ textContent classList].
    rewrite remove_add, add_remove. reflexivity.
Qed.

End LoadingLaws.
